(** * kinopub-api: the API test runner and the device-flow token helper

    A shallow embedding of [tools/kinoapi_tests/run_tests.py] and
    [tools/kinoapi_tests/extract_token.py], followed by the properties
    proved of them.

    - Python values that come out of [json.loads] are the inductive type
      [json]; a [dict] is an insertion-ordered association list, [None] is
      [JNull], a [float] is a binary64 float.
    - Python [int] is [Z]; [bool] is a subclass of [int], which
      [isinstance_int] records.
    - [str] is [string], read as ASCII: [lower], [strip] and [splitlines]
      follow Python on the ASCII range (Python also folds and splits on a
      few code points outside it).
    - The network, the clock, the environment, the file system and
      [json.loads] form the class [Host]; code that talks to them is
      written in the state monad [M] over the host's world.  The host
      always answers a request: a transport failure other than an HTTP
      error status ends the Python process with a traceback and is not a
      run of the model.
    - Console output and the snapshot files are left out; the list of
      results that [summary.json] is written from is what [_run_all]
      returns next to its exit code. *)

From Stdlib Require Import List String Ascii ZArith QArith Bool Lia Lqa Qround.
From Stdlib Require Import PrimFloat FloatOps SpecFloat DecimalString.
Import ListNotations.

Local Open Scope string_scope.
Local Open Scope Z_scope.
Local Open Scope list_scope.

(** ** Python strings *)

Module PyStr.

Definition chr (n : nat) : string := String (ascii_of_nat n) EmptyString.

Definition LF : string := chr 10.
Definition DQ : string := chr 34.

(** [fmt] plays the part of an f-string: the pieces are concatenated. *)
Definition fmt (pieces : list string) : string := String.concat EmptyString pieces.

(** [str.isspace] on one ASCII character: TAB, LF, VT, FF, CR, the four
    separators FS GS RS US, and the space. *)
Definition isspace (c : ascii) : bool :=
  let n := nat_of_ascii c in
  ((9 <=? n) && (n <=? 13) || (28 <=? n) && (n <=? 31) || (n =? 32))%nat.

Fixpoint lstrip (s : string) : string :=
  match s with
  | EmptyString => EmptyString
  | String c r => if isspace c then lstrip r else s
  end.

Fixpoint rstrip (s : string) : string :=
  match s with
  | EmptyString => EmptyString
  | String c r =>
      match rstrip r with
      | EmptyString => if isspace c then EmptyString else String c EmptyString
      | r' => String c r'
      end
  end.

Definition strip (s : string) : string := rstrip (lstrip s).

Definition lower_ascii (c : ascii) : ascii :=
  let n := nat_of_ascii c in
  if ((65 <=? n) && (n <=? 90))%nat then ascii_of_nat (n + 32) else c.

Fixpoint lower (s : string) : string :=
  match s with
  | EmptyString => EmptyString
  | String c r => String (lower_ascii c) (lower r)
  end.

Definition startswith (s p : string) : bool := String.prefix p s.

Fixpoint rev_string (s : string) : string :=
  match s with
  | EmptyString => EmptyString
  | String c r => String.append (rev_string r) (String c EmptyString)
  end.

Definition endswith (s p : string) : bool :=
  String.prefix (rev_string p) (rev_string s).

(** Python truth value of a string. *)
Definition nonempty (s : string) : bool :=
  match s with EmptyString => false | _ => true end.

(** Line boundaries of [str.splitlines] in the ASCII range: LF, CR, CR LF,
    VT, FF, FS, GS, RS. *)
Definition is_linebreak (c : ascii) : bool :=
  let n := nat_of_ascii c in
  ((10 <=? n) && (n <=? 13) || (28 <=? n) && (n <=? 30))%nat.

(** [splitlines_from cur s]: [cur] is the current line, reversed. *)
Fixpoint splitlines_from (cur : string) (s : string) : list string :=
  match s with
  | EmptyString =>
      match cur with EmptyString => [] | _ => [rev_string cur] end
  | String c r =>
      if is_linebreak c then
        match nat_of_ascii c, r with
        | 13%nat, String c' r' =>
            if (nat_of_ascii c' =? 10)%nat
            then rev_string cur :: splitlines_from EmptyString r'
            else rev_string cur :: splitlines_from EmptyString r
        | _, _ => rev_string cur :: splitlines_from EmptyString r
        end
      else splitlines_from (String c cur) r
  end.

Definition splitlines (s : string) : list string := splitlines_from EmptyString s.

(** [str(n)] for an [int]. *)
Definition str_int (n : Z) : string := NilZero.string_of_int (Z.to_int n).

Definition str_nat (n : nat) : string := str_int (Z.of_nat n).

End PyStr.
Import PyStr.

(** ** Python values as produced by [json.loads] *)

#[local] Set Warnings "-register-all".

Inductive json : Type :=
| JNull
| JBool (b : bool)
| JInt (n : Z)
| JFloat (f : float)
| JStr (s : string)
| JList (xs : list json)
| JDict (items : list (string * json)).

(** Induction that reaches the elements of lists and the values of dicts. *)
Section JsonInd.
Variable P : json -> Prop.
Hypothesis Hnull : P JNull.
Hypothesis Hbool : forall b, P (JBool b).
Hypothesis Hint : forall n, P (JInt n).
Hypothesis Hfloat : forall f, P (JFloat f).
Hypothesis Hstr : forall s, P (JStr s).
Hypothesis Hlist : forall xs, Forall P xs -> P (JList xs).
Hypothesis Hdict : forall items, Forall (fun kv => P (snd kv)) items -> P (JDict items).

Fixpoint json_deep_ind (x : json) : P x :=
  match x with
  | JNull => Hnull
  | JBool b => Hbool b
  | JInt n => Hint n
  | JFloat f => Hfloat f
  | JStr s => Hstr s
  | JList xs =>
      Hlist xs
        ((fix go (l : list json) : Forall P l :=
            match l with
            | [] => Forall_nil _
            | y :: l' => Forall_cons y (json_deep_ind y) (go l')
            end) xs)
  | JDict items =>
      Hdict items
        ((fix go (l : list (string * json)) : Forall (fun kv => P (snd kv)) l :=
            match l with
            | [] => Forall_nil _
            | kv :: l' => Forall_cons kv (json_deep_ind (snd kv)) (go l')
            end) items)
  end.
End JsonInd.

Module PyDict.

Definition dict := list (string * json).

(** [d.get(k)]: [None] when the key is absent. *)
Fixpoint get (d : dict) (k : string) : json :=
  match d with
  | [] => JNull
  | (k', v) :: r => if String.eqb k' k then v else get r k
  end.

(** [k in d]. *)
Fixpoint has (d : dict) (k : string) : bool :=
  match d with
  | [] => false
  | (k', _) :: r => String.eqb k' k || has r k
  end.

(** [d[k] = v]: an existing key keeps its place, a new key goes last. *)
Fixpoint set (d : dict) (k : string) (v : json) : dict :=
  match d with
  | [] => [(k, v)]
  | (k', v') :: r => if String.eqb k' k then (k', v) :: r else (k', v') :: set r k v
  end.

Definition keys (d : dict) : list string := map fst d.

End PyDict.

(** A Python [dict] holds each key once; so does every dict inside it. *)
Fixpoint nodup_keys (ks : list string) : bool :=
  match ks with
  | [] => true
  | k :: r => negb (existsb (String.eqb k) r) && nodup_keys r
  end.

Fixpoint py_value (x : json) : bool :=
  match x with
  | JList xs => forallb py_value xs
  | JDict items =>
      nodup_keys (map fst items) && forallb (fun kv => py_value (snd kv)) items
  | _ => true
  end.

(** ** run_tests.py: redaction of JSON snapshots *)

Definition _SENSITIVE_JSON_KEYS : list string :=
  [ "access_token"; "refresh_token"; "client_secret"; "device_token";
    "code"; "user_code" ].

Definition REDACTED : string := "<REDACTED>".

(** [isinstance(k, str) and k.lower() in _SENSITIVE_JSON_KEYS]; the keys of
    a JSON object are always [str]. *)
Definition is_sensitive_key (k : string) : bool :=
  existsb (String.eqb (lower k)) _SENSITIVE_JSON_KEYS.

Fixpoint _redact_json (obj : json) : json :=
  match obj with
  | JNull => JNull
  | JDict items =>
      JDict
        (fold_left
           (fun out kv =>
              let '(k, v) := kv in
              if is_sensitive_key k
              then PyDict.set out k (JStr REDACTED)
              else PyDict.set out k (_redact_json v))
           items [])
  | JList xs => JList (map _redact_json xs)
  | _ => obj
  end.

(** *** The redaction contract, in the words of the specification *)

Definition is_marker (v : json) : bool :=
  match v with
  | JStr s => String.eqb s REDACTED
  | _ => false
  end.

(** No sensitive key, at any depth, is left with a value other than the
    marker. *)
Fixpoint secrets_redacted (y : json) : bool :=
  match y with
  | JList ys => forallb secrets_redacted ys
  | JDict items =>
      forallb
        (fun kv =>
           if is_sensitive_key (fst kv) then is_marker (snd kv)
           else secrets_redacted (snd kv))
        items
  | _ => true
  end.





(** The dict loop of [_redact_json], entry by entry. *)
Definition redact_entry (kv : string * json) : string * json :=
  (fst kv, if is_sensitive_key (fst kv) then JStr REDACTED else _redact_json (snd kv)).

(** [for k, v in entries: out[k] = v] *)
Definition assign_all (out entries : PyDict.dict) : PyDict.dict :=
  fold_left (fun out kv => PyDict.set out (fst kv) (snd kv)) entries out.

(** ** Python's dynamic checks on values *)

Definition is_none (x : json) : bool :=
  match x with JNull => true | _ => false end.

Definition is_dict (x : json) : bool :=
  match x with JDict _ => true | _ => false end.

Definition is_list (x : json) : bool :=
  match x with JList _ => true | _ => false end.

Definition is_str (x : json) : bool :=
  match x with JStr _ => true | _ => false end.

Definition is_bool (x : json) : bool :=
  match x with JBool _ => true | _ => false end.

(** [isinstance(x, int)]: [bool] is a subclass of [int]. *)
Definition isinstance_int (x : json) : bool :=
  match x with JInt _ | JBool _ => true | _ => false end.

(** [isinstance(x, (int, float))] *)
Definition isinstance_num (x : json) : bool :=
  match x with JInt _ | JBool _ | JFloat _ => true | _ => false end.

(** [isinstance(x, (int, str))] *)
Definition isinstance_int_or_str (x : json) : bool :=
  match x with JInt _ | JBool _ | JStr _ => true | _ => false end.

(** Truth value of a Python object. *)
Definition truthy (x : json) : bool :=
  match x with
  | JNull => false
  | JBool b => b
  | JInt n => negb (n =? 0)
  | JFloat f => negb (PrimFloat.eqb f PrimFloat.zero)
  | JStr s => nonempty s
  | JList xs => match xs with [] => false | _ => true end
  | JDict d => match d with [] => false | _ => true end
  end.

(** [a or b] *)
Definition py_or (a b : json) : json := if truthy a then a else b.

(** [x == 1], as in [selected in (1, True)]. *)
Definition equals_one (x : json) : bool :=
  match x with
  | JInt n => n =? 1
  | JBool b => b
  | JFloat f => PrimFloat.eqb f PrimFloat.one
  | _ => false
  end.

(** The integer a float stands for, when it stands for one. *)
Definition float_to_Z (f : float) : option Z :=
  match Prim2SF f with
  | S754_zero _ => Some 0
  | S754_finite s m e =>
      let mag := Z.pos m in
      let sign := if s then (-1) else 1 in
      if 0 <=? e then Some (sign * mag * 2 ^ e)
      else if (mag mod 2 ^ (- e)) =? 0 then Some (sign * (mag / 2 ^ (- e)))
      else None
  | _ => None
  end.

(** [x == n] for an [int] (or [bool]) [n]. *)
Definition as_int (x : json) : option Z :=
  match x with
  | JInt n => Some n
  | JBool b => Some (if b then 1 else 0)
  | JFloat f => float_to_Z f
  | _ => None
  end.

Definition py_eq_num (x n : json) : bool :=
  match as_int x, as_int n with
  | Some a, Some b => a =? b
  | _, _ => false
  end.

(** [str(x)] as the runner uses it in paths and messages: every value it
    formats has passed [isinstance(_, int)] or is a [str]. *)
Definition py_str (x : json) : string :=
  match x with
  | JNull => "None"
  | JBool true => "True"
  | JBool false => "False"
  | JInt n => str_int n
  | JStr s => s
  | _ => EmptyString
  end.

(** Truth value of an [Optional[str]]. *)
Definition opt_truthy (s : option string) : bool :=
  match s with Some s => nonempty s | None => false end.

Fixpoint enumerate_from {A : Type} (i : nat) (l : list A) : list (nat * A) :=
  match l with
  | [] => []
  | a :: r => (i, a) :: enumerate_from (S i) r
  end.

Definition enumerate {A : Type} (l : list A) : list (nat * A) := enumerate_from 0 l.

Fixpoint contains (s sub : string) : bool :=
  String.prefix sub s ||
  match s with
  | EmptyString => false
  | String _ r => contains r sub
  end.

Fixpoint lstrip_char (c : ascii) (s : string) : string :=
  match s with
  | EmptyString => EmptyString
  | String c' r => if Ascii.eqb c' c then lstrip_char c r else s
  end.

Definition rstrip_char (c : ascii) (s : string) : string :=
  rev_string (lstrip_char c (rev_string s)).

(** ** The host: network, clock, environment, files, and the JSON parser *)

Module Request.
Record t : Type := mk {
  method : string;
  url : string;
  bearer : option string;
  query : PyDict.dict;
  form : option PyDict.dict;
  body : option string;
  content_type : option string
}.
End Request.

Module HttpResponse.
Record t : Type := mk {
  status : Z;
  headers : list (string * string);
  raw_text : string;
  json : json
}.
End HttpResponse.

(** [urlopen] answers a request with a status, headers and a decoded body
    (an [HTTPError] is an answer like any other) and moves the world on.
    [time_time] reads the clock, in seconds; [time_sleep] lets time pass.
    [os_environ_get] and [open_read] read the environment and a text file
    ([None]: unset, or the file cannot be opened or decoded).  [json_loads]
    is [None] where [json.loads] raises. *)
Class Host : Type := {
  World : Type;
  urlopen : Request.t -> World -> (Z * list (string * string) * string) * World;
  time_time : World -> Q * World;
  time_sleep : Z -> World -> World;
  os_environ_get : string -> option string;
  open_read : string -> option string;
  json_loads : string -> option json
}.

(** Computations that talk to the host. *)
Definition M `{Host} (A : Type) : Type := World -> A * World.

Definition ret `{Host} {A : Type} (a : A) : M A := fun w => (a, w).

Definition bind `{Host} {A B : Type} (m : M A) (k : A -> M B) : M B :=
  fun w => let (a, w') := m w in k a w'.

Notation "x <- m ;; k" := (bind m (fun x => k))
  (at level 61, m at next level, right associativity).
Notation "' pat <- m ;; k" := (bind m (fun x => match x with pat => k end))
  (at level 61, pat pattern, m at next level, right associativity).

(** [for x in xs: acc = body(x, acc)] *)
Fixpoint for_each `{Host} {A S : Type} (xs : list A) (acc : S) (body : A -> S -> M S) : M S :=
  match xs with
  | [] => ret acc
  | x :: r => acc' <- body x acc ;; for_each r acc' body
  end.

(** ** run_tests.py: HTTP helper *)

Definition BASE_URL_DEFAULT : string := "https://api.service-kp.com/".
Definition ENV_ACCESS_TOKEN : string := "KINOPUB_ACCESS_TOKEN".

Fixpoint headers_get (headers : list (string * string)) (k dflt : string) : string :=
  match headers with
  | [] => dflt
  | (k', v) :: r => if String.eqb k' k then v else headers_get r k dflt
  end.

Definition _is_json_content_type (headers : list (string * string)) : bool :=
  let ct := headers_get headers "Content-Type" EmptyString in
  contains ct "application/json" || contains ct "application/js" || contains ct "+json".

(** What a request carries: [form=...], [body=...] (with its content
    type), or neither.  No caller passes both, the one case in which
    [_http_request] raises [ValueError]. *)
Inductive Payload : Type :=
| NoPayload
| Form (form : PyDict.dict)
| Body (body : string) (body_content_type : option string).

(** The tail of [_http_request] and of [_http_post_query]: the parsed JSON
    of a response, [None] when there is none. *)
Definition parsed_json `{Host} (resp_headers : list (string * string)) (raw_text : string) : json :=
  if nonempty raw_text then
    if _is_json_content_type resp_headers
       || startswith (lstrip raw_text) "{" || startswith (lstrip raw_text) "["
    then match json_loads raw_text with
         | Some v => v
         | None => JNull
         end
    else JNull
  else JNull.

Definition _http_request `{Host} (base_url method path : string) (token : option string)
    (query : PyDict.dict) (payload : Payload) : M HttpResponse.t :=
  let url := fmt [rstrip_char "/" base_url; "/"; lstrip_char "/" path] in
  let bearer := if opt_truthy token then token else None in
  let rq :=
    match payload with
    | NoPayload => Request.mk method url bearer query None None None
    | Form form =>
        Request.mk method url bearer query (Some form) None
          (Some "application/x-www-form-urlencoded")
    | Body body ct =>
        Request.mk method url bearer query None (Some body)
          (if opt_truthy ct then ct else None)
    end in
  '(status, resp_headers, raw_text) <- urlopen rq ;;
  ret (HttpResponse.mk status resp_headers raw_text (parsed_json resp_headers raw_text)).

Definition _ensure_trailing_slash (url : string) : string :=
  if endswith url "/" then url else fmt [url; "/"].

Definition drop_last (n : nat) (s : string) : string :=
  String.substring 0 (String.length s - n) s.

Definition _derive_api2_base_url (v1_base_url : string) : string :=
  if endswith v1_base_url "/api/" then _ensure_trailing_slash (drop_last 4 v1_base_url)
  else if endswith v1_base_url "/api" then _ensure_trailing_slash (drop_last 3 v1_base_url)
  else _ensure_trailing_slash v1_base_url.

(** ** run_tests.py: shape validation *)

Definition _type_name (x : json) : string :=
  match x with
  | JNull => "NoneType"
  | JBool _ => "bool"
  | JInt _ => "int"
  | JFloat _ => "float"
  | JStr _ => "str"
  | JList _ => "list"
  | JDict _ => "dict"
  end.

(** The accumulator [errors] is passed in and handed back. *)
Definition _require (cond : bool) (msg : string) (errors : list string) : list string :=
  if cond then errors else errors ++ [msg].

Definition _expect_obj (x : json) (where_ : string) (errors : list string) : list string :=
  _require (is_dict x) (fmt [where_; ": expected object, got "; _type_name x]) errors.

Definition _expect_list (x : json) (where_ : string) (errors : list string) : list string :=
  _require (is_list x) (fmt [where_; ": expected array, got "; _type_name x]) errors.

Definition _expect_str (x : json) (where_ : string) (errors : list string) : list string :=
  _require (is_str x) (fmt [where_; ": expected string, got "; _type_name x]) errors.

Definition _expect_int (x : json) (where_ : string) (errors : list string) : list string :=
  _require (isinstance_int x && negb (is_bool x))
    (fmt [where_; ": expected int, got "; _type_name x]) errors.

Definition _expect_bool (x : json) (where_ : string) (errors : list string) : list string :=
  _require (is_bool x) (fmt [where_; ": expected bool, got "; _type_name x]) errors.

Definition _expect_num (x : json) (where_ : string) (errors : list string) : list string :=
  _require (isinstance_num x && negb (is_bool x))
    (fmt [where_; ": expected number, got "; _type_name x]) errors.

Definition _get (obj : PyDict.dict) (key : string) : json := PyDict.get obj key.

(** ** run_tests.py: test outcomes *)

Inductive Status : Type := PASS | FAIL | SKIP.

Module TestOutcome.
Record t : Type := mk {
  status : Status;
  errors : list string;
  context_updates : PyDict.dict
}.
End TestOutcome.

(** ["PASS" if not errors else "FAIL"] *)
Definition pass_if_none (errors : list string) : Status :=
  match errors with
  | [] => PASS
  | _ => FAIL
  end.

(** [if "status" in d and d["status"] is not None: _expect_int(...)] *)
Definition expect_int_if_present (d : PyDict.dict) (key where_ : string)
    (errors : list string) : list string :=
  if PyDict.has d key && negb (is_none (PyDict.get d key))
  then _expect_int (PyDict.get d key) where_ errors
  else errors.

Definition expect_str_if_present (d : PyDict.dict) (key where_ : string)
    (errors : list string) : list string :=
  if PyDict.has d key && negb (is_none (PyDict.get d key))
  then _expect_str (PyDict.get d key) where_ errors
  else errors.

(** ** run_tests.py: the test routines

    Each routine issues its requests, validates the answers into [errors]
    and returns a [TestOutcome] (some with an identifier picked for later
    tests, [None] when there is none).  The [out_dir] argument and the
    snapshot writes are left out. *)

Definition test_user `{Host} (base_url token : string) : M TestOutcome.t :=
  resp <- _http_request base_url "GET" "/v1/user" (Some token) [] NoPayload ;;
  let errors := [] in
  let errors := _require (negb (is_none (HttpResponse.json resp))) "response is not JSON" errors in
  let errors :=
    match HttpResponse.json resp with
    | JDict d =>
        let errors := _expect_int (_get d "status") "status" errors in
        let user := _get d "user" in
        let errors := _expect_obj user "user" errors in
        match user with
        | JDict u =>
            let errors := _expect_str (_get u "username") "user.username" errors in
            let sub := PyDict.get u "subscription" in
            let errors :=
              if negb (is_none sub) then
                let errors := _expect_obj sub "user.subscription" errors in
                match sub with
                | JDict s =>
                    if PyDict.has s "active"
                    then _expect_bool (PyDict.get s "active") "user.subscription.active" errors
                    else errors
                | _ => errors
                end
              else errors in
            let prof := PyDict.get u "profile" in
            if negb (is_none prof) then _expect_obj prof "user.profile" errors else errors
        | _ => errors
        end
    | other => _expect_obj other "root" errors
    end in
  ret (TestOutcome.mk (pass_if_none errors) errors []).

Definition test_oauth_device_flow_pending `{Host} (base_url client_id client_secret : string)
    : M TestOutcome.t :=
  let errors := [] in
  r_code <- _http_request base_url "POST" "/oauth2/device" None
              [("grant_type", JStr "device_code"); ("client_id", JStr client_id);
               ("client_secret", JStr client_secret)] NoPayload ;;
  let errors := _require (is_dict (HttpResponse.json r_code)) "device_code: expected JSON object" errors in
  let '(code, errors) :=
    match HttpResponse.json r_code with
    | JDict d =>
        let code := PyDict.get d "code" in
        let errors := _expect_str code "device_code.code" errors in
        let errors := _expect_str (PyDict.get d "user_code") "device_code.user_code" errors in
        let errors := _expect_str (PyDict.get d "verification_uri") "device_code.verification_uri" errors in
        let errors := _expect_int (PyDict.get d "expires_in") "device_code.expires_in" errors in
        let errors := _expect_int (PyDict.get d "interval") "device_code.interval" errors in
        (code, errors)
    | _ => (JNull, errors)
    end in
  if negb (truthy code) then
    let errors := errors ++ ["device_code: missing code; cannot test device_token polling"] in
    ret (TestOutcome.mk FAIL errors [])
  else
    r_poll <- _http_request base_url "POST" "/oauth2/device" None
                [("grant_type", JStr "device_token"); ("client_id", JStr client_id);
                 ("client_secret", JStr client_secret); ("code", code)] NoPayload ;;
    let errors := _require (is_dict (HttpResponse.json r_poll)) "device_token poll: expected JSON object" errors in
    let errors :=
      match HttpResponse.json r_poll with
      | JDict d =>
          if PyDict.has d "error" then
            _expect_str (PyDict.get d "error") "device_token.error" errors
          else
            let errors := _expect_str (PyDict.get d "access_token") "device_token.access_token" errors in
            let errors := _expect_str (PyDict.get d "refresh_token") "device_token.refresh_token" errors in
            _expect_int (PyDict.get d "expires_in") "device_token.expires_in" errors
      | _ => errors
      end in
    ret (TestOutcome.mk (pass_if_none errors) errors []).

Definition test_api2_items_search `{Host} (api2_base_url token : string)
    : M (TestOutcome.t * json) :=
  let errors := [] in
  resp <- _http_request api2_base_url "GET" "api2/v1.1/items/search" (Some token)
            [("q", JStr "terminator")] NoPayload ;;
  let errors := _require (negb (is_none (HttpResponse.json resp))) "api2 search: response is not JSON" errors in
  let item_id := JNull in
  let '(item_id, errors) :=
    match HttpResponse.json resp with
    | JDict d =>
        let items := PyDict.get d "items" in
        let item_id :=
          match items with
          | JList (JDict it0 :: _) =>
              if isinstance_int (PyDict.get it0 "id") then PyDict.get it0 "id" else item_id
          | _ => item_id
          end in
        if is_none item_id
        then (item_id, errors ++ ["api2 search: could not pick itemId from items[]"])
        else (item_id, errors)
    | other => (item_id, _expect_obj other "api2 search root" errors)
    end in
  ret (TestOutcome.mk (pass_if_none errors) errors [], item_id).

Definition test_api2_item_details `{Host} (api2_base_url token : string) (item_id : json)
    : M TestOutcome.t :=
  let errors := [] in
  resp <- _http_request api2_base_url "GET" (fmt ["api2/v1.1/items/"; py_str item_id])
            (Some token) [] NoPayload ;;
  let errors := _require (negb (is_none (HttpResponse.json resp))) "api2 item: response is not JSON" errors in
  let meta := [("imdb_id", JNull); ("kinopoisk_id", JNull)] in
  let '(meta, errors) :=
    match HttpResponse.json resp with
    | JDict d =>
        if PyDict.has d "item" then
          let errors := _expect_obj (PyDict.get d "item") "api2 item.item" errors in
          match PyDict.get d "item" with
          | JDict it =>
              let imdb := PyDict.get it "imdb" in
              let kp := PyDict.get it "kinopoisk" in
              let meta :=
                if isinstance_int imdb && negb (is_bool imdb)
                then PyDict.set meta "imdb_id" imdb else meta in
              let meta :=
                if isinstance_int kp && negb (is_bool kp)
                then PyDict.set meta "kinopoisk_id" kp else meta in
              (meta, errors)
          | _ => (meta, errors)
          end
        else if PyDict.has d "id" then
          (meta, _expect_int (PyDict.get d "id") "api2 item.id" errors)
        else (meta, errors)
    | other => (meta, _expect_obj other "api2 item root" errors)
    end in
  ret (TestOutcome.mk (pass_if_none errors) errors meta).

Definition test_api2_backdrop `{Host} (api2_base_url token : string) (imdb_id kinopoisk_id : json)
    : M TestOutcome.t :=
  let errors := [] in
  resp <- _http_request api2_base_url "GET" (fmt ["api2/v1/backdrop/"; py_str imdb_id])
            (Some token) [("kp_id", kinopoisk_id)] NoPayload ;;
  if HttpResponse.status resp =? 404 then
    ret (TestOutcome.mk SKIP
           ["api2 backdrop returned 404 (no data for this title or endpoint disabled)"] [])
  else
    let errors :=
      _require (HttpResponse.status resp =? 200)
        (fmt ["api2 backdrop: expected HTTP 200 (or 404), got "; str_int (HttpResponse.status resp)])
        errors in
    ret (TestOutcome.mk (pass_if_none errors) errors []).

(** One of the three exchanges of [test_api2_notifications_mutating]. *)
Definition notifications_step `{Host} (api2_base_url token : string) (path what : string)
    (device_token : string) (errors : list string) : M (list string) :=
  r <- _http_request api2_base_url "GET" path (Some token)
         [("device_token", JStr device_token)] NoPayload ;;
  let errors :=
    _require (HttpResponse.status r =? 200)
      (fmt ["api2 notifications "; what; ": expected HTTP 200, got "; str_int (HttpResponse.status r)])
      errors in
  let errors :=
    if negb (is_none (HttpResponse.json r)) && negb (is_dict (HttpResponse.json r))
    then errors ++ [fmt ["api2 notifications "; what; ": expected JSON object (or null), got ";
                         _type_name (HttpResponse.json r)]]
    else errors in
  ret errors.

Definition test_api2_notifications_mutating `{Host} (api2_base_url token : string)
    (item_id : json) (device_token : string) : M TestOutcome.t :=
  let errors := [] in
  errors <- notifications_step api2_base_url token
              (fmt ["api2/v1.1/notifications/add/"; py_str item_id]) "add" device_token errors ;;
  errors <- notifications_step api2_base_url token
              (fmt ["api2/v1.1/notifications/"; py_str item_id]) "check" device_token errors ;;
  errors <- notifications_step api2_base_url token
              (fmt ["api2/v1.1/notifications/delete/"; py_str item_id]) "delete" device_token errors ;;
  ret (TestOutcome.mk (pass_if_none errors) errors []).

Definition test_api2_upload_report `{Host} (api2_base_url token filename : string)
    : M TestOutcome.t :=
  let errors := [] in
  let body := fmt ["api2 upload_report test"; LF] in
  resp <- _http_request api2_base_url "POST" (fmt ["api2/v1/upload_report/"; filename])
            (Some token) [] (Body body (Some "application/octet-stream")) ;;
  let st := HttpResponse.status resp in
  let errors :=
    _require ((st =? 200) || (st =? 201) || (st =? 204))
      (fmt ["api2 upload_report: expected HTTP 200/201/204, got "; str_int st]) errors in
  ret (TestOutcome.mk (pass_if_none errors) errors []).

Definition test_api2_item_collections `{Host} (api2_base_url token : string) (item_id : json)
    : M TestOutcome.t :=
  let errors := [] in
  resp <- _http_request api2_base_url "GET" (fmt ["api2/v1.1/items/collections/"; py_str item_id])
            (Some token) [] NoPayload ;;
  let errors := _require (negb (is_none (HttpResponse.json resp)))
                  "api2 item collections: response is not JSON" errors in
  let errors :=
    match HttpResponse.json resp with
    | JDict d =>
        if PyDict.has d "items"
        then _expect_list (PyDict.get d "items") "api2 collections.items" errors
        else errors
    | other => _expect_obj other "api2 collections root" errors
    end in
  ret (TestOutcome.mk (pass_if_none errors) errors []).

Definition test_api2_imdb `{Host} (api2_base_url token imdb_ids_csv : string) : M TestOutcome.t :=
  let errors := [] in
  resp <- _http_request api2_base_url "GET" (fmt ["api2/v1/imdb/"; imdb_ids_csv])
            (Some token) [] NoPayload ;;
  if HttpResponse.status resp =? 404 then
    ret (TestOutcome.mk SKIP ["api2 imdb returned 404 (matches com.kinopub logs)"] [])
  else
    let errors :=
      _require (HttpResponse.status resp =? 200)
        (fmt ["api2 imdb: expected HTTP 200 (or 404), got "; str_int (HttpResponse.status resp)])
        errors in
    let errors := _require (negb (is_none (HttpResponse.json resp)))
                    "api2 imdb: response is not JSON" errors in
    ret (TestOutcome.mk (pass_if_none errors) errors []).

Definition test_types `{Host} (base_url token : string) : M (TestOutcome.t * list json) :=
  let errors := [] in
  resp <- _http_request base_url "GET" "/v1/types" (Some token) [] NoPayload ;;
  let errors := _require (negb (is_none (HttpResponse.json resp))) "response is not JSON" errors in
  let errors :=
    match HttpResponse.json resp with
    | JDict d =>
        let errors := _expect_int (PyDict.get d "status") "types.status" errors in
        let items := PyDict.get d "items" in
        let errors := _expect_list items "types.items" errors in
        match items with
        | JList xs =>
            fold_left
              (fun errors '(i, it) =>
                 let errors := _expect_obj it (fmt ["types.items["; str_nat i; "]"]) errors in
                 match it with
                 | JDict o =>
                     let errors := _expect_str (PyDict.get o "id")
                                     (fmt ["types.items["; str_nat i; "].id"]) errors in
                     _expect_str (PyDict.get o "title")
                       (fmt ["types.items["; str_nat i; "].title"]) errors
                 | _ => errors
                 end)
              (enumerate (firstn 5 xs)) errors
        | _ => errors
        end
    | other => _expect_obj other "types.root" errors
    end in
  ret (TestOutcome.mk (pass_if_none errors) errors [], []).

(** [for it in items: if ... : genre_id = it["id"]; break] *)
Fixpoint first_genre_id (items : list json) : json :=
  match items with
  | [] => JNull
  | JDict o :: r =>
      if isinstance_int (PyDict.get o "id") && negb (is_bool (PyDict.get o "id"))
      then PyDict.get o "id"
      else first_genre_id r
  | _ :: r => first_genre_id r
  end.

Definition test_genres `{Host} (base_url token : string) : M (TestOutcome.t * json) :=
  let errors := [] in
  resp <- _http_request base_url "GET" "/v1/genres" (Some token) [] NoPayload ;;
  let genre_id := JNull in
  let errors := _require (negb (is_none (HttpResponse.json resp))) "response is not JSON" errors in
  let '(genre_id, errors) :=
    match HttpResponse.json resp with
    | JDict d =>
        let errors := _expect_int (PyDict.get d "status") "genres.status" errors in
        let items := PyDict.get d "items" in
        let errors := _expect_list items "genres.items" errors in
        match items with
        | JList xs =>
            let genre_id := first_genre_id xs in
            let errors :=
              fold_left
                (fun errors '(i, it) =>
                   let errors := _expect_obj it (fmt ["genres.items["; str_nat i; "]"]) errors in
                   match it with
                   | JDict o =>
                       let errors := _expect_int (PyDict.get o "id")
                                       (fmt ["genres.items["; str_nat i; "].id"]) errors in
                       _expect_str (PyDict.get o "title")
                         (fmt ["genres.items["; str_nat i; "].title"]) errors
                   | _ => errors
                   end)
                (enumerate (firstn 5 xs)) errors in
            (genre_id, errors)
        | _ => (genre_id, errors)
        end
    | other => (genre_id, _expect_obj other "genres.root" errors)
    end in
  ret (TestOutcome.mk (pass_if_none errors) errors [], genre_id).

Definition test_countries `{Host} (base_url token : string) : M TestOutcome.t :=
  let errors := [] in
  resp <- _http_request base_url "GET" "/v1/countries" (Some token) [] NoPayload ;;
  let errors := _require (negb (is_none (HttpResponse.json resp))) "response is not JSON" errors in
  let errors :=
    match HttpResponse.json resp with
    | JDict d =>
        let errors := _expect_int (PyDict.get d "status") "countries.status" errors in
        let items := PyDict.get d "items" in
        let errors := _expect_list items "countries.items" errors in
        match items with
        | JList xs =>
            fold_left
              (fun errors '(i, it) =>
                 let errors := _expect_obj it (fmt ["countries.items["; str_nat i; "]"]) errors in
                 match it with
                 | JDict o =>
                     let errors := _expect_int (PyDict.get o "id")
                                     (fmt ["countries.items["; str_nat i; "].id"]) errors in
                     _expect_str (PyDict.get o "title")
                       (fmt ["countries.items["; str_nat i; "].title"]) errors
                 | _ => errors
                 end)
              (enumerate (firstn 5 xs)) errors
        | _ => errors
        end
    | other => _expect_obj other "countries.root" errors
    end in
  ret (TestOutcome.mk (pass_if_none errors) errors []).

Definition test_subtitles `{Host} (base_url token : string) : M TestOutcome.t :=
  let errors := [] in
  resp <- _http_request base_url "GET" "/v1/subtitles" (Some token) [] NoPayload ;;
  let errors := _require (negb (is_none (HttpResponse.json resp))) "response is not JSON" errors in
  let errors :=
    match HttpResponse.json resp with
    | JDict d =>
        let errors := expect_int_if_present d "status" "subtitles.status" errors in
        let items := PyDict.get d "items" in
        let errors := _expect_list items "subtitles.items" errors in
        match items with
        | JList xs =>
            fold_left
              (fun errors '(i, it) =>
                 let errors := _expect_obj it (fmt ["subtitles.items["; str_nat i; "]"]) errors in
                 match it with
                 | JDict o =>
                     let errors :=
                       if PyDict.has o "id" && negb (is_none (PyDict.get o "id")) then
                         let vid := PyDict.get o "id" in
                         if is_bool vid || negb (isinstance_int_or_str vid)
                         then errors ++ [fmt ["subtitles.items["; str_nat i;
                                              "].id: expected int|string, got "; _type_name vid]]
                         else errors
                       else errors in
                     let errors := expect_str_if_present o "lang"
                                     (fmt ["subtitles.items["; str_nat i; "].lang"]) errors in
                     expect_str_if_present o "title"
                       (fmt ["subtitles.items["; str_nat i; "].title"]) errors
                 | _ => errors
                 end)
              (enumerate (firstn 5 xs)) errors
        | _ => errors
        end
    | other => _expect_obj other "subtitles.root" errors
    end in
  ret (TestOutcome.mk (pass_if_none errors) errors []).

(** The check shared by the listing probes: the answer is an object whose
    [items] is an array. *)
Definition expect_items_array (resp : HttpResponse.t) (errors : list string) : list string :=
  let errors := _require (negb (is_none (HttpResponse.json resp))) "response is not JSON" errors in
  match HttpResponse.json resp with
  | JDict d => _expect_list (PyDict.get d "items") "items" errors
  | other => _expect_obj other "root" errors
  end.

Definition test_search `{Host} (base_url token : string) : M TestOutcome.t :=
  let errors := [] in
  resp <- _http_request base_url "GET" "/v1/items/search" (Some token)
            [("q", JStr "terminator"); ("perpage", JInt 5)] NoPayload ;;
  let errors := expect_items_array resp errors in
  ret (TestOutcome.mk (pass_if_none errors) errors []).

Definition test_similar `{Host} (base_url token : string) (item_id : json) : M TestOutcome.t :=
  let errors := [] in
  resp <- _http_request base_url "GET" "/v1/items/similar" (Some token)
            [("id", item_id)] NoPayload ;;
  let errors := expect_items_array resp errors in
  ret (TestOutcome.mk (pass_if_none errors) errors []).

Definition test_shortcut `{Host} (base_url token name : string) (genre : option string)
    : M TestOutcome.t :=
  let errors := [] in
  let query := [("type", JStr "movie"); ("page", JInt 1); ("perpage", JInt 5)] in
  let query :=
    match genre with
    | Some g => PyDict.set query "genre" (JStr g)
    | None => query
    end in
  resp <- _http_request base_url "GET" (fmt ["/v1/items/"; name]) (Some token) query NoPayload ;;
  let errors := expect_items_array resp errors in
  ret (TestOutcome.mk (pass_if_none errors) errors []).

Definition test_trailer `{Host} (base_url token : string) (item_id : json) : M TestOutcome.t :=
  let errors := [] in
  resp <- _http_request base_url "GET" "/v1/items/trailer" (Some token)
            [("id", item_id)] NoPayload ;;
  let errors := _require (negb (is_none (HttpResponse.json resp))) "response is not JSON" errors in
  let errors :=
    match HttpResponse.json resp with
    | JDict d =>
        let errors := expect_int_if_present d "status" "status" errors in
        let tr := PyDict.get d "trailer" in
        match tr with
        | JNull => errors
        | JDict t =>
            let tid := PyDict.get t "id" in
            let errors :=
              if (negb (is_none tid) && negb (isinstance_int_or_str tid)) || is_bool tid
              then errors ++ [fmt ["trailer.id: expected string|int, got "; _type_name tid]]
              else errors in
            let errors := expect_str_if_present t "url" "trailer.url" errors in
            if PyDict.has t "files" && negb (is_none (PyDict.get t "files"))
            then _expect_list (PyDict.get t "files") "trailer.files" errors
            else errors
        | JList [] => errors
        | JList (t0 :: _) =>
            let errors := _expect_obj t0 "trailer[0]" errors in
            match t0 with
            | JDict o =>
                let tid := PyDict.get o "id" in
                let errors :=
                  if negb (is_none tid) && (is_bool tid || negb (isinstance_int_or_str tid))
                  then errors ++ [fmt ["trailer[0].id: expected string|int, got "; _type_name tid]]
                  else errors in
                expect_str_if_present o "url" "trailer[0].url" errors
            | _ => errors
            end
        | other => errors ++ [fmt ["trailer: expected object or array, got "; _type_name other]]
        end
    | other => _expect_obj other "root" errors
    end in
  ret (TestOutcome.mk (pass_if_none errors) errors []).

Definition test_comments `{Host} (base_url token : string) (item_id : json) : M TestOutcome.t :=
  let errors := [] in
  resp <- _http_request base_url "GET" "/v1/items/comments" (Some token)
            [("id", item_id)] NoPayload ;;
  let errors := _require (negb (is_none (HttpResponse.json resp))) "response is not JSON" errors in
  let errors :=
    match HttpResponse.json resp with
    | JDict d =>
        let errors := _expect_int (PyDict.get d "status") "status" errors in
        _expect_list (PyDict.get d "comments") "comments" errors
    | other => _expect_obj other "root" errors
    end in
  ret (TestOutcome.mk (pass_if_none errors) errors []).

Definition test_vote_mutating `{Host} (base_url token : string) (item_id : json)
    : M TestOutcome.t :=
  let errors := [] in
  resp <- _http_request base_url "GET" "/v1/items/vote" (Some token)
            [("id", item_id); ("like", JInt 1)] NoPayload ;;
  let errors := _require (negb (is_none (HttpResponse.json resp))) "response is not JSON" errors in
  let errors :=
    match HttpResponse.json resp with
    | JDict d => _expect_bool (PyDict.get d "voted") "voted" errors
    | other => _expect_obj other "root" errors
    end in
  ret (TestOutcome.mk (pass_if_none errors) errors []).

Definition test_collections `{Host} (base_url token : string) : M (TestOutcome.t * json) :=
  let errors := [] in
  resp <- _http_request base_url "GET" "/v1/collections" (Some token)
            [("page", JInt 1); ("perpage", JInt 5)] NoPayload ;;
  let errors := _require (negb (is_none (HttpResponse.json resp))) "response is not JSON" errors in
  let collection_id := JNull in
  let '(collection_id, errors) :=
    match HttpResponse.json resp with
    | JDict d =>
        let items := PyDict.get d "items" in
        let errors := _expect_list items "items" errors in
        match items with
        | JList (JDict c0 :: _) =>
            if isinstance_int (PyDict.get c0 "id")
            then (PyDict.get c0 "id", errors)
            else (collection_id, errors)
        | _ => (collection_id, errors)
        end
    | other => (collection_id, _expect_obj other "root" errors)
    end in
  let errors :=
    if is_none collection_id
    then errors ++ ["could not pick collectionId from /v1/collections"]
    else errors in
  ret (TestOutcome.mk (pass_if_none errors) errors [], collection_id).

(** The candidate loop of [test_collections_sort]: the first sort key that
    is answered with HTTP 200 and an object whose [items] is an array. *)
Fixpoint first_accepted_sort `{Host} (base_url token : string) (candidates : list string)
    : M (option string) :=
  match candidates with
  | [] => ret None
  | sort :: rest =>
      resp <- _http_request base_url "GET" "/v1/collections" (Some token)
                [("sort", JStr sort); ("page", JInt 1); ("perpage", JInt 5)] NoPayload ;;
      match HttpResponse.json resp with
      | JDict d =>
          if negb (HttpResponse.status resp =? 200) then first_accepted_sort base_url token rest
          else if negb (is_list (PyDict.get d "items")) then first_accepted_sort base_url token rest
          else ret (Some sort)
      | _ => first_accepted_sort base_url token rest
      end
  end.

Definition test_collections_sort `{Host} (base_url token : string) : M TestOutcome.t :=
  let errors := [] in
  let candidates := ["updated-"; "created-"; "views-"; "watchers-"] in
  used <- first_accepted_sort base_url token candidates ;;
  match used with
  | None =>
      let errors :=
        errors ++ ["collections sort: none of the candidate sort values returned a normal {items: []} payload"] in
      ret (TestOutcome.mk FAIL errors [])
  | Some used =>
      resp_ok <- _http_request base_url "GET" "/v1/collections" (Some token)
                   [("sort", JStr used); ("page", JInt 1); ("perpage", JInt 5)] NoPayload ;;
      let errors :=
        _require (HttpResponse.status resp_ok =? 200)
          (fmt ["collections sort: expected HTTP 200, got "; str_int (HttpResponse.status resp_ok)])
          errors in
      let errors := _require (negb (is_none (HttpResponse.json resp_ok)))
                      "collections sort: response is not JSON" errors in
      let errors :=
        match HttpResponse.json resp_ok with
        | JDict d =>
            let errors := expect_int_if_present d "status" "collections.sort.status" errors in
            _expect_list (PyDict.get d "items") "collections.sort.items" errors
        | other => _expect_obj other "collections.sort.root" errors
        end in
      ret (TestOutcome.mk (pass_if_none errors) errors [("sort", JStr used)])
  end.

Definition test_collection_items `{Host} (base_url token : string) (collection_id : json)
    : M TestOutcome.t :=
  let errors := [] in
  resp <- _http_request base_url "GET" "/v1/collections/view" (Some token)
            [("id", collection_id); ("page", JInt 1); ("perpage", JInt 5)] NoPayload ;;
  let errors := expect_items_array resp errors in
  ret (TestOutcome.mk (pass_if_none errors) errors []).

Definition test_references `{Host} (base_url token : string) : M TestOutcome.t :=
  let errors := [] in
  errors <-
    for_each ["server-location"; "streaming-type"; "voiceover-type"; "voiceover-author"; "video-quality"]
      errors
      (fun name errors =>
         resp <- _http_request base_url "GET" (fmt ["/v1/references/"; name]) (Some token) [] NoPayload ;;
         let errors := _require (negb (is_none (HttpResponse.json resp)))
                         (fmt [name; ": response is not JSON"]) errors in
         ret match HttpResponse.json resp with
             | JDict d =>
                 let errors :=
                   if PyDict.has d "status"
                   then _expect_int (PyDict.get d "status") (fmt [name; ".status"]) errors
                   else errors in
                 _expect_list (PyDict.get d "items") (fmt [name; ".items"]) errors
             | other => _expect_obj other (fmt [name; ".root"]) errors
             end) ;;
  ret (TestOutcome.mk (pass_if_none errors) errors []).

Definition test_tv `{Host} (base_url token : string) : M TestOutcome.t :=
  let errors := [] in
  resp <- _http_request base_url "GET" "/v1/tv" (Some token) [] NoPayload ;;
  let errors := _require (negb (is_none (HttpResponse.json resp))) "tv: response is not JSON" errors in
  let errors :=
    match HttpResponse.json resp with
    | JDict d =>
        let errors := _expect_int (PyDict.get d "status") "tv.status" errors in
        _expect_list (PyDict.get d "channels") "tv.channels" errors
    | other => _expect_obj other "tv.root" errors
    end in
  ret (TestOutcome.mk (pass_if_none errors) errors []).

Definition test_watching `{Host} (base_url token : string) (item_id : json)
    : M (TestOutcome.t * json) :=
  let errors := [] in
  resp <- _http_request base_url "GET" "/v1/watching" (Some token) [("id", item_id)] NoPayload ;;
  let errors := _require (negb (is_none (HttpResponse.json resp)))
                  "watching: response is not JSON" errors in
  let errors :=
    match HttpResponse.json resp with
    | JDict d =>
        if PyDict.has d "status"
        then _expect_int (PyDict.get d "status") "watching.status" errors
        else errors
    | other => _expect_obj other "watching.root" errors
    end in
  errors <-
    for_each ["movies"; "serials"] errors
      (fun name errors =>
         r <- _http_request base_url "GET" (fmt ["/v1/watching/"; name]) (Some token) [] NoPayload ;;
         let errors := _require (negb (is_none (HttpResponse.json r)))
                         (fmt ["watching/"; name; ": response is not JSON"]) errors in
         ret match HttpResponse.json r with
             | JDict d => _expect_list (PyDict.get d "items") (fmt ["watching/"; name; ".items"]) errors
             | other => _expect_obj other (fmt ["watching/"; name; ".root"]) errors
             end) ;;
  ret (TestOutcome.mk (pass_if_none errors) errors [], JNull).

(** [isinstance(j, dict) and isinstance(j.get("status"), int)] *)
Definition has_int_status (j : json) : bool :=
  match j with
  | JDict d => isinstance_int (PyDict.get d "status")
  | _ => false
  end.

Definition test_watching_mutating `{Host} (base_url token : string) (item_id media_id : json)
    : M TestOutcome.t :=
  let errors := [] in
  r_mt <- _http_request base_url "GET" "/v1/watching/marktime" (Some token)
            [("id", item_id); ("video", media_id); ("time", JInt 120)] NoPayload ;;
  let errors := _require (has_int_status (HttpResponse.json r_mt))
                  "marktime: expected {status:int}" errors in
  r_t <- _http_request base_url "GET" "/v1/watching/toggle" (Some token)
           [("id", item_id); ("video", media_id)] NoPayload ;;
  let errors := _require (has_int_status (HttpResponse.json r_t))
                  "toggle: expected {status:int,...}" errors in
  ret (TestOutcome.mk (pass_if_none errors) errors []).

Definition test_watchlist_toggle_mutating `{Host} (base_url token : string) (serial_item_id : json)
    : M TestOutcome.t :=
  let errors := [] in
  errors <-
    for_each [1; 2] errors
      (fun (i : Z) errors =>
         r <- _http_request base_url "GET" "/v1/watching/togglewatchlist" (Some token)
                [("id", serial_item_id)] NoPayload ;;
         ret (_require (has_int_status (HttpResponse.json r))
                "togglewatchlist: expected {status:int,...}" errors)) ;;
  ret (TestOutcome.mk (pass_if_none errors) errors []).

(** [d.get(key)] when it is an object with an [int] under ["id"], the id. *)
Definition nested_id (h0 : PyDict.dict) (key : string) (picked : PyDict.dict) (slot : string)
    : PyDict.dict :=
  match PyDict.get h0 key with
  | JDict o =>
      if isinstance_int (PyDict.get o "id") then PyDict.set picked slot (PyDict.get o "id")
      else picked
  | _ => picked
  end.

Definition test_history `{Host} (base_url token : string) : M (TestOutcome.t * PyDict.dict) :=
  let errors := [] in
  resp <- _http_request base_url "GET" "/v1/history" (Some token)
            [("page", JInt 1); ("perpage", JInt 25)] NoPayload ;;
  let errors := _require (negb (is_none (HttpResponse.json resp)))
                  "history: response is not JSON" errors in
  let picked := [("media_id", JNull); ("item_id", JNull)] in
  let '(picked, errors) :=
    match HttpResponse.json resp with
    | JDict d =>
        if PyDict.has d "history" && negb (is_none (PyDict.get d "history")) then
          let errors := _expect_list (PyDict.get d "history") "history.history" errors in
          match PyDict.get d "history" with
          | JList (JDict h0 :: _) =>
              let picked := nested_id h0 "item" picked "item_id" in
              let picked := nested_id h0 "media" picked "media_id" in
              (picked, errors)
          | _ => (picked, errors)
          end
        else (picked, errors ++ ["history response missing 'history' field"])
    | other => (picked, _expect_obj other "history.root" errors)
    end in
  ret (TestOutcome.mk (pass_if_none errors) errors [], picked).

(** One of the three clears of [test_history_mutating]; [what] is [media],
    [season] or [item]. *)
Definition history_clear_step `{Host} (base_url token what : string) (id : json)
    (errors : list string) : M (list string) :=
  if negb (is_none id) then
    r <- _http_request base_url "POST" (fmt ["/v1/history/clear-for-"; what]) (Some token)
           [("id", id)] NoPayload ;;
    ret (_require
           ((HttpResponse.status r =? 200)
            && (is_none (HttpResponse.json r) || has_int_status (HttpResponse.json r)))
           (fmt ["clear-for-"; what; ": expected HTTP 200 with JSON null (or {status:int})"])
           errors)
  else
    ret (errors ++ [fmt ["clear-for-"; what; " skipped: no "; what; "_id available"]]).

Definition test_history_mutating `{Host} (base_url token : string) (media_id season_id item_id : json)
    : M TestOutcome.t :=
  let errors := [] in
  errors <- history_clear_step base_url token "media" media_id errors ;;
  errors <- history_clear_step base_url token "season" season_id errors ;;
  errors <- history_clear_step base_url token "item" item_id errors ;;
  ret (TestOutcome.mk (pass_if_none errors) errors []).

Definition test_device `{Host} (base_url token : string) : M (TestOutcome.t * json) :=
  let errors := [] in
  resp <- _http_request base_url "GET" "/v1/device" (Some token) [] NoPayload ;;
  let errors := _require (negb (is_none (HttpResponse.json resp))) "device: response is not JSON" errors in
  let device_id := JNull in
  let '(device_id, errors) :=
    match HttpResponse.json resp with
    | JDict d =>
        let devs := PyDict.get d "devices" in
        let errors := _expect_list devs "device.devices" errors in
        match devs with
        | JList (JDict d0 :: _) =>
            let device_id :=
              if isinstance_int (PyDict.get d0 "id") then PyDict.get d0 "id" else device_id in
            let errors :=
              if PyDict.has d0 "is_browser" && negb (is_none (PyDict.get d0 "is_browser"))
              then _expect_bool (PyDict.get d0 "is_browser") "device.devices[0].is_browser" errors
              else errors in
            (device_id, errors)
        | _ => (device_id, errors)
        end
    | other => (device_id, _expect_obj other "device.root" errors)
    end in
  info <- _http_request base_url "GET" "/v1/device/info" (Some token) [] NoPayload ;;
  let errors := _require (negb (is_none (HttpResponse.json info)))
                  "device/info: response is not JSON" errors in
  let '(device_id, errors) :=
    match HttpResponse.json info with
    | JDict i =>
        match PyDict.get i "device" with
        | JDict dev =>
            if isinstance_int (PyDict.get dev "id")
            then (PyDict.get dev "id", errors)
            else (device_id, errors)
        | _ => (device_id, errors)
        end
    | other => (device_id, _expect_obj other "device/info.root" errors)
    end in
  if is_none device_id then
    let errors := errors ++ ["could not pick deviceId from /v1/device or /v1/device/info"] in
    ret (TestOutcome.mk FAIL errors [], JNull)
  else
    d <- _http_request base_url "GET" (fmt ["/v1/device/"; py_str device_id]) (Some token) [] NoPayload ;;
    let errors := _require (negb (is_none (HttpResponse.json d)))
                    "device/{id}: response is not JSON" errors in
    s <- _http_request base_url "GET" (fmt ["/v1/device/"; py_str device_id; "/settings"])
           (Some token) [] NoPayload ;;
    let errors := _require (negb (is_none (HttpResponse.json s)))
                    "device/{id}/settings: response is not JSON" errors in
    let errors :=
      match HttpResponse.json s with
      | JDict sd =>
          let errors := _expect_int (PyDict.get sd "status") "device.settings.status" errors in
          let st := PyDict.get sd "settings" in
          if negb (is_none st) then _expect_obj st "device.settings.settings" errors else errors
      | other => _expect_obj other "device/settings.root" errors
      end in
    ret (TestOutcome.mk (pass_if_none errors) errors [], device_id).

(** The first option that is selected and has an [int] id. *)
Fixpoint first_selected_id (val : list json) : json :=
  match val with
  | [] => JNull
  | JDict opt :: r =>
      if equals_one (PyDict.get opt "selected") && isinstance_int (PyDict.get opt "id")
      then PyDict.get opt "id"
      else first_selected_id r
  | _ :: r => first_selected_id r
  end.

(** The first element that is an object with an [int] under ["id"]. *)
Fixpoint first_int_id (xs : list json) : json :=
  match xs with
  | [] => JNull
  | JDict o :: r =>
      if isinstance_int (PyDict.get o "id") then PyDict.get o "id" else first_int_id r
  | _ :: r => first_int_id r
  end.

Definition _extract_setting_value_int (settings_map : json) (key : string) : json :=
  match settings_map with
  | JDict m =>
      match PyDict.get m key with
      | JDict entry =>
          match PyDict.get entry "value" with
          | JBool b => JInt (if b then 1 else 0)
          | JInt n => JInt n
          | JList val =>
              if negb (is_none (first_selected_id val)) then first_selected_id val
              else first_int_id val
          | _ => JNull
          end
      | _ => JNull
      end
  | _ => JNull
  end.

(** The loop over [required_keys]: the form, or the key that stopped it. *)
Fixpoint collect_settings (settings_map : json) (keys : list string) (form : PyDict.dict)
    : string + PyDict.dict :=
  match keys with
  | [] => inr form
  | k :: rest =>
      let v := _extract_setting_value_int settings_map k in
      if is_none v then inl k
      else collect_settings settings_map rest (PyDict.set form k v)
  end.

Definition test_device_mutating `{Host} (base_url token : string) (device_id : json)
    : M TestOutcome.t :=
  let errors := [] in
  r_notify <- _http_request base_url "POST" "/v1/device/notify" (Some token) []
                (Form [("title", JStr "KinoPub API Test"); ("hardware", JStr "PC");
                       ("software", JStr "Windows")]) ;;
  let errors := _require (has_int_status (HttpResponse.json r_notify))
                  "device/notify: expected {status:int}" errors in
  s <- _http_request base_url "GET" (fmt ["/v1/device/"; py_str device_id; "/settings"])
         (Some token) [] NoPayload ;;
  let settings_map :=
    match HttpResponse.json s with
    | JDict sd => PyDict.get sd "settings"
    | _ => JNull
    end in
  let required_keys :=
    ["supportSsl"; "supportHevc"; "supportHdr"; "support4k"; "mixedPlaylist";
     "streamingType"; "serverLocation"] in
  match collect_settings settings_map required_keys [] with
  | inl k =>
      let errors :=
        errors ++ [fmt ["device settings update skipped: could not extract int value for "; k]] in
      ret (TestOutcome.mk FAIL errors [])
  | inr form =>
      r_upd <- _http_request base_url "POST" (fmt ["/v1/device/"; py_str device_id; "/settings"])
                 (Some token) [] (Form form) ;;
      let errors := _require (has_int_status (HttpResponse.json r_upd))
                      "device settings update: expected {status:int}" errors in
      ret (TestOutcome.mk (pass_if_none errors) errors [])
  end.

Definition _pick_first_item_id (items_resp : json) : json :=
  match items_resp with
  | JDict d =>
      match PyDict.get d "items" with
      | JList (JDict it0 :: _) =>
          if isinstance_int (PyDict.get it0 "id") then PyDict.get it0 "id" else JNull
      | _ => JNull
      end
  | _ => JNull
  end.

Definition test_items_listing `{Host} (base_url token : string) : M (TestOutcome.t * json) :=
  let errors := [] in
  resp <- _http_request base_url "GET" "/v1/items" (Some token)
            [("type", JStr "movie"); ("page", JInt 1); ("perpage", JInt 5);
             ("sort", JStr "updated-")] NoPayload ;;
  let errors := _require (negb (is_none (HttpResponse.json resp))) "response is not JSON" errors in
  let item_id := _pick_first_item_id (HttpResponse.json resp) in
  let errors :=
    match HttpResponse.json resp with
    | JDict d =>
        let errors := expect_int_if_present d "status" "status" errors in
        let items := PyDict.get d "items" in
        let errors := _expect_list items "items" errors in
        let errors :=
          match items with
          | JList (it0 :: _) =>
              let errors := _expect_obj it0 "items[0]" errors in
              match it0 with
              | JDict o =>
                  let errors := _expect_int (PyDict.get o "id") "items[0].id" errors in
                  let errors := _expect_str (PyDict.get o "title") "items[0].title" errors in
                  _expect_str (PyDict.get o "type") "items[0].type" errors
              | _ => errors
              end
          | _ => errors
          end in
        let pag := PyDict.get d "pagination" in
        if negb (is_none pag) then
          let errors := _expect_obj pag "pagination" errors in
          match pag with
          | JDict p =>
              let errors := _expect_int (PyDict.get p "total") "pagination.total" errors in
              let errors := _expect_int (PyDict.get p "current") "pagination.current" errors in
              _expect_int (PyDict.get p "perpage") "pagination.perpage" errors
          | _ => errors
          end
        else errors
    | other => _expect_obj other "root" errors
    end in
  let errors :=
    if is_none item_id
    then errors ++ ["could not pick itemId from /v1/items response"]
    else errors in
  ret (TestOutcome.mk (pass_if_none errors) errors [], item_id).

Definition test_items_listing_filters `{Host} (base_url token : string) : M TestOutcome.t :=
  let errors := [] in
  let query :=
    [("type", JStr "movie"); ("page", JInt 1); ("perpage", JInt 5); ("sort", JStr "updated-");
     ("title", JStr "terminator"); ("conditions[]", JList [JStr "year>=1900"]);
     ("country", JStr "1")] in
  resp <- _http_request base_url "GET" "/v1/items" (Some token) query NoPayload ;;
  let errors :=
    _require (HttpResponse.status resp =? 200)
      (fmt ["items filters: expected HTTP 200, got "; str_int (HttpResponse.status resp)]) errors in
  let errors := _require (negb (is_none (HttpResponse.json resp)))
                  "items filters: response is not JSON" errors in
  let errors :=
    match HttpResponse.json resp with
    | JDict d =>
        let errors := expect_int_if_present d "status" "items_filters.status" errors in
        _expect_list (PyDict.get d "items") "items_filters.items" errors
    | other => _expect_obj other "items_filters.root" errors
    end in
  ret (TestOutcome.mk (pass_if_none errors) errors []).

(** The season loop of [_pick_media_id_from_item]: the first episode id. *)
Fixpoint first_episode_id (seasons : list json) : json :=
  match seasons with
  | [] => JNull
  | JDict s :: r =>
      match PyDict.get s "episodes" with
      | JList episodes =>
          if negb (is_none (first_int_id episodes)) then first_int_id episodes
          else first_episode_id r
      | _ => first_episode_id r
      end
  | _ :: r => first_episode_id r
  end.

Definition _pick_media_id_from_item (item : json) : json :=
  match item with
  | JDict d =>
      let from_videos :=
        match PyDict.get d "videos" with
        | JList videos => first_int_id videos
        | _ => JNull
        end in
      if negb (is_none from_videos) then from_videos
      else
        match PyDict.get d "seasons" with
        | JList seasons => first_episode_id seasons
        | _ => JNull
        end
  | _ => JNull
  end.

Definition _pick_season_id_from_item (item : json) : json :=
  match item with
  | JDict d =>
      match PyDict.get d "seasons" with
      | JList seasons => first_int_id seasons
      | _ => JNull
      end
  | _ => JNull
  end.

Definition test_item_details `{Host} (base_url token : string) (item_id : json)
    : M (TestOutcome.t * json) :=
  let errors := [] in
  resp <- _http_request base_url "GET" (fmt ["/v1/items/"; py_str item_id]) (Some token)
            [("nolinks", JInt 1)] NoPayload ;;
  let errors := _require (negb (is_none (HttpResponse.json resp))) "response is not JSON" errors in
  let media_id := JNull in
  let '(media_id, errors) :=
    match HttpResponse.json resp with
    | JDict d =>
        let item := PyDict.get d "item" in
        let errors := _expect_obj item "item" errors in
        match item with
        | JDict it =>
            let errors := _expect_int (PyDict.get it "id") "item.id" errors in
            let errors := _expect_str (PyDict.get it "title") "item.title" errors in
            let errors := _expect_str (PyDict.get it "type") "item.type" errors in
            let duration := PyDict.get it "duration" in
            let errors :=
              if negb (is_none duration) then
                let errors := _expect_obj duration "item.duration" errors in
                match duration with
                | JDict du =>
                    if PyDict.has du "average" && negb (is_none (PyDict.get du "average"))
                    then _expect_num (PyDict.get du "average") "item.duration.average" errors
                    else errors
                | _ => errors
                end
              else errors in
            (_pick_media_id_from_item item, errors)
        | _ => (media_id, errors)
        end
    | other => (media_id, _expect_obj other "root" errors)
    end in
  let errors :=
    if is_none media_id
    then errors ++ ["could not pick mediaId from item details (videos/seasons/episodes)"]
    else errors in
  ret (TestOutcome.mk (pass_if_none errors) errors [], media_id).

(** [for t in ("hls4", "hls2", "hls", "http"): if urls.get(t): chosen_type = t; break] *)
Fixpoint first_stream_type (urls : PyDict.dict) (types : list string) : option string :=
  match types with
  | [] => None
  | t :: r => if truthy (PyDict.get urls t) then Some t else first_stream_type urls r
  end.

Definition test_media_links `{Host} (base_url token : string) (media_id : json)
    : M (TestOutcome.t * option (string * string)) :=
  let errors := [] in
  resp <- _http_request base_url "GET" "/v1/items/media-links" (Some token)
            [("mid", media_id)] NoPayload ;;
  let errors := _require (negb (is_none (HttpResponse.json resp))) "response is not JSON" errors in
  let file_and_type := None in
  let '(file_and_type, errors) :=
    match HttpResponse.json resp with
    | JDict d =>
        let files := PyDict.get d "files" in
        let errors := _expect_list files "files" errors in
        match files with
        | JList (f0 :: _) =>
            let errors := _expect_obj f0 "files[0]" errors in
            match f0 with
            | JDict f =>
                match PyDict.get f "file" with
                | JStr file =>
                    let urls := py_or (PyDict.get f "urls") (PyDict.get f "url") in
                    let chosen_type :=
                      match urls with
                      | JDict u => first_stream_type u ["hls4"; "hls2"; "hls"; "http"]
                      | _ => None
                      end in
                    (Some (file, match chosen_type with Some t => t | None => "http" end),
                     errors)
                | _ => (file_and_type, errors ++ ["files[0].file missing or not a string"])
                end
            | _ => (file_and_type, errors)
            end
        | _ => (file_and_type, errors)
        end
    | other => (file_and_type, _expect_obj other "root" errors)
    end in
  ret (TestOutcome.mk (pass_if_none errors) errors [], file_and_type).

Definition test_media_video_link `{Host} (base_url token file_path stream_type : string)
    : M TestOutcome.t :=
  let errors := [] in
  resp <- _http_request base_url "GET" "/v1/items/media-video-link" (Some token)
            [("file", JStr file_path); ("type", JStr stream_type)] NoPayload ;;
  let errors := _require (negb (is_none (HttpResponse.json resp))) "response is not JSON" errors in
  let errors :=
    match HttpResponse.json resp with
    | JDict d => _expect_str (PyDict.get d "url") "url" errors
    | other => _expect_obj other "root" errors
    end in
  ret (TestOutcome.mk (pass_if_none errors) errors []).

(** [int(x)] for a clock reading: truncation. *)
Definition int_of_time (t : Q) : Z := Z.quot (Qnum t) (Z.pos (Qden t)).

(** [isinstance(j, dict) and isinstance(j.get(key), list)] *)
Definition has_list_under (j : json) (key : string) : bool :=
  match j with
  | JDict d => is_list (PyDict.get d key)
  | _ => false
  end.

(** [not isinstance(j, dict) or j.get("status") is None] *)
Definition lacks_status (j : json) : bool :=
  match j with
  | JDict d => is_none (PyDict.get d "status")
  | _ => true
  end.

Definition test_bookmarks_mutating `{Host} (base_url token : string) (item_id : json)
    : M TestOutcome.t :=
  let errors := [] in
  now <- time_time ;;
  let ts := int_of_time now in
  let folder_title := fmt ["api-test-"; str_int ts] in
  r_list_before <- _http_request base_url "GET" "/v1/bookmarks" (Some token) [] NoPayload ;;
  let errors :=
    if negb (has_list_under (HttpResponse.json r_list_before) "items")
    then errors ++ ["bookmarks list: unexpected response (expected object with items[])"]
    else errors in
  r_create <- _http_request base_url "POST" "/v1/bookmarks/create" (Some token) []
                (Form [("title", JStr folder_title)]) ;;
  let folder_id :=
    match HttpResponse.json r_create with
    | JDict d =>
        match PyDict.get d "folder" with
        | JDict folder =>
            if isinstance_int (PyDict.get folder "id") then PyDict.get folder "id" else JNull
        | _ => JNull
        end
    | _ => JNull
    end in
  if is_none folder_id then
    let errors := errors ++ ["failed to create bookmark folder (no folder.id)"] in
    ret (TestOutcome.mk FAIL errors [])
  else
    r_list_after <- _http_request base_url "GET" "/v1/bookmarks" (Some token) [] NoPayload ;;
    let errors :=
      match HttpResponse.json r_list_after with
      | JDict d =>
          match PyDict.get d "items" with
          | JList fs =>
              let found :=
                existsb
                  (fun f =>
                     match f with
                     | JDict o => py_eq_num (PyDict.get o "id") folder_id
                     | _ => false
                     end) fs in
              if negb found
              then errors ++ ["bookmarks list: created folder not found in items[]"]
              else errors
          | _ => errors ++ ["bookmarks list: unexpected response after create"]
          end
      | _ => errors ++ ["bookmarks list: unexpected response after create"]
      end in
    r_add <- _http_request base_url "POST" "/v1/bookmarks/add" (Some token) []
               (Form [("item", item_id); ("folder", folder_id)]) ;;
    let errors :=
      if lacks_status (HttpResponse.json r_add)
      then errors ++ ["bookmark add: unexpected response (expected object with status)"]
      else errors in
    r_folder_items <- _http_request base_url "GET" (fmt ["/v1/bookmarks/"; py_str folder_id])
                        (Some token) [("page", JInt 1)] NoPayload ;;
    let errors :=
      if negb (has_list_under (HttpResponse.json r_folder_items) "items")
      then errors ++ ["bookmarks folder items: unexpected response (expected object with items[])"]
      else errors in
    r_item_folders <- _http_request base_url "GET" "/v1/bookmarks/get-item-folders" (Some token)
                        [("item", item_id)] NoPayload ;;
    let errors :=
      if negb (has_list_under (HttpResponse.json r_item_folders) "folders")
      then errors ++ ["bookmarks get-item-folders: unexpected response (expected object with folders[])"]
      else errors in
    r_rm_item <- _http_request base_url "POST" "/v1/bookmarks/remove-item" (Some token) []
                   (Form [("item", item_id); ("folder", folder_id)]) ;;
    let errors :=
      if lacks_status (HttpResponse.json r_rm_item)
      then errors ++ ["bookmark remove-item: unexpected response (expected object with status)"]
      else errors in
    r_rm_folder <- _http_request base_url "POST" "/v1/bookmarks/remove-folder" (Some token) []
                     (Form [("folder", folder_id)]) ;;
    let errors :=
      if lacks_status (HttpResponse.json r_rm_folder)
      then errors ++ ["bookmark remove-folder: unexpected response (expected object with status)"]
      else errors in
    ret (TestOutcome.mk (pass_if_none errors) errors []).

(** ** run_tests.py: the access token *)

(** [for line in raw.splitlines(): ...]: the first line that, stripped, is
    neither empty nor a comment. *)
Fixpoint first_token_line (lines : list string) : option string :=
  match lines with
  | [] => None
  | line :: rest =>
      let line := strip line in
      if negb (nonempty line) || startswith line "#" then first_token_line rest
      else Some line
  end.

Definition _read_token_file `{Host} (path : string) : option string :=
  match open_read path with
  | None => None
  | Some raw =>
      let raw := strip raw in
      if negb (nonempty raw) then None
      else
        let from_json :=
          if startswith (lstrip raw) "{" then
            match json_loads raw with
            | Some (JDict obj) =>
                match py_or (PyDict.get obj "access_token") (PyDict.get obj "token") with
                | JStr t => if nonempty (strip t) then Some (strip t) else None
                | _ => None
                end
            | _ => None
            end
          else None in
        match from_json with
        | Some t => Some t
        | None => first_token_line (splitlines raw)
        end
  end.

(** Truth value of [s and s.strip()] for an [Optional[str]]. *)
Definition given (s : option string) : bool :=
  match s with
  | Some s => nonempty s && nonempty (strip s)
  | None => false
  end.

Definition _resolve_access_token `{Host} (token_arg : option string) (token_file : string)
    : option string * string :=
  if given token_arg then (option_map strip token_arg, "arg")
  else
    let env_tok := os_environ_get ENV_ACCESS_TOKEN in
    if given env_tok then (option_map strip env_tok, "env")
    else
      let file_tok := _read_token_file token_file in
      if opt_truthy file_tok then (file_tok, "file")
      else (None, "missing").

(** ** run_tests.py: the orchestrator *)

(** One line of the summary: test id, status, errors. *)
Definition Results : Type := list (string * Status * list string).

(** The local [add] of [_run_all]. *)
Definition add (results : Results) (test_id : string) (outcome : TestOutcome.t) : Results :=
  results ++ [(test_id, TestOutcome.status outcome, TestOutcome.errors outcome)].

Definition is_fail (s : Status) : bool :=
  match s with FAIL => true | _ => false end.

Definition MUTATING_DISABLED : string :=
  "mutating tests disabled (enable with --include-mutating)".

Definition DESTRUCTIVE_DISABLED : string :=
  "destructive tests disabled (enable with --include-destructive)".

(** The api2 block of [_run_all]. *)
Definition run_api2 `{Host} (base_url token : string) (item_id : json)
    (include_mutating : bool) (api2_base_url api2_device_token : option string)
    (api2_upload_report : bool) (results : Results) : M Results :=
  let api2_base :=
    match api2_base_url with
    | Some u => if nonempty u then u else _derive_api2_base_url base_url
    | None => _derive_api2_base_url base_url
    end in
  '(api2_search_outcome, api2_item_id) <- test_api2_items_search api2_base token ;;
  let results := add results "test-api2-items-search" api2_search_outcome in
  let chosen_item_id := py_or api2_item_id item_id in
  api2_item_outcome <- test_api2_item_details api2_base token chosen_item_id ;;
  let results := add results "test-api2-item-details" api2_item_outcome in
  o <- test_api2_item_collections api2_base token chosen_item_id ;;
  let results := add results "test-api2-item-collections" o in
  let imdb_id := PyDict.get (TestOutcome.context_updates api2_item_outcome) "imdb_id" in
  let kp_id := PyDict.get (TestOutcome.context_updates api2_item_outcome) "kinopoisk_id" in
  results <-
    (if isinstance_int imdb_id && isinstance_int kp_id then
       o <- test_api2_backdrop api2_base token imdb_id kp_id ;;
       let results := add results "test-api2-backdrop" o in
       o <- test_api2_imdb api2_base token (py_str imdb_id) ;;
       ret (add results "test-api2-imdb" o)
     else
       let results :=
         add results "test-api2-backdrop"
           (TestOutcome.mk SKIP ["api2 backdrop skipped: could not extract imdb_id/kinopoisk_id"] []) in
       ret (add results "test-api2-imdb"
              (TestOutcome.mk SKIP ["api2 imdb skipped: could not extract imdb_id"] []))) ;;
  o <-
    (match api2_device_token with
     | Some device_token =>
         if nonempty device_token then
           if include_mutating
           then test_api2_notifications_mutating api2_base token chosen_item_id device_token
           else ret (TestOutcome.mk SKIP [MUTATING_DISABLED] [])
         else ret (TestOutcome.mk SKIP ["api2 notifications skipped: provide --api2-device-token"] [])
     | None => ret (TestOutcome.mk SKIP ["api2 notifications skipped: provide --api2-device-token"] [])
     end) ;;
  let results := add results "test-api2-notifications-mutating" o in
  o <-
    (if api2_upload_report && include_mutating
     then test_api2_upload_report api2_base token "kinopub_test.txt"
     else if api2_upload_report && negb include_mutating
     then ret (TestOutcome.mk SKIP [MUTATING_DISABLED] [])
     else ret (TestOutcome.mk SKIP ["api2 upload_report skipped (enable with --api2-upload-report)"] [])) ;;
  ret (add results "test-api2-upload-report" o).

(** [_run_all] from the point where an item id is known to the api2
    block. *)
Definition run_with_item `{Host} (base_url token : string) (genre_id item_id : json)
    (include_mutating include_destructive : bool) (results : Results) : M Results :=
  '(o_det, media_id) <- test_item_details base_url token item_id ;;
  let results := add results "test-content-item-details" o_det in
  o <- test_search base_url token ;;
  let results := add results "test-content-search" o in
  o <- test_similar base_url token item_id ;;
  let results := add results "test-content-similar" o in
  results <-
    for_each ["fresh"; "hot"; "popular"] results
      (fun sc results =>
         o <- test_shortcut base_url token sc None ;;
         let results := add results (fmt ["test-content-"; sc]) o in
         o <- (if negb (is_none genre_id)
               then test_shortcut base_url token sc (Some (py_str genre_id))
               else ret (TestOutcome.mk SKIP ["could not pick genre_id from /v1/genres"] [])) ;;
         ret (add results (fmt ["test-content-"; sc; "-genre"]) o)) ;;
  o <- test_trailer base_url token item_id ;;
  let results := add results "test-content-trailer" o in
  o <- test_comments base_url token item_id ;;
  let results := add results "test-content-comments" o in
  o <- (if include_mutating
        then test_vote_mutating base_url token item_id
        else ret (TestOutcome.mk SKIP [MUTATING_DISABLED] [])) ;;
  let results := add results "test-content-vote-mutating" o in
  results <-
    (if negb (is_none media_id) then
       '(o_links, file_and_type) <- test_media_links base_url token media_id ;;
       let results := add results "test-content-media-links" o_links in
       match file_and_type with
       | Some (fpath, stype) =>
           o_link <- test_media_video_link base_url token fpath stype ;;
           ret (add results "test-content-media-video-link" o_link)
       | None => ret results
       end
     else ret results) ;;
  '(o_cols, col_id) <- test_collections base_url token ;;
  let results := add results "test-collections" o_cols in
  o <- test_collections_sort base_url token ;;
  let results := add results "test-collections-sort" o in
  results <-
    (if negb (is_none col_id) then
       o <- test_collection_items base_url token col_id ;;
       ret (add results "test-collections-view" o)
     else ret results) ;;
  o <- (if include_mutating
        then test_bookmarks_mutating base_url token item_id
        else ret (TestOutcome.mk SKIP [MUTATING_DISABLED] [])) ;;
  let results := add results "test-bookmarks-mutating" o in
  '(o, _) <- test_watching base_url token item_id ;;
  let results := add results "test-watching" o in
  o <- (if include_mutating then
          if negb (is_none media_id)
          then test_watching_mutating base_url token item_id media_id
          else ret (TestOutcome.mk SKIP ["no media_id available for watching mutation tests"] [])
        else ret (TestOutcome.mk SKIP [MUTATING_DISABLED] [])) ;;
  let results := add results "test-watching-mutating" o in
  let season_id := JNull in
  let serial_item_id := JNull in
  serial_item_id <-
    (if include_mutating || include_destructive then
       serial_resp <- _http_request base_url "GET" "/v1/items" (Some token)
                        [("type", JStr "serial"); ("page", JInt 1); ("perpage", JInt 5);
                         ("sort", JStr "updated-")] NoPayload ;;
       ret (_pick_first_item_id (HttpResponse.json serial_resp))
     else ret serial_item_id) ;;
  o <- (if include_mutating then
          if negb (is_none serial_item_id)
          then test_watchlist_toggle_mutating base_url token serial_item_id
          else ret (TestOutcome.mk SKIP ["could not pick serial item id from /v1/items?type=serial"] [])
        else ret (TestOutcome.mk SKIP [MUTATING_DISABLED] [])) ;;
  let results := add results "test-watchlist-toggle-mutating" o in
  season_id <-
    (if include_destructive && negb (is_none serial_item_id) then
       serial_det <- _http_request base_url "GET" (fmt ["/v1/items/"; py_str serial_item_id])
                       (Some token) [("nolinks", JInt 1)] NoPayload ;;
       ret match HttpResponse.json serial_det with
           | JDict d => _pick_season_id_from_item (PyDict.get d "item")
           | _ => season_id
           end
     else ret season_id) ;;
  '(o_hist, picked) <- test_history base_url token ;;
  let results := add results "test-history" o_hist in
  o <- (if include_destructive
        then test_history_mutating base_url token (PyDict.get picked "media_id") season_id
               (py_or (PyDict.get picked "item_id") item_id)
        else ret (TestOutcome.mk SKIP [DESTRUCTIVE_DISABLED] [])) ;;
  let results := add results "test-history-mutating" o in
  '(o_dev, dev_id) <- test_device base_url token ;;
  let results := add results "test-device" o_dev in
  o <- (if include_mutating then
          if negb (is_none dev_id)
          then test_device_mutating base_url token dev_id
          else ret (TestOutcome.mk SKIP ["no device_id available"] [])
        else ret (TestOutcome.mk SKIP [MUTATING_DISABLED] [])) ;;
  ret (add results "test-device-mutating" o).

(** [_run_all] up to the items listing: the tests that need no item id. *)
Definition run_basics `{Host} (base_url token : string) (client_id client_secret : option string)
    : M (Results * json * json) :=
  let results : Results := [] in
  o <- (match client_id, client_secret with
        | Some cid, Some cs =>
            if nonempty cid && nonempty cs
            then test_oauth_device_flow_pending base_url cid cs
            else ret (TestOutcome.mk SKIP ["client_id/client_secret not available"] [])
        | _, _ => ret (TestOutcome.mk SKIP ["client_id/client_secret not available"] [])
        end) ;;
  let results := add results "test-auth-oauth2-device-flow" o in
  o <- test_user base_url token ;;
  let results := add results "test-user" o in
  o <- test_references base_url token ;;
  let results := add results "test-references" o in
  o <- test_tv base_url token ;;
  let results := add results "test-tv" o in
  '(o, _) <- test_types base_url token ;;
  let results := add results "test-content-types" o in
  '(o_genres, genre_id) <- test_genres base_url token ;;
  let results := add results "test-content-genres" o_genres in
  o <- test_countries base_url token ;;
  let results := add results "test-content-countries" o in
  o <- test_subtitles base_url token ;;
  let results := add results "test-content-subtitles" o in
  '(o_items, item_id) <- test_items_listing base_url token ;;
  let results := add results "test-content-items" o_items in
  o <- test_items_listing_filters base_url token ;;
  let results := add results "test-content-items-filters" o in
  ret (results, genre_id, item_id).

(** The run: the exit code, and the results written to [summary.json] and
    printed ([None] when the run stops before any test, for want of a
    token). *)
Definition _run_all `{Host} (base_url : string) (token_arg : option string) (token_file : string)
    (client_id client_secret : option string)
    (include_mutating include_destructive include_api2 : bool)
    (api2_base_url api2_device_token : option string) (api2_upload_report : bool)
    : M (Z * option Results) :=
  let '(token, token_source) := _resolve_access_token token_arg token_file in
  if negb (opt_truthy token) then ret (2, None)
  else
    let token := match token with Some t => t | None => EmptyString end in
    '(results, genre_id, item_id) <- run_basics base_url token client_id client_secret ;;
    if is_none item_id then
      ret (1, Some results)
    else
      results <- run_with_item base_url token genre_id item_id
                   include_mutating include_destructive results ;;
      results <-
        (if include_api2 then
           run_api2 base_url token item_id include_mutating api2_base_url api2_device_token
             api2_upload_report results
         else
           ret (add results "test-api2"
                  (TestOutcome.mk SKIP ["api2 tests not enabled (use --include-api2)"] []))) ;;
      ret (if forallb (fun r => negb (is_fail (snd (fst r)))) results then 0 else 1,
           Some results).

(** ** extract_token.py: the OAuth2 device flow *)

Definition _http_post_query `{Host} (base_url path : string) (query : PyDict.dict)
    : M HttpResponse.t :=
  let base_url := _ensure_trailing_slash base_url in
  let url := fmt [rstrip_char "/" base_url; "/"; lstrip_char "/" path] in
  '(status, resp_headers, raw_text) <-
     urlopen (Request.mk "POST" url None query None (Some EmptyString) None) ;;
  ret (HttpResponse.mk status resp_headers raw_text (parsed_json resp_headers raw_text)).

(** What [_device_flow] raises: a [RuntimeError] with a fixed or formatted
    message, or the one whose message prints the whole error payload. *)
Inductive RuntimeError : Type :=
| Error (msg : string)
| UnexpectedOAuthError (payload : json).

(** How one pass through the polling loop ends: the function returns the
    token payload, raises, or sleeps for the (possibly increased) interval
    and polls again. *)
Inductive PollStep : Type :=
| Return (payload : PyDict.dict)
| Raise (e : RuntimeError)
| SleepThenPoll (poll_interval : Z).

(** The body of the [while] loop after the request: what is done with the
    answer [r_poll] when the interval is [poll_interval]. *)
Definition poll_answer (r_poll : HttpResponse.t) (poll_interval : Z) : PollStep :=
  match HttpResponse.json r_poll with
  | JDict d =>
      if is_str (PyDict.get d "access_token") then Return d
      else
        match PyDict.get d "error" with
        | JStr err =>
            if String.eqb err "authorization_pending" then SleepThenPoll poll_interval
            else if String.eqb err "slow_down" then SleepThenPoll (poll_interval + 5)
            else if String.eqb err "expired_token" || String.eqb err "access_denied"
            then Raise (Error (fmt ["device_token: "; err]))
            else Raise (UnexpectedOAuthError (JDict d))
        | _ =>
            Raise (Error (fmt ["device_token: unexpected response HTTP ";
                               str_int (HttpResponse.status r_poll); ": ";
                               String.substring 0 200 (HttpResponse.raw_text r_poll)]))
        end
  | _ =>
      Raise (Error (fmt ["device_token: unexpected response HTTP ";
                         str_int (HttpResponse.status r_poll); ": ";
                         String.substring 0 200 (HttpResponse.raw_text r_poll)]))
  end.

Definition Qltb (a b : Q) : bool := negb (Qle_bool b a).

Definition sleep `{Host} (seconds : Z) : M unit := fun w => (tt, time_sleep seconds w).

Definition poll_query (client_id client_secret code : string) : PyDict.dict :=
  [("grant_type", JStr "device_token"); ("client_id", JStr client_id);
   ("client_secret", JStr client_secret); ("code", JStr code)].

(** [while time.time() < deadline: ...], at most [fuel] passes; [None] when
    the loop is still polling after that many. *)
Fixpoint poll_loop `{Host} (fuel : nat) (base_url client_id client_secret code : string)
    (deadline : Q) (poll_interval : Z) : M (option (RuntimeError + PyDict.dict)) :=
  match fuel with
  | O => ret None
  | S fuel =>
      now <- time_time ;;
      if Qltb now deadline then
        r_poll <- _http_post_query base_url "/oauth2/device"
                    (poll_query client_id client_secret code) ;;
        match poll_answer r_poll poll_interval with
        | Return payload => ret (Some (inr payload))
        | Raise e => ret (Some (inl e))
        | SleepThenPoll poll_interval =>
            _ <- sleep poll_interval ;;
            poll_loop fuel base_url client_id client_secret code deadline poll_interval
        end
      else
        ret (Some (inl (Error
          "device_token: timed out waiting for user authorization (device code expired)")))
  end.

(** [isinstance(x, int)] and its value. *)
Definition int_value (x : json) : option Z :=
  match x with
  | JInt n => Some n
  | JBool b => Some (if b then 1 else 0)
  | _ => None
  end.

(** [isinstance(x, str) and x] *)
Definition nonempty_str (x : json) : option string :=
  match x with
  | JStr s => if nonempty s then Some s else None
  | _ => None
  end.

Definition _device_flow `{Host} (fuel : nat) (base_url client_id client_secret : string)
    : M (option (RuntimeError + PyDict.dict)) :=
  r_code <- _http_post_query base_url "/oauth2/device"
              [("grant_type", JStr "device_code"); ("client_id", JStr client_id);
               ("client_secret", JStr client_secret)] ;;
  match HttpResponse.json r_code with
  | JDict d =>
      let code := PyDict.get d "code" in
      let user_code := PyDict.get d "user_code" in
      let verification_uri :=
        py_or (PyDict.get d "verification_uri") (PyDict.get d "verification_uri_complete") in
      let expires_in := PyDict.get d "expires_in" in
      let interval := PyDict.get d "interval" in
      match nonempty_str code with
      | None => ret (Some (inl (Error "device_code: missing 'code'")))
      | Some code =>
          match nonempty_str user_code with
          | None => ret (Some (inl (Error "device_code: missing 'user_code'")))
          | Some _ =>
              match nonempty_str verification_uri with
              | None => ret (Some (inl (Error "device_code: missing 'verification_uri'")))
              | Some _ =>
                  match int_value expires_in with
                  | None => ret (Some (inl (Error "device_code: missing/invalid 'expires_in'")))
                  | Some expires_in =>
                      match int_value interval with
                      | None => ret (Some (inl (Error "device_code: missing/invalid 'interval'")))
                      | Some interval =>
                          now <- time_time ;;
                          let deadline := (now + inject_Z (Z.max 1 expires_in))%Q in
                          let poll_interval := Z.max 1 interval in
                          poll_loop fuel base_url client_id client_secret code deadline
                            poll_interval
                      end
                  end
              end
          end
      end
  | _ =>
      ret (Some (inl (Error (fmt ["device_code: expected JSON object, got HTTP ";
                                  str_int (HttpResponse.status r_code); ": ";
                                  String.substring 0 200 (HttpResponse.raw_text r_code)]))))
  end.

(** * Specification vocabulary *)

(** [post m Q]: whatever the host does, the value [m] returns satisfies
    [Q]. *)
Definition post `{Host} {A : Type} (m : M A) (Q : A -> Prop) : Prop :=
  forall w, Q (fst (m w)).

(** The invariant of test outcomes: PASS goes with no error, FAIL with at
    least one; SKIP may carry its explanation. *)
Definition outcome_ok (o : TestOutcome.t) : Prop :=
  match TestOutcome.status o with
  | PASS => TestOutcome.errors o = []
  | FAIL => TestOutcome.errors o <> []
  | SKIP => True
  end.

(** The outcomes the test routines can return, routine by routine, for any
    arguments and any behaviour of the host. *)
Inductive produced `{Host} : TestOutcome.t -> Prop :=
| by_test_user : forall b t w, produced (fst (test_user b t w))
| by_test_oauth_device_flow_pending : forall b ci cs w,
    produced (fst (test_oauth_device_flow_pending b ci cs w))
| by_test_api2_items_search : forall b t w, produced (fst (fst (test_api2_items_search b t w)))
| by_test_api2_item_details : forall b t i w, produced (fst (test_api2_item_details b t i w))
| by_test_api2_backdrop : forall b t i k w, produced (fst (test_api2_backdrop b t i k w))
| by_test_api2_notifications_mutating : forall b t i d w,
    produced (fst (test_api2_notifications_mutating b t i d w))
| by_test_api2_upload_report : forall b t f w, produced (fst (test_api2_upload_report b t f w))
| by_test_api2_item_collections : forall b t i w,
    produced (fst (test_api2_item_collections b t i w))
| by_test_api2_imdb : forall b t c w, produced (fst (test_api2_imdb b t c w))
| by_test_types : forall b t w, produced (fst (fst (test_types b t w)))
| by_test_genres : forall b t w, produced (fst (fst (test_genres b t w)))
| by_test_countries : forall b t w, produced (fst (test_countries b t w))
| by_test_subtitles : forall b t w, produced (fst (test_subtitles b t w))
| by_test_search : forall b t w, produced (fst (test_search b t w))
| by_test_similar : forall b t i w, produced (fst (test_similar b t i w))
| by_test_shortcut : forall b t n g w, produced (fst (test_shortcut b t n g w))
| by_test_trailer : forall b t i w, produced (fst (test_trailer b t i w))
| by_test_comments : forall b t i w, produced (fst (test_comments b t i w))
| by_test_vote_mutating : forall b t i w, produced (fst (test_vote_mutating b t i w))
| by_test_collections : forall b t w, produced (fst (fst (test_collections b t w)))
| by_test_collections_sort : forall b t w, produced (fst (test_collections_sort b t w))
| by_test_collection_items : forall b t c w, produced (fst (test_collection_items b t c w))
| by_test_references : forall b t w, produced (fst (test_references b t w))
| by_test_tv : forall b t w, produced (fst (test_tv b t w))
| by_test_watching : forall b t i w, produced (fst (fst (test_watching b t i w)))
| by_test_watching_mutating : forall b t i m w,
    produced (fst (test_watching_mutating b t i m w))
| by_test_watchlist_toggle_mutating : forall b t i w,
    produced (fst (test_watchlist_toggle_mutating b t i w))
| by_test_history : forall b t w, produced (fst (fst (test_history b t w)))
| by_test_history_mutating : forall b t m s i w,
    produced (fst (test_history_mutating b t m s i w))
| by_test_device : forall b t w, produced (fst (fst (test_device b t w)))
| by_test_device_mutating : forall b t d w, produced (fst (test_device_mutating b t d w))
| by_test_items_listing : forall b t w, produced (fst (fst (test_items_listing b t w)))
| by_test_items_listing_filters : forall b t w,
    produced (fst (test_items_listing_filters b t w))
| by_test_item_details : forall b t i w, produced (fst (fst (test_item_details b t i w)))
| by_test_media_links : forall b t m w, produced (fst (fst (test_media_links b t m w)))
| by_test_media_video_link : forall b t f s w,
    produced (fst (test_media_video_link b t f s w))
| by_test_bookmarks_mutating : forall b t i w,
    produced (fst (test_bookmarks_mutating b t i w)).

(** The ids of a summary, in order. *)
Definition ids (results : Results) : list string := map (fun r => fst (fst r)) results.

Definition any_fail (results : Results) : bool :=
  existsb (fun r => is_fail (snd (fst r))) results.

(** The ids recorded up to the items listing. *)
Definition BASIC_IDS : list string :=
  [ "test-auth-oauth2-device-flow"; "test-user"; "test-references"; "test-tv";
    "test-content-types"; "test-content-genres"; "test-content-countries";
    "test-content-subtitles"; "test-content-items"; "test-content-items-filters" ].

(** The ids added once an item id is known, up to the api2 block.  Three of
    them depend on what the probes could extract: a media id, a media file,
    a collection id. *)
Definition ITEM_IDS (media_links video_link collections_view : bool) : list string :=
  [ "test-content-item-details"; "test-content-search"; "test-content-similar";
    "test-content-fresh"; "test-content-fresh-genre";
    "test-content-hot"; "test-content-hot-genre";
    "test-content-popular"; "test-content-popular-genre";
    "test-content-trailer"; "test-content-comments"; "test-content-vote-mutating" ]
  ++ (if media_links
      then "test-content-media-links"
           :: (if video_link then ["test-content-media-video-link"] else [])
      else [])
  ++ [ "test-collections"; "test-collections-sort" ]
  ++ (if collections_view then ["test-collections-view"] else [])
  ++ [ "test-bookmarks-mutating"; "test-watching"; "test-watching-mutating";
       "test-watchlist-toggle-mutating"; "test-history"; "test-history-mutating";
       "test-device"; "test-device-mutating" ].

(** The ids of the api2 block: the seven api2 tests, or the one entry that
    stands for them when api2 is not enabled. *)
Definition API2_IDS (include_api2 : bool) : list string :=
  if include_api2
  then [ "test-api2-items-search"; "test-api2-item-details"; "test-api2-item-collections";
         "test-api2-backdrop"; "test-api2-imdb"; "test-api2-notifications-mutating";
         "test-api2-upload-report" ]
  else [ "test-api2" ].

(** The ids of a run that goes past the items listing. *)
Definition inventory (include_api2 media_links video_link collections_view : bool)
    : list string :=
  BASIC_IDS ++ ITEM_IDS media_links video_link collections_view ++ API2_IDS include_api2.


(** The listing of the items probe scenario. *)
Definition LISTING_42 : json :=
  JDict [ ("items", JList [JDict [("id", JInt 42); ("title", JStr "X"); ("type", JStr "movie")]]);
          ("pagination", JDict [("total", JInt 1); ("current", JInt 1); ("perpage", JInt 5)]) ].

(** A host for examples: every request is answered with HTTP 200 and a
    body that parses to [answer]; the clock stands still; the environment
    holds [env_token] and the token file reads [file_text]. *)
Definition example_host (answer : json) (env_token file_text : option string) : Host :=
  {| World := nat;
     urlopen := fun _ w => ((200, [("Content-Type", "application/json")], "{...}"), S w);
     time_time := fun w => (0%Q, w);
     time_sleep := fun _ w => w;
     os_environ_get := fun k => if String.eqb k ENV_ACCESS_TOKEN then env_token else None;
     open_read := fun _ => file_text;
     json_loads := fun _ => Some answer |}.

(** A value that is a [str] with something other than whitespace in it. *)
Definition is_nonblank_str (v : json) : bool :=
  match v with
  | JStr t => nonempty (strip t)
  | _ => false
  end.

(** A line that [_read_token_file] passes over. *)
Definition skipped_line (line : string) : bool :=
  negb (nonempty (strip line)) || startswith (strip line) "#".

(** * More of the two scripts *)

(** ** run_tests.py: redaction of tokens in raw text *)

(** The character class [[A-Za-z0-9._~+/=-]]. *)
Definition is_token_char (c : ascii) : bool :=
  let n := nat_of_ascii c in
  ((48 <=? n) && (n <=? 57) || (65 <=? n) && (n <=? 90) || (97 <=? n) && (n <=? 122)
   || (n =? 46) || (n =? 95) || (n =? 126) || (n =? 43) || (n =? 47) || (n =? 61)
   || (n =? 45))%nat.

(** [s] without the literal [p] in front of it, when it is there. *)
Fixpoint drop_prefix (p s : string) : option string :=
  match p with
  | EmptyString => Some s
  | String a p' =>
      match s with
      | EmptyString => None
      | String b s' => if Ascii.eqb a b then drop_prefix p' s' else None
      end
  end.

(** What is left of [s] after the longest run of characters in a class. *)
Fixpoint skip_while (f : ascii -> bool) (s : string) : string :=
  match s with
  | EmptyString => EmptyString
  | String c r => if f c then skip_while f r else s
  end.

(** A match of [access_token=[A-Za-z0-9._~+/=-]+] at the head of [s]: the
    text after it. *)
Definition match_access_token (s : string) : option string :=
  match drop_prefix "access_token=" s with
  | Some (String c r) => if is_token_char c then Some (skip_while is_token_char r) else None
  | _ => None
  end.

(** A match of [Authorization:\s*Bearer\s+[A-Za-z0-9._~+/=-]+] at the head
    of [s]: the text after it.  No class overlaps the literal or the class
    that follows it, so the greedy match is the only one. *)
Definition match_bearer (s : string) : option string :=
  match drop_prefix "Authorization:" s with
  | Some r =>
      match drop_prefix "Bearer" (skip_while isspace r) with
      | Some (String c r') =>
          if isspace c then
            match skip_while isspace r' with
            | String t r'' =>
                if is_token_char t then Some (skip_while is_token_char r'') else None
            | EmptyString => None
            end
          else None
      | _ => None
      end
  | None => None
  end.

(** [re.sub] for a pattern that matches no empty string: scanning from the
    left, each match is replaced by [repl] and the scan goes on after it.
    [skip] counts the characters of the current match still to pass. *)
Fixpoint re_sub (matcher : string -> option string) (repl : string) (skip : nat) (s : string)
    : string :=
  match s with
  | EmptyString => EmptyString
  | String c r =>
      match skip with
      | S k => re_sub matcher repl k r
      | O =>
          match matcher s with
          | Some rest =>
              String.append repl
                (re_sub matcher repl (String.length s - String.length rest - 1) r)
          | None => String c (re_sub matcher repl O r)
          end
      end
  end.

Definition _redact_tokens (text : string) : string :=
  let text := re_sub match_bearer "Authorization: Bearer <REDACTED>" 0 text in
  re_sub match_access_token "access_token=<REDACTED>" 0 text.

(** ** run_tests.py: snapshots *)

Definition SNAPSHOT_PARAM_KEYS : list string :=
  ["device_token"; "access_token"; "refresh_token"; "client_secret"].

(** [if k in params and params[k] is not None: params[k] = "<REDACTED>"] *)
Definition redact_param (params : PyDict.dict) (k : string) : PyDict.dict :=
  if PyDict.has params k && negb (is_none (PyDict.get params k))
  then PyDict.set params k (JStr REDACTED)
  else params.

(** [for k in ["device_token", "access_token", "refresh_token",
    "client_secret"]: ...] *)
Definition redact_params (params : PyDict.dict) : PyDict.dict :=
  fold_left redact_param SNAPSHOT_PARAM_KEYS params.

(** [if name in safe_req and isinstance(safe_req[name], dict): ...] for the
    query and the form of the request descriptor. *)
Definition redact_section (safe_req : PyDict.dict) (name : string) : PyDict.dict :=
  match PyDict.get safe_req name with
  | JDict params => PyDict.set safe_req name (JDict (redact_params params))
  | _ => safe_req
  end.

(** The file name and the document [_save_snapshot] writes.  The request
    descriptor [req] holds strings, numbers, lists and dicts, on which the
    deep copy through [json.dumps] and [json.loads] is the identity. *)
Definition _save_snapshot (test_id : string) (req : PyDict.dict) (resp : HttpResponse.t)
    : string * json :=
  let safe_req := req in
  let safe_req :=
    match PyDict.get safe_req "headers" with
    | JDict headers =>
        if PyDict.has headers "Authorization"
        then PyDict.set safe_req "headers"
               (JDict (PyDict.set headers "Authorization" (JStr "Bearer <REDACTED>")))
        else safe_req
    | _ => safe_req
    end in
  let safe_req := redact_section safe_req "query" in
  let safe_req := redact_section safe_req "form" in
  let safe :=
    JDict
      [ ("request", JDict safe_req);
        ("response",
         JDict
           [ ("status", JInt (HttpResponse.status resp));
             ("headers", JDict (map (fun kv => (fst kv, JStr (snd kv))) (HttpResponse.headers resp)));
             ("raw_text", JStr (_redact_tokens (HttpResponse.raw_text resp)));
             ("json", _redact_json (HttpResponse.json resp)) ]) ] in
  (fmt [test_id; ".snapshot.json"], safe).

(** ** run_tests.py: the printed summary *)

Definition status_str (s : Status) : string :=
  match s with
  | PASS => "PASS"
  | FAIL => "FAIL"
  | SKIP => "SKIP"
  end.

(** The lines printed for one test: its status and id, its first ten
    errors, and the count of the others when there are more. *)
Definition summary_entry_lines (entry : string * Status * list string) : list string :=
  let '(test_id, status, errs) := entry in
  [fmt [status_str status; " "; test_id]]
  ++ map (fun e => fmt ["  - "; e]) (firstn 10 errs)
  ++ (if (10 <? List.length errs)%nat
      then [fmt ["  - ... "; str_nat (List.length errs - 10); " more"]]
      else []).

(** The lines [_print_summary] prints. *)
Definition _print_summary (results : Results) (out_dir : string) : list string :=
  [EmptyString; "KinoPub API test summary"; fmt ["- Output: "; out_dir]; EmptyString]
  ++ flat_map summary_entry_lines results.

(** ** extract_token.py: masking and the token file *)

(** The horizontal ellipsis U+2026, as its UTF-8 bytes. *)
Definition ELLIPSIS : string := fmt [chr 226; chr 128; chr 166].

(** [s[:keep]] *)
Definition slice_to (s : string) (keep : Z) : string :=
  if keep <? 0
  then String.substring 0 (Z.to_nat (Z.max 0 (Z.of_nat (String.length s) + keep))) s
  else String.substring 0 (Z.to_nat keep) s.

Definition _mask (s : option string) (keep : Z) : string :=
  let s := match s with Some s => s | None => EmptyString end in
  if Z.of_nat (String.length s) <=? keep then "<redacted>"
  else fmt [slice_to s keep; ELLIPSIS; "(len="; str_nat (String.length s); ")"].

(** The object [main] writes to the token file, from the payload the
    device flow returned. *)
Definition token_file_object (token_payload : PyDict.dict) (obtained_at base_url : string)
    : PyDict.dict :=
  [ ("access_token", PyDict.get token_payload "access_token");
    ("refresh_token", PyDict.get token_payload "refresh_token");
    ("token_type", PyDict.get token_payload "token_type");
    ("expires_in", PyDict.get token_payload "expires_in");
    ("scope", PyDict.get token_payload "scope");
    ("obtained_at", JStr obtained_at);
    ("base_url", JStr base_url);
    ("note", JStr "Generated by tools/kinoapi_tests/extract_token.py. Do NOT commit/share this file.") ].

(** * More specification vocabulary *)

(** [preserves I m]: running [m] keeps the property [I] of the world. *)
Definition preserves `{Host} {A : Type} (I : World -> Prop) (m : M A) : Prop :=
  forall w, I w -> I (snd (m w)).

(** A host that also records the requests it is sent, in order. *)
Definition traced (h : Host) : Host :=
  {| World := (@World h * list Request.t)%type;
     urlopen := fun rq w =>
       let (answer, w') := @urlopen h rq (fst w) in (answer, (w', snd w ++ [rq]));
     time_time := fun w => let (t, w') := @time_time h (fst w) in (t, (w', snd w));
     time_sleep := fun s w => (@time_sleep h s (fst w), snd w);
     os_environ_get := @os_environ_get h;
     open_read := @open_read h;
     json_loads := @json_loads h |}.

(** The request [_http_request] sends for a form POST. *)
Definition form_post (base_url path token : string) (form : PyDict.dict) : Request.t :=
  Request.mk "POST" (fmt [rstrip_char "/" base_url; "/"; lstrip_char "/" path])
    (if nonempty token then Some token else None) [] (Some form) None
    (Some "application/x-www-form-urlencoded").

(** A clock that does not run backwards, on which reading the time and
    exchanging a request take no negative time and a sleep lasts at least
    as long as asked. *)
Record clock_ok `{Host} (clock : World -> Q) : Prop := {
  clock_read : forall w, fst (time_time w) = clock w /\ (clock w <= clock (snd (time_time w)))%Q;
  clock_urlopen : forall rq w, (clock w <= clock (snd (urlopen rq w)))%Q;
  clock_sleep : forall s w, (clock w + inject_Z s <= clock (time_sleep s w))%Q
}.

(** No key of the redaction set occurs anywhere in the document. *)
Fixpoint no_sensitive_key (x : json) : bool :=
  match x with
  | JList xs => forallb no_sensitive_key xs
  | JDict items =>
      forallb (fun kv => negb (is_sensitive_key (fst kv)) && no_sensitive_key (snd kv)) items
  | _ => true
  end.

Definition entry_ok (entry : string * Status * list string) : Prop :=
  match snd (fst entry) with
  | PASS => snd entry = []
  | FAIL => snd entry <> []
  | SKIP => True
  end.

(** All characters of [s] are in the class [f]. *)
Fixpoint all_chars (f : ascii -> bool) (s : string) : bool :=
  match s with
  | EmptyString => true
  | String c r => f c && all_chars f r
  end.

(** The head of [s] is not in the class [f]. *)
Definition stops (f : ascii -> bool) (s : string) : Prop :=
  match s with
  | EmptyString => True
  | String c _ => f c = false
  end.

(** What a probe that hands an identifier on returns: an [int], or [None]
    together with a FAIL. *)
Definition id_or_fail (r : TestOutcome.t * json) : Prop :=
  (is_none (snd r) = true /\ TestOutcome.status (fst r) = FAIL) \/
  isinstance_int (snd r) = true.

(** The settings [test_device_mutating] reads and sends back. *)
Definition required_keys : list string :=
  ["supportSsl"; "supportHevc"; "supportHdr"; "support4k"; "mixedPlaylist";
   "streamingType"; "serverLocation"].

(** The [settings] member of the answer to the settings request. *)
Definition settings_of (s : HttpResponse.t) : json :=
  match HttpResponse.json s with
  | JDict sd => PyDict.get sd "settings"
  | _ => JNull
  end.

(** The form of the settings update: each required key with the value
    read for it. *)
Definition settings_form (settings_map : json) : PyDict.dict :=
  map (fun k => (k, _extract_setting_value_int settings_map k)) required_keys.

(** A GET with no form and no body that carries [token] as its bearer
    token. *)
Definition authorized_get (token : string) (rq : Request.t) : Prop :=
  Request.method rq = "GET" /\ Request.bearer rq = Some token /\
  Request.form rq = None /\ Request.body rq = None.

(** The request [_http_request] sends. *)
Definition request_of (base_url method path : string) (token : option string)
    (query : PyDict.dict) (payload : Payload) : Request.t :=
  let url := fmt [rstrip_char "/" base_url; "/"; lstrip_char "/" path] in
  let bearer := if opt_truthy token then token else None in
  match payload with
  | NoPayload => Request.mk method url bearer query None None None
  | Form form =>
      Request.mk method url bearer query (Some form) None
        (Some "application/x-www-form-urlencoded")
  | Body body ct =>
      Request.mk method url bearer query None (Some body)
        (if opt_truthy ct then ct else None)
  end.


(** A host for examples with a clock: every request is answered at once
    with HTTP 200 and a body that parses to [answer]; the world is the
    time in seconds and the sleeps asked for so far, and a sleep lasts as
    long as asked. *)
Definition clock_host (answer : json) : Host :=
  {| World := (Z * list Z)%type;
     urlopen := fun _ w => ((200, [("Content-Type", "application/json")], "{...}"), w);
     time_time := fun w => (inject_Z (fst w), w);
     time_sleep := fun s w => (fst w + s, snd w ++ [s]);
     os_environ_get := fun _ => None;
     open_read := fun _ => None;
     json_loads := fun _ => Some answer |}.

(** The message of the error raised when the device code has expired. *)
Definition TIMED_OUT : string :=
  "device_token: timed out waiting for user authorization (device code expired)".

(** * Properties *)

(** ** Redaction *)

Lemma redact_dict_loop : forall items,
  _redact_json (JDict items) = JDict (assign_all [] (map redact_entry items)).
Proof.
  intros items. simpl. f_equal. unfold assign_all.
  generalize (@nil (string * json)) as out.
  induction items as [|[k v] items IH]; intros out; simpl; [reflexivity|].
  unfold redact_entry at 1; simpl.
  destruct (is_sensitive_key k); apply IH.
Qed.

Lemma has_In : forall d k, PyDict.has d k = true <-> In k (PyDict.keys d).
Proof.
  induction d as [|[k' v] d IH]; intros k; simpl.
  - split; [discriminate | tauto].
  - rewrite orb_true_iff, IH, String.eqb_eq. tauto.
Qed.

Lemma set_absent : forall d k v,
  ~ In k (PyDict.keys d) -> PyDict.set d k v = d ++ [(k, v)].
Proof.
  induction d as [|[k' v'] d IH]; intros k v Hk; simpl in *; [reflexivity|].
  destruct (String.eqb_spec k' k) as [->|Hne]; [tauto|].
  rewrite IH; tauto.
Qed.

Lemma set_present_keys : forall d k v,
  In k (PyDict.keys d) -> PyDict.keys (PyDict.set d k v) = PyDict.keys d.
Proof.
  induction d as [|[k' v'] d IH]; intros k v Hk; simpl in *; [tauto|].
  destruct (String.eqb_spec k' k) as [->|Hne]; simpl; [reflexivity|].
  f_equal. apply IH. destruct Hk; congruence.
Qed.

Lemma set_In : forall d k v kv,
  In kv (PyDict.set d k v) -> In kv d \/ kv = (k, v).
Proof.
  induction d as [|[k' v'] d IH]; intros k v kv H; simpl in *.
  - destruct H as [<-|[]]; auto.
  - destruct (String.eqb_spec k' k) as [->|Hne]; simpl in H.
    + destruct H as [<-|H]; auto.
    + destruct H as [<-|H]; auto. apply IH in H. tauto.
Qed.

Lemma set_NoDup : forall d k v,
  NoDup (PyDict.keys d) -> NoDup (PyDict.keys (PyDict.set d k v)).
Proof.
  intros d k v Hd.
  destruct (in_dec string_dec k (PyDict.keys d)) as [Hin|Hout].
  - rewrite set_present_keys; assumption.
  - rewrite set_absent by assumption. unfold PyDict.keys. rewrite map_app; simpl.
    apply NoDup_app; [assumption | repeat constructor; simpl; tauto | ].
    intros a Ha [<-|[]]. exact (Hout Ha).
Qed.

Lemma assign_all_NoDup : forall entries out,
  NoDup (PyDict.keys out) -> NoDup (PyDict.keys (assign_all out entries)).
Proof.
  induction entries as [|e entries IH]; intros out H; simpl; [assumption|].
  apply IH, set_NoDup, H.
Qed.

Lemma assign_all_In : forall entries out kv,
  In kv (assign_all out entries) -> In kv out \/ In kv entries.
Proof.
  induction entries as [|[k v] entries IH]; intros out kv H; simpl in *; [auto|].
  apply IH in H. destruct H as [H|H]; [|auto].
  apply set_In in H. destruct H as [H| ->]; auto.
Qed.

Lemma assign_all_fresh : forall entries out,
  NoDup (PyDict.keys out ++ PyDict.keys entries) ->
  assign_all out entries = out ++ entries.
Proof.
  induction entries as [|[k v] entries IH]; intros out H; simpl.
  - symmetry. apply app_nil_r.
  - simpl in H. rewrite set_absent.
    + rewrite IH.
      * rewrite <- app_assoc. reflexivity.
      * unfold PyDict.keys in *. rewrite map_app, <- app_assoc. exact H.
    + intros Hin. apply NoDup_remove_2 in H. apply H, in_or_app. auto.
Qed.

Lemma nodup_keys_NoDup : forall ks, nodup_keys ks = true <-> NoDup ks.
Proof.
  induction ks as [|k ks IH]; simpl.
  - split; [constructor | reflexivity].
  - rewrite andb_true_iff, negb_true_iff, IH. split.
    + intros [Hk Hks]. constructor; [|assumption].
      intros Hin. assert (E : existsb (String.eqb k) ks = true).
      { apply existsb_exists. exists k. split; [assumption | apply String.eqb_refl]. }
      congruence.
    + intros H. inversion H as [|? ? Hk Hks]; subst. split; [|assumption].
      destruct (existsb (String.eqb k) ks) eqn:E; [|reflexivity].
      apply existsb_exists in E. destruct E as [k' [Hin Hk']].
      apply String.eqb_eq in Hk'. subst. contradiction.
Qed.

Lemma redact_entry_keys : forall items,
  PyDict.keys (map redact_entry items) = PyDict.keys items.
Proof.
  intros items. unfold PyDict.keys. rewrite map_map. reflexivity.
Qed.

(** On a Python dict, whose keys are distinct, the loop is a map. *)
Lemma redact_dict_map : forall items,
  NoDup (PyDict.keys items) ->
  _redact_json (JDict items) = JDict (map redact_entry items).
Proof.
  intros items H. rewrite redact_dict_loop. f_equal.
  apply (assign_all_fresh (map redact_entry items) []).
  simpl. rewrite redact_entry_keys. exact H.
Qed.

Lemma redact_list : forall xs, _redact_json (JList xs) = JList (map _redact_json xs).
Proof. reflexivity. Qed.

Lemma redact_entry_fixed : forall kv,
  _redact_json (_redact_json (snd kv)) = _redact_json (snd kv) ->
  redact_entry (redact_entry kv) = redact_entry kv.
Proof.
  intros [k v] Hv. unfold redact_entry; simpl in *.
  destruct (is_sensitive_key k); [reflexivity | now rewrite Hv].
Qed.

Lemma map_fixed : forall (A : Type) (f : A -> A) (l : list A),
  (forall a, In a l -> f a = a) -> map f l = l.
Proof.
  intros A f l H. induction l as [|a l IH]; simpl; [reflexivity|].
  rewrite H by (left; reflexivity). f_equal. apply IH. intros b Hb. apply H. now right.
Qed.

(** C6. Redaction is idempotent: redacting a redacted value changes nothing.
    This holds for every value of the model, dicts with repeated keys
    included. *)
Theorem redact_json_idempotent : forall x : json,
  _redact_json (_redact_json x) = _redact_json x.
Proof.
  induction x as [| b | n | f | s | xs IH | items IH] using json_deep_ind;
    try reflexivity.
  - rewrite !redact_list. f_equal. rewrite map_map.
    apply map_ext_in. intros a Ha. rewrite Forall_forall in IH. now apply IH.
  - rewrite redact_dict_loop.
    set (D := assign_all [] (map redact_entry items)).
    assert (HD : NoDup (PyDict.keys D)) by (apply assign_all_NoDup; constructor).
    rewrite (redact_dict_map D HD). f_equal.
    apply map_fixed. intros kv Hkv.
    apply assign_all_In in Hkv. destruct Hkv as [[]|Hkv].
    apply in_map_iff in Hkv. destruct Hkv as [kv0 [<- Hin]].
    apply redact_entry_fixed. rewrite Forall_forall in IH. now apply IH.
Qed.


Lemma secrets_redacted_redact : forall x, secrets_redacted (_redact_json x) = true.
Proof.
  induction x as [| b | n | f | s | xs IH | items IH] using json_deep_ind;
    try reflexivity.
  - rewrite redact_list. simpl. rewrite forallb_forall. intros y Hy.
    apply in_map_iff in Hy. destruct Hy as [a [<- Ha]].
    rewrite Forall_forall in IH. now apply IH.
  - rewrite redact_dict_loop. simpl. rewrite forallb_forall. intros kv Hkv.
    apply assign_all_In in Hkv. destruct Hkv as [[]|Hkv].
    apply in_map_iff in Hkv. destruct Hkv as [[k v] [<- Hin]].
    unfold redact_entry; simpl. destruct (is_sensitive_key k) eqn:E.
    + reflexivity.
    + rewrite Forall_forall in IH. exact (IH (k, v) Hin).
Qed.




(** ** Reasoning about host computations *)

Section Post.
Context `{Host}.

Lemma post_ret : forall (A : Type) (a : A) (Q : A -> Prop), Q a -> post (ret a) Q.
Proof. intros A a Q HQ w. exact HQ. Qed.

Lemma post_bind : forall (A B : Type) (m : M A) (k : A -> M B) (P : A -> Prop) (Q : B -> Prop),
  post m P -> (forall a, P a -> post (k a) Q) -> post (bind m k) Q.
Proof.
  intros A B m k P Q Hm Hk w. unfold bind.
  specialize (Hm w). destruct (m w) as [a w']. simpl in Hm. apply (Hk a Hm).
Qed.

Lemma post_bind_any : forall (A B : Type) (m : M A) (k : A -> M B) (Q : B -> Prop),
  (forall a, post (k a) Q) -> post (bind m k) Q.
Proof.
  intros A B m k Q Hk. apply post_bind with (P := fun _ => True).
  - intros w. exact I.
  - intros a _. apply Hk.
Qed.

End Post.

(** One step through a computation whose intermediate values do not
    matter. *)
Ltac run_step :=
  lazymatch goal with
  | |- post (bind _ _) _ => apply post_bind_any; intro; cbv beta
  | |- post (ret _) _ => apply post_ret
  | |- post (if ?c then _ else _) _ => destruct c
  | |- post (match ?x with _ => _ end) _ => destruct x
  | |- post (let _ := _ in _) _ => cbv zeta
  end.

(** ** Test outcomes *)

Lemma pass_if_none_ok : forall errors ctx,
  outcome_ok (TestOutcome.mk (pass_if_none errors) errors ctx).
Proof.
  intros [|e errors] ctx; unfold outcome_ok; simpl; [reflexivity | discriminate].
Qed.

Lemma fail_with_error_ok : forall errors msg ctx,
  outcome_ok (TestOutcome.mk FAIL (errors ++ [msg]) ctx).
Proof.
  intros errors msg ctx. unfold outcome_ok; simpl.
  destruct errors; discriminate.
Qed.

Lemma skip_ok : forall errors ctx, outcome_ok (TestOutcome.mk SKIP errors ctx).
Proof. intros. exact I. Qed.

Lemma pass_if_none_app : forall errors msg, pass_if_none (errors ++ [msg]) = FAIL.
Proof. intros [|e errors] msg; reflexivity. Qed.

Lemma fail_nonempty_ok : forall e errors ctx,
  outcome_ok (TestOutcome.mk FAIL (e :: errors) ctx).
Proof. intros. unfold outcome_ok; simpl. discriminate. Qed.

Ltac outcome_done :=
  first [ apply pass_if_none_ok | apply fail_with_error_ok | apply fail_nonempty_ok
        | apply skip_ok ].

Ltac routine_ok := repeat run_step; first [ outcome_done | simpl; outcome_done ].

Section Routines.
Context `{Host}.

Lemma test_user_ok : forall b t, post (test_user b t) outcome_ok.
Proof. intros. unfold test_user. routine_ok. Qed.

Lemma test_oauth_device_flow_pending_ok : forall b ci cs,
  post (test_oauth_device_flow_pending b ci cs) outcome_ok.
Proof. intros. unfold test_oauth_device_flow_pending. routine_ok. Qed.

Lemma test_api2_items_search_ok : forall b t,
  post (test_api2_items_search b t) (fun r => outcome_ok (fst r)).
Proof. intros. unfold test_api2_items_search. routine_ok. Qed.

Lemma test_api2_item_details_ok : forall b t i,
  post (test_api2_item_details b t i) outcome_ok.
Proof. intros. unfold test_api2_item_details. routine_ok. Qed.

Lemma test_api2_backdrop_ok : forall b t i k,
  post (test_api2_backdrop b t i k) outcome_ok.
Proof. intros. unfold test_api2_backdrop. routine_ok. Qed.

Lemma test_api2_notifications_mutating_ok : forall b t i d,
  post (test_api2_notifications_mutating b t i d) outcome_ok.
Proof. intros. unfold test_api2_notifications_mutating. routine_ok. Qed.

Lemma test_api2_upload_report_ok : forall b t f,
  post (test_api2_upload_report b t f) outcome_ok.
Proof. intros. unfold test_api2_upload_report. routine_ok. Qed.

Lemma test_api2_item_collections_ok : forall b t i,
  post (test_api2_item_collections b t i) outcome_ok.
Proof. intros. unfold test_api2_item_collections. routine_ok. Qed.

Lemma test_api2_imdb_ok : forall b t c,
  post (test_api2_imdb b t c) outcome_ok.
Proof. intros. unfold test_api2_imdb. routine_ok. Qed.

Lemma test_types_ok : forall b t,
  post (test_types b t) (fun r => outcome_ok (fst r)).
Proof. intros. unfold test_types. routine_ok. Qed.

Lemma test_genres_ok : forall b t,
  post (test_genres b t) (fun r => outcome_ok (fst r)).
Proof. intros. unfold test_genres. routine_ok. Qed.

Lemma test_countries_ok : forall b t,
  post (test_countries b t) outcome_ok.
Proof. intros. unfold test_countries. routine_ok. Qed.

Lemma test_subtitles_ok : forall b t,
  post (test_subtitles b t) outcome_ok.
Proof. intros. unfold test_subtitles. routine_ok. Qed.

Lemma test_search_ok : forall b t,
  post (test_search b t) outcome_ok.
Proof. intros. unfold test_search. routine_ok. Qed.

Lemma test_similar_ok : forall b t i,
  post (test_similar b t i) outcome_ok.
Proof. intros. unfold test_similar. routine_ok. Qed.

Lemma test_shortcut_ok : forall b t n g,
  post (test_shortcut b t n g) outcome_ok.
Proof. intros. unfold test_shortcut. routine_ok. Qed.

Lemma test_trailer_ok : forall b t i,
  post (test_trailer b t i) outcome_ok.
Proof. intros. unfold test_trailer. routine_ok. Qed.

Lemma test_comments_ok : forall b t i,
  post (test_comments b t i) outcome_ok.
Proof. intros. unfold test_comments. routine_ok. Qed.

Lemma test_vote_mutating_ok : forall b t i,
  post (test_vote_mutating b t i) outcome_ok.
Proof. intros. unfold test_vote_mutating. routine_ok. Qed.

Lemma test_collections_ok : forall b t,
  post (test_collections b t) (fun r => outcome_ok (fst r)).
Proof. intros. unfold test_collections. routine_ok. Qed.

Lemma test_collections_sort_ok : forall b t,
  post (test_collections_sort b t) outcome_ok.
Proof. intros. unfold test_collections_sort. routine_ok. Qed.

Lemma test_collection_items_ok : forall b t c,
  post (test_collection_items b t c) outcome_ok.
Proof. intros. unfold test_collection_items. routine_ok. Qed.

Lemma test_references_ok : forall b t,
  post (test_references b t) outcome_ok.
Proof. intros. unfold test_references. routine_ok. Qed.

Lemma test_tv_ok : forall b t,
  post (test_tv b t) outcome_ok.
Proof. intros. unfold test_tv. routine_ok. Qed.

Lemma test_watching_ok : forall b t i,
  post (test_watching b t i) (fun r => outcome_ok (fst r)).
Proof. intros. unfold test_watching. routine_ok. Qed.

Lemma test_watching_mutating_ok : forall b t i m,
  post (test_watching_mutating b t i m) outcome_ok.
Proof. intros. unfold test_watching_mutating. routine_ok. Qed.

Lemma test_watchlist_toggle_mutating_ok : forall b t i,
  post (test_watchlist_toggle_mutating b t i) outcome_ok.
Proof. intros. unfold test_watchlist_toggle_mutating. routine_ok. Qed.

Lemma test_history_ok : forall b t,
  post (test_history b t) (fun r => outcome_ok (fst r)).
Proof. intros. unfold test_history. routine_ok. Qed.

Lemma test_history_mutating_ok : forall b t m s i,
  post (test_history_mutating b t m s i) outcome_ok.
Proof. intros. unfold test_history_mutating. routine_ok. Qed.

Lemma test_device_ok : forall b t,
  post (test_device b t) (fun r => outcome_ok (fst r)).
Proof. intros. unfold test_device. routine_ok. Qed.

Lemma test_device_mutating_ok : forall b t d,
  post (test_device_mutating b t d) outcome_ok.
Proof. intros. unfold test_device_mutating. routine_ok. Qed.

Lemma test_items_listing_ok : forall b t,
  post (test_items_listing b t) (fun r => outcome_ok (fst r)).
Proof. intros. unfold test_items_listing. routine_ok. Qed.

Lemma test_items_listing_filters_ok : forall b t,
  post (test_items_listing_filters b t) outcome_ok.
Proof. intros. unfold test_items_listing_filters. routine_ok. Qed.

Lemma test_item_details_ok : forall b t i,
  post (test_item_details b t i) (fun r => outcome_ok (fst r)).
Proof. intros. unfold test_item_details. routine_ok. Qed.

Lemma test_media_links_ok : forall b t m,
  post (test_media_links b t m) (fun r => outcome_ok (fst r)).
Proof. intros. unfold test_media_links. routine_ok. Qed.

Lemma test_media_video_link_ok : forall b t f s,
  post (test_media_video_link b t f s) outcome_ok.
Proof. intros. unfold test_media_video_link. routine_ok. Qed.

Lemma test_bookmarks_mutating_ok : forall b t i,
  post (test_bookmarks_mutating b t i) outcome_ok.
Proof. intros. unfold test_bookmarks_mutating. routine_ok. Qed.

End Routines.

(** C9. Every outcome a test routine returns has an empty error list when
    its status is PASS and at least one error when its status is FAIL; so,
    among PASS and FAIL outcomes, PASS holds exactly when there is no
    error.  (A SKIP outcome may carry its explanation.) *)
Theorem test_outcome_invariant : forall (host : Host) (o : TestOutcome.t),
  produced o ->
  (TestOutcome.status o = PASS -> TestOutcome.errors o = []) /\
  (TestOutcome.status o = FAIL -> TestOutcome.errors o <> []) /\
  (TestOutcome.status o <> SKIP ->
   (TestOutcome.status o = PASS <-> TestOutcome.errors o = [])).
Proof.
  intros host o Hp.
  assert (Hok : outcome_ok o).
  { destruct Hp;
      [ exact (test_user_ok _ _ _)
      | exact (test_oauth_device_flow_pending_ok _ _ _ _)
      | exact (test_api2_items_search_ok _ _ _)
      | exact (test_api2_item_details_ok _ _ _ _)
      | exact (test_api2_backdrop_ok _ _ _ _ _)
      | exact (test_api2_notifications_mutating_ok _ _ _ _ _)
      | exact (test_api2_upload_report_ok _ _ _ _)
      | exact (test_api2_item_collections_ok _ _ _ _)
      | exact (test_api2_imdb_ok _ _ _ _)
      | exact (test_types_ok _ _ _)
      | exact (test_genres_ok _ _ _)
      | exact (test_countries_ok _ _ _)
      | exact (test_subtitles_ok _ _ _)
      | exact (test_search_ok _ _ _)
      | exact (test_similar_ok _ _ _ _)
      | exact (test_shortcut_ok _ _ _ _ _)
      | exact (test_trailer_ok _ _ _ _)
      | exact (test_comments_ok _ _ _ _)
      | exact (test_vote_mutating_ok _ _ _ _)
      | exact (test_collections_ok _ _ _)
      | exact (test_collections_sort_ok _ _ _)
      | exact (test_collection_items_ok _ _ _ _)
      | exact (test_references_ok _ _ _)
      | exact (test_tv_ok _ _ _)
      | exact (test_watching_ok _ _ _ _)
      | exact (test_watching_mutating_ok _ _ _ _ _)
      | exact (test_watchlist_toggle_mutating_ok _ _ _ _)
      | exact (test_history_ok _ _ _)
      | exact (test_history_mutating_ok _ _ _ _ _ _)
      | exact (test_device_ok _ _ _)
      | exact (test_device_mutating_ok _ _ _ _)
      | exact (test_items_listing_ok _ _ _)
      | exact (test_items_listing_filters_ok _ _ _)
      | exact (test_item_details_ok _ _ _ _)
      | exact (test_media_links_ok _ _ _ _)
      | exact (test_media_video_link_ok _ _ _ _ _)
      | exact (test_bookmarks_mutating_ok _ _ _ _) ]. }
  unfold outcome_ok in Hok.
  destruct (TestOutcome.status o); repeat split; intros; try congruence; tauto.
Qed.

Lemma test_outcome_invariant_witness :
  let host := example_host (JList []) None None in
  let o := fst (@test_user host "https://api.example/" "tok" 0%nat) in
  produced o /\
  ((TestOutcome.status o = PASS -> TestOutcome.errors o = []) /\
   (TestOutcome.status o = FAIL -> TestOutcome.errors o <> []) /\
   (TestOutcome.status o <> SKIP ->
    (TestOutcome.status o = PASS <-> TestOutcome.errors o = []))).
Proof.
  intros host o.
  assert (Hp : produced o) by apply by_test_user.
  split; [exact Hp | exact (test_outcome_invariant host o Hp)].
Defined.

(** ** The items listing probe *)

(** C8. When the answer to the listing request is the listing
    [{"items": [{"id": 42, "title": "X", "type": "movie"}],
      "pagination": {"total": 1, "current": 1, "perpage": 5}}],
    the probe returns item id 42 and a PASS outcome with no error. *)
Theorem items_listing_probe_scenario :
  forall (host : Host) (base_url token : string) (w : World),
  HttpResponse.json
    (fst (_http_request base_url "GET" "/v1/items" (Some token)
            [("type", JStr "movie"); ("page", JInt 1); ("perpage", JInt 5);
             ("sort", JStr "updated-")] NoPayload w)) = LISTING_42 ->
  fst (test_items_listing base_url token w) = (TestOutcome.mk PASS [] [], JInt 42).
Proof.
  intros host base_url token w Hresp.
  unfold test_items_listing, bind.
  destruct (_http_request base_url "GET" "/v1/items" (Some token) _ NoPayload w) as [resp w'].
  simpl in Hresp. cbv zeta. rewrite Hresp. reflexivity.
Qed.

Lemma items_listing_probe_scenario_witness :
  let host := example_host LISTING_42 None None in
  HttpResponse.json
    (fst (@_http_request host "https://api.example/" "GET" "/v1/items" (Some "tok")
            [("type", JStr "movie"); ("page", JInt 1); ("perpage", JInt 5);
             ("sort", JStr "updated-")] NoPayload 0%nat)) = LISTING_42 /\
  fst (@test_items_listing host "https://api.example/" "tok" 0%nat)
  = (TestOutcome.mk PASS [] [], JInt 42).
Proof.
  intros host.
  assert (Hresp : HttpResponse.json
    (fst (@_http_request host "https://api.example/" "GET" "/v1/items" (Some "tok")
            [("type", JStr "movie"); ("page", JInt 1); ("perpage", JInt 5);
             ("sort", JStr "updated-")] NoPayload 0%nat)) = LISTING_42) by reflexivity.
  split; [exact Hresp | exact (items_listing_probe_scenario host _ _ _ Hresp)].
Defined.

(** ** The orchestrator *)

Section Run.
Context `{Host}.

Lemma post_bind_ret : forall (A B : Type) (a : A) (k : A -> M B) (Q : B -> Prop),
  post (k a) Q -> post (bind (ret a) k) Q.
Proof. intros A B a k Q Hk w. apply Hk. Qed.

Lemma post_bind_assoc : forall (A B C : Type) (m : M A) (f : A -> M B) (k : B -> M C)
    (Q : C -> Prop),
  post (bind m (fun a => bind (f a) k)) Q -> post (bind (bind m f) k) Q.
Proof.
  intros A B C m f k Q Hm w. specialize (Hm w). unfold bind in *.
  destruct (m w) as [a w1]. exact Hm.
Qed.

Lemma ids_add : forall results tid o, ids (add results tid o) = ids results ++ [tid].
Proof. intros. unfold ids, add. rewrite map_app. reflexivity. Qed.

Lemma any_fail_add : forall results tid o,
  any_fail (add results tid o) = any_fail results || is_fail (TestOutcome.status o).
Proof.
  intros. unfold any_fail, add. rewrite existsb_app. simpl. now rewrite orb_false_r.
Qed.

Lemma in_add_there : forall results tid o e, In e results -> In e (add results tid o).
Proof. intros. unfold add. apply in_or_app. now left. Qed.

Lemma all_pass_or_skip : forall results : Results,
  forallb (fun r => negb (is_fail (snd (fst r)))) results = negb (any_fail results).
Proof.
  induction results as [|r results IH]; simpl; [reflexivity|].
  rewrite IH, negb_orb. reflexivity.
Qed.

Lemma test_items_listing_no_id : forall b t,
  post (test_items_listing b t)
    (fun r => is_none (snd r) = true -> TestOutcome.status (fst r) = FAIL).
Proof.
  intros b t. unfold test_items_listing.
  apply post_bind_any; intro resp. cbv beta zeta. apply post_ret.
  cbn [fst snd TestOutcome.status]. intros Hnone. rewrite Hnone.
  apply pass_if_none_app.
Qed.

(** Up to the items listing: ten ids, and a FAIL among them when no item
    id came out of the listing. *)
Lemma run_basics_post : forall b t ci cs,
  post (run_basics b t ci cs)
    (fun r =>
       ids (fst (fst r)) = BASIC_IDS /\
       (is_none (snd r) = true -> any_fail (fst (fst r)) = true)).
Proof.
  intros b t ci cs. unfold run_basics.
  do 4 (apply post_bind_any; intro; cbv beta).
  apply post_bind_any; intros [o1 x1].
  apply post_bind_any; intros [o_genres genre_id].
  do 2 (apply post_bind_any; intro; cbv beta).
  eapply post_bind; [apply test_items_listing_no_id|].
  intros [o_items item_id] Hitems. cbn [fst snd] in Hitems.
  apply post_bind_any; intro. apply post_ret. cbn [fst snd]. split.
  - rewrite !ids_add. reflexivity.
  - intros Hnone. rewrite !any_fail_add, (Hitems Hnone). simpl.
    now rewrite !orb_true_r.
Qed.

End Run.

Lemma in_add_entry : forall results tid s errs ctx,
  In (tid, s, errs) (add results tid (TestOutcome.mk s errs ctx)).
Proof. intros. unfold add. apply in_or_app. right. now left. Qed.

Ltac orch_step :=
  lazymatch goal with
  | |- post (bind (ret _) _) _ => apply post_bind_ret; cbv beta
  | |- post (bind (bind _ _) _) _ => apply post_bind_assoc
  | |- post (@bind _ Results _ (if ?c then _ else _) _) _ => destruct c
  | |- post (@bind _ Results _ (match ?x with _ => _ end) _) _ => destruct x
  | |- post (bind _ _) _ => apply post_bind_any; intro; cbv beta
  | |- post (match ?x with _ => _ end) _ => destruct x
  end.


Ltac same_ids := rewrite !ids_add, <- ?app_assoc; reflexivity.

Section RunBlocks.
Context `{Host}.

Lemma post_conj : forall (A : Type) (m : M A) (P Q : A -> Prop),
  post m P -> post m Q -> post m (fun a => P a /\ Q a).
Proof. intros A m P Q HP HQ w. split; [apply HP | apply HQ]. Qed.

Lemma run_with_item_ids : forall b t genre_id item_id mut destr results,
  post (run_with_item b t genre_id item_id mut destr results)
    (fun r =>
       exists media_links video_link collections_view,
         ids r = ids results ++ ITEM_IDS media_links video_link collections_view).
Proof.
  intros b t genre_id item_id mut destr results.
  unfold run_with_item. cbn [for_each]. cbv beta zeta.
  repeat orch_step.
  all: apply post_ret.
  all: first [ exists true, true, true; same_ids | exists true, false, true; same_ids
             | exists false, false, true; same_ids | exists true, true, false; same_ids
             | exists true, false, false; same_ids | exists false, false, false; same_ids ].
Qed.



Lemma run_api2_ids : forall b t item_id mut au ad ur results,
  post (run_api2 b t item_id mut au ad ur results)
    (fun r => ids r = ids results ++ API2_IDS true).
Proof.
  intros. unfold run_api2. cbv beta zeta.
  repeat orch_step; apply post_ret; same_ids.
Qed.



End RunBlocks.

(** C2. The exit status of a run that had a token is 1 exactly when a FAIL
    was recorded and 0 otherwise, on the path that returns early for want
    of an item id as on the path that runs to the end; SKIP outcomes do not
    count.  (Without a token nothing is recorded and the status is 2.) *)
Theorem run_exit_status :
  forall (host : Host) (base_url : string) (token_arg : option string) (token_file : string)
         (client_id client_secret : option string)
         (include_mutating include_destructive include_api2 : bool)
         (api2_base_url api2_device_token : option string) (api2_upload_report : bool)
         (w : World),
  match fst (_run_all base_url token_arg token_file client_id client_secret
               include_mutating include_destructive include_api2
               api2_base_url api2_device_token api2_upload_report w) with
  | (code, Some results) =>
      (code = 1 <-> exists r, In r results /\ snd (fst r) = FAIL) /\
      (code = 0 <-> forall r, In r results -> snd (fst r) <> FAIL) /\
      (code = 0 \/ code = 1)
  | (code, None) => code = 2
  end.
Proof.
  intros. revert w.
  change (post (_run_all base_url token_arg token_file client_id client_secret
                  include_mutating include_destructive include_api2
                  api2_base_url api2_device_token api2_upload_report)
            (fun r => match r with
                      | (code, Some results) =>
                          (code = 1 <-> exists r, In r results /\ snd (fst r) = FAIL) /\
                          (code = 0 <-> forall r, In r results -> snd (fst r) <> FAIL) /\
                          (code = 0 \/ code = 1)
                      | (code, None) => code = 2
                      end)).
  assert (Hcode : forall results code,
            code = (if any_fail results then 1 else 0) ->
            (code = 1 <-> exists r, In r results /\ snd (fst r) = FAIL) /\
            (code = 0 <-> forall r, In r results -> snd (fst r) <> FAIL) /\
            (code = 0 \/ code = 1)).
  { intros results code ->. unfold any_fail.
    destruct (existsb _ results) eqn:E.
    - apply existsb_exists in E. destruct E as [r [Hin Hr]].
      assert (Hf : snd (fst r) = FAIL) by (destruct (snd (fst r)); simpl in Hr; congruence).
      split; [|split].
      + split; [intros _; exists r; now split | reflexivity].
      + split; [discriminate | intros Hall; exfalso; exact (Hall r Hin Hf)].
      + now right.
    - assert (Hno : forall r, In r results -> snd (fst r) <> FAIL).
      { intros r Hin Hf.
        assert (E' : existsb (fun r0 => is_fail (snd (fst r0))) results = true).
        { apply existsb_exists. exists r. rewrite Hf. now split. }
        congruence. }
      split; [|split].
      + split; [discriminate | intros [r [Hin Hf]]; exfalso; exact (Hno r Hin Hf)].
      + split; [intros _; exact Hno | reflexivity].
      + now left. }
  unfold _run_all.
  destruct (_resolve_access_token token_arg token_file) as [token token_source].
  destruct (opt_truthy token); cbn [negb]; [|now apply post_ret].
  eapply post_bind; [apply run_basics_post|].
  intros [[results genre_id] item_id] [_ Hfail]. cbn [fst snd] in Hfail.
  destruct (is_none item_id).
  - apply post_ret. apply Hcode. now rewrite Hfail.
  - repeat (apply post_bind_any; intro; cbv beta). apply post_ret.
    apply Hcode. rewrite all_pass_or_skip. match goal with |- context [any_fail ?x] => destruct (any_fail x) end; reflexivity.
Qed.



(** ** The access token *)

Lemma nonempty_strip : forall s, nonempty (strip s) = true -> nonempty s = true.
Proof. intros [|c s]; simpl; [discriminate | reflexivity]. Qed.

Lemma lstrip_head : forall s,
  lstrip s = EmptyString \/ exists c r, lstrip s = String c r /\ isspace c = false.
Proof.
  induction s as [|c s IH]; simpl; [now left|].
  destruct (isspace c) eqn:E; [exact IH|]. right. now exists c, s.
Qed.

Lemma rstrip_head : forall c r,
  isspace c = false -> exists r', rstrip (String c r) = String c r'.
Proof.
  intros c r Hc. simpl. destruct (rstrip r) as [|c' r'].
  - rewrite Hc. now exists EmptyString.
  - now exists (String c' r').
Qed.

Lemma strip_head : forall s,
  strip s = EmptyString \/ exists c r, strip s = String c r /\ isspace c = false.
Proof.
  intros s. unfold strip. destruct (lstrip_head s) as [-> | [c [r [-> Hc]]]].
  - now left.
  - right. destruct (rstrip_head c r Hc) as [r' ->]. now exists c, r'.
Qed.

Lemma lstrip_strip : forall s, lstrip (strip s) = strip s.
Proof.
  intros s. destruct (strip_head s) as [-> | [c [r [-> Hc]]]]; simpl; [reflexivity|].
  now rewrite Hc.
Qed.

(** The line loop returns the first line that is not passed over. *)
Lemma first_token_line_found : forall lines tok,
  first_token_line lines = Some tok ->
  exists pre line post,
    lines = pre ++ line :: post /\
    forallb skipped_line pre = true /\
    skipped_line line = false /\
    tok = strip line.
Proof.
  induction lines as [|l lines IH]; intros tok Hf; simpl in Hf; [discriminate|].
  destruct (negb (nonempty (strip l)) || startswith (strip l) "#") eqn:E.
  - destruct (IH tok Hf) as [pre [line [post [-> [Hpre [Hline ->]]]]]].
    exists (l :: pre), line, post. simpl. unfold skipped_line at 1. rewrite E. auto.
  - injection Hf as <-. exists [], l, lines. simpl. auto.
Qed.

Lemma first_token_line_nonempty : forall lines tok,
  first_token_line lines = Some tok -> nonempty tok = true.
Proof.
  intros lines tok Hf.
  destruct (first_token_line_found lines tok Hf) as [pre [line [post [_ [_ [Hline ->]]]]]].
  unfold skipped_line in Hline. apply orb_false_iff in Hline.
  destruct Hline as [Hn _]. now apply negb_false_iff in Hn.
Qed.

Section Token.
Context `{Host}.

Lemma read_token_file_nonempty : forall path tok,
  _read_token_file path = Some tok -> nonempty tok = true.
Proof.
  intros path tok. unfold _read_token_file.
  destruct (open_read path) as [raw|]; [|discriminate].
  destruct (negb (nonempty (strip raw))); [discriminate|].
  destruct (startswith (lstrip (strip raw)) "{").
  - destruct (json_loads (strip raw)) as [[| | | | |xs|obj]|];
      try (apply first_token_line_nonempty).
    destruct (py_or _ _) as [| | | |t| |]; try (apply first_token_line_nonempty).
    destruct (nonempty (strip t)) eqn:E; [|apply first_token_line_nonempty].
    intros Ht. injection Ht as <-. exact E.
  - apply first_token_line_nonempty.
Qed.

(** Without a usable token field the JSON branch yields nothing. *)
Lemma no_token_field : forall obj,
  is_nonblank_str (PyDict.get obj "access_token") = false ->
  is_nonblank_str (PyDict.get obj "token") = false ->
  match py_or (PyDict.get obj "access_token") (PyDict.get obj "token") with
  | JStr t => if nonempty (strip t) then Some (strip t) else None
  | _ => None
  end = None.
Proof.
  intros obj Ha Ht. unfold py_or.
  destruct (truthy (PyDict.get obj "access_token")).
  - destruct (PyDict.get obj "access_token"); try reflexivity. simpl in Ha. now rewrite Ha.
  - destruct (PyDict.get obj "token"); try reflexivity. simpl in Ht. now rewrite Ht.
Qed.

End Token.

Lemma append_empty_r : forall s, String.append s EmptyString = s.
Proof. induction s as [|c s IH]; simpl; [reflexivity | now rewrite IH]. Qed.

Lemma append_assoc : forall a b c,
  String.append (String.append a b) c = String.append a (String.append b c).
Proof. induction a as [|x a IH]; intros b c; simpl; [reflexivity | now rewrite IH]. Qed.

(** The first line of [splitlines] begins with what was read before the
    first line break. *)
Lemma splitlines_from_first : forall s cur,
  cur <> EmptyString ->
  exists tail rest, splitlines_from cur s = String.append (rev_string cur) tail :: rest.
Proof.
  induction s as [|c s IH]; intros cur Hcur.
  - simpl. destruct cur as [|x cur]; [congruence|].
    exists EmptyString, []. now rewrite append_empty_r.
  - simpl. destruct (is_linebreak c).
    + destruct (nat_of_ascii c) as [|[|[|[|[|[|[|[|[|[|[|[|[|[|n]]]]]]]]]]]]]];
        try (exists EmptyString; eexists; rewrite append_empty_r; reflexivity).
      destruct s as [|c' s'];
        [exists EmptyString; eexists; rewrite append_empty_r; reflexivity|].
      destruct (nat_of_ascii c' =? 10)%nat;
        exists EmptyString; eexists; rewrite append_empty_r; reflexivity.
    + destruct (IH (String c cur)) as [tail [rest Hs]]; [discriminate|].
      exists (String c tail), rest. rewrite Hs. simpl. now rewrite append_assoc.
Qed.

Lemma startswith_brace : forall s,
  startswith s "{" = true -> exists r, s = String "{" r.
Proof.
  intros [|c s] Hp; unfold startswith in Hp; cbn [String.prefix] in Hp; [discriminate|].
  destruct (ascii_dec "{" c) as [<-|Hne]; [|discriminate].
  now exists s.
Qed.

Lemma brace_line_kept : forall tail,
  skipped_line (String "{" tail) = false /\
  exists r, strip (String "{" tail) = String "{" r.
Proof.
  intros tail. unfold skipped_line, strip. simpl lstrip.
  destruct (rstrip_head "{"%char tail eq_refl) as [r' Hr].
  change (lstrip (String "{" tail)) with (String "{" tail).
  rewrite Hr. split; [reflexivity | now exists r'].
Qed.

Section TokenFile.
Context `{Host}.

(** C10. Reading the token file never fails.  An unreadable file and a
    file that is empty once stripped give no token.  When the stripped
    content starts with '{' but does not parse, or parses to an object
    with no non-blank string under access_token or token, the plain-text
    rule applies: the result is the first line that, stripped, is neither
    empty nor a '#' comment; for a pretty-printed object, whose first line
    is the brace alone, the token is "{". *)
Theorem read_token_file_fallback : forall path : string,
  (open_read path = None -> _read_token_file path = None) /\
  (forall raw, open_read path = Some raw -> strip raw = EmptyString ->
               _read_token_file path = None) /\
  (forall raw,
     open_read path = Some raw ->
     startswith (strip raw) "{" = true ->
     (forall obj, json_loads (strip raw) = Some (JDict obj) ->
                  is_nonblank_str (PyDict.get obj "access_token") = false /\
                  is_nonblank_str (PyDict.get obj "token") = false) ->
     exists pre line post,
       splitlines (strip raw) = pre ++ line :: post /\
       forallb skipped_line pre = true /\
       skipped_line line = false /\
       _read_token_file path = Some (strip line) /\
       (forall rest, splitlines (strip raw) = "{" :: rest ->
                     _read_token_file path = Some "{")).
Proof.
  intros path. unfold _read_token_file. split; [|split].
  - intros ->. reflexivity.
  - intros raw -> ->. reflexivity.
  - intros raw -> Hbrace Hjson.
    assert (Hfall : (if negb (nonempty (strip raw)) then None
                     else match
                            (if startswith (lstrip (strip raw)) "{" then
                               match json_loads (strip raw) with
                               | Some (JDict obj) =>
                                   match py_or (PyDict.get obj "access_token")
                                               (PyDict.get obj "token") with
                                   | JStr t => if nonempty (strip t) then Some (strip t) else None
                                   | _ => None
                                   end
                               | _ => None
                               end
                             else None)
                          with
                          | Some t => Some t
                          | None => first_token_line (splitlines (strip raw))
                          end)
                    = first_token_line (splitlines (strip raw))).
    { destruct (startswith_brace _ Hbrace) as [r Hr]. rewrite Hr. simpl nonempty. cbn [negb].
      rewrite <- Hr. rewrite lstrip_strip, Hbrace.
      destruct (json_loads (strip raw)) as [[| | | | |xs|obj]|] eqn:Ej; try reflexivity.
      destruct (Hjson obj eq_refl) as [Ha Ht]. now rewrite (no_token_field obj Ha Ht). }
    rewrite Hfall.
    destruct (startswith_brace _ Hbrace) as [r Hr].
    assert (Hfirst : exists tail rest, splitlines (strip raw) = String "{" tail :: rest).
    { rewrite Hr. unfold splitlines. simpl.
      destruct (splitlines_from_first r (String "{" EmptyString)) as [tail [rest Hs]];
        [discriminate|].
      exists tail, rest. exact Hs. }
    destruct Hfirst as [tail [rest Hs]].
    destruct (brace_line_kept tail) as [Hkept [r' Hstrip]].
    exists [], (String "{" tail), rest. rewrite Hs. cbn [app forallb first_token_line].
    unfold skipped_line in Hkept. rewrite Hkept.
    repeat split; try assumption.
    intros rest' Heq. injection Heq as Htail _. rewrite Htail. reflexivity.
Qed.

End TokenFile.

Lemma read_token_file_fallback_witness :
  let pretty := fmt ["{"; LF; "  "; DQ; "foo"; DQ; ": 1"; LF; "}"; LF] in
  let host := example_host (JDict [("foo", JInt 1)]) None (Some pretty) in
  @_read_token_file host "access_token.txt" = Some "{".
Proof.
  intros pretty host.
  destruct (@read_token_file_fallback host "access_token.txt") as [_ [_ Hfall]].
  destruct (Hfall pretty eq_refl eq_refl) as [pre [line [post [_ [_ [_ [_ Hbrace]]]]]]].
  - intros obj Hobj. injection Hobj as <-. split; reflexivity.
  - exact (Hbrace [fmt ["  "; DQ; "foo"; DQ; ": 1"]; "}"] eq_refl).
Defined.

Section Resolve.
Context `{Host}.

Lemma given_some : forall a, nonempty (strip a) = true -> given (Some a) = true.
Proof. intros a Ha. simpl. now rewrite (nonempty_strip a Ha), Ha. Qed.

Lemma given_blank : forall s,
  (forall a, s = Some a -> strip a = EmptyString) -> given s = false.
Proof.
  intros [a|] Hs; [|reflexivity]. simpl. rewrite (Hs a eq_refl). simpl.
  apply andb_false_r.
Qed.

(** C3. Token resolution prefers the explicit argument to the environment
    variable and the environment variable to the token file.  A non-blank
    argument gives its value (stripped of surrounding whitespace) tagged
    "arg", whatever the environment and the file hold; with the argument
    absent or blank, a non-blank environment variable gives its stripped
    value tagged "env"; with both absent or blank, a token read from the
    file is returned tagged "file"; with nothing in the file either there
    is no token, the tag is "missing", and the run exits with code 2
    without recording anything. *)
Theorem token_resolution_precedence : forall (token_arg : option string) (token_file : string),
  (forall a, token_arg = Some a -> nonempty (strip a) = true ->
     _resolve_access_token token_arg token_file = (Some (strip a), "arg")) /\
  ((forall a, token_arg = Some a -> strip a = EmptyString) ->
   forall e, os_environ_get ENV_ACCESS_TOKEN = Some e -> nonempty (strip e) = true ->
     _resolve_access_token token_arg token_file = (Some (strip e), "env")) /\
  ((forall a, token_arg = Some a -> strip a = EmptyString) ->
   (forall e, os_environ_get ENV_ACCESS_TOKEN = Some e -> strip e = EmptyString) ->
   forall t, _read_token_file token_file = Some t ->
     _resolve_access_token token_arg token_file = (Some t, "file")) /\
  ((forall a, token_arg = Some a -> strip a = EmptyString) ->
   (forall e, os_environ_get ENV_ACCESS_TOKEN = Some e -> strip e = EmptyString) ->
   _read_token_file token_file = None ->
     _resolve_access_token token_arg token_file = (None, "missing") /\
     forall base_url client_id client_secret include_mutating include_destructive include_api2
            api2_base_url api2_device_token api2_upload_report (w : World),
       _run_all base_url token_arg token_file client_id client_secret
         include_mutating include_destructive include_api2
         api2_base_url api2_device_token api2_upload_report w = ((2, None), w)).
Proof.
  intros token_arg token_file. unfold _run_all, _resolve_access_token.
  split; [|split; [|split]].
  - intros a -> Ha. now rewrite (given_some a Ha).
  - intros Harg e He Hne. rewrite (given_blank _ Harg), He, (given_some e Hne). reflexivity.
  - intros Harg Henv t Ht.
    rewrite (given_blank _ Harg), (given_blank _ Henv), Ht.
    simpl opt_truthy. now rewrite (read_token_file_nonempty _ _ Ht).
  - intros Harg Henv Hfile.
    rewrite (given_blank _ Harg), (given_blank _ Henv), Hfile. simpl. split; reflexivity.
Qed.

End Resolve.

Lemma token_resolution_precedence_witness :
  let host := example_host JNull (Some "from-env") (Some "from-file") in
  @_resolve_access_token host (Some " from-arg ") "access_token.txt" = (Some "from-arg", "arg") /\
  @_resolve_access_token host None "access_token.txt" = (Some "from-env", "env") /\
  @_resolve_access_token (example_host JNull None (Some "from-file")) (Some "  ")
    "access_token.txt" = (Some "from-file", "file") /\
  @_run_all (example_host JNull None None) BASE_URL_DEFAULT None "access_token.txt"
    None None false false false None None false 0%nat = ((2, None), 0%nat).
Proof.
  intros host. split; [|split; [|split]].
  - destruct (@token_resolution_precedence host (Some " from-arg ") "access_token.txt")
      as [Harg _].
    exact (Harg " from-arg " eq_refl eq_refl).
  - destruct (@token_resolution_precedence host None "access_token.txt") as [_ [Henv _]].
    apply Henv with (e := "from-env");
      [intros a Ha; discriminate Ha | reflexivity | reflexivity].
  - destruct (@token_resolution_precedence (example_host JNull None (Some "from-file"))
                (Some "  ") "access_token.txt") as [_ [_ [Hfile _]]].
    apply Hfile.
    + intros a Ha. injection Ha as <-. reflexivity.
    + intros e He. discriminate He.
    + reflexivity.
  - destruct (@token_resolution_precedence (example_host JNull None None) None
                "access_token.txt") as [_ [_ [_ Hmissing]]].
    destruct Hmissing as [_ Hrun].
    + intros a Ha. discriminate Ha.
    + intros e He. discriminate He.
    + reflexivity.
    + apply Hrun.
Defined.

(** ** The device-flow polling loop *)

Section Polling.
Context `{Host}.

(** One pass of the loop, while the deadline has not passed. *)
Lemma poll_loop_pass :
  forall fuel base_url client_id client_secret code deadline poll_interval
         (w w1 w2 : World) now r_poll,
  time_time w = (now, w1) ->
  Qltb now deadline = true ->
  _http_post_query base_url "/oauth2/device" (poll_query client_id client_secret code) w1
    = (r_poll, w2) ->
  poll_loop (S fuel) base_url client_id client_secret code deadline poll_interval w
  = match poll_answer r_poll poll_interval with
    | Return payload => (Some (inr payload), w2)
    | Raise e => (Some (inl e), w2)
    | SleepThenPoll next_interval =>
        poll_loop fuel base_url client_id client_secret code deadline next_interval
          (time_sleep next_interval w2)
    end.
Proof.
  intros fuel base_url client_id client_secret code deadline poll_interval
         w w1 w2 now r_poll Hnow Hlt Hpoll.
  cbn [poll_loop]. unfold bind at 1. rewrite Hnow, Hlt.
  unfold bind at 1. rewrite Hpoll.
  destruct (poll_answer r_poll poll_interval); reflexivity.
Qed.

Lemma poll_answer_error : forall r_poll poll_interval d err,
  HttpResponse.json r_poll = JDict d ->
  is_str (PyDict.get d "access_token") = false ->
  PyDict.get d "error" = JStr err ->
  poll_answer r_poll poll_interval =
    if String.eqb err "authorization_pending" then SleepThenPoll poll_interval
    else if String.eqb err "slow_down" then SleepThenPoll (poll_interval + 5)
    else if String.eqb err "expired_token" || String.eqb err "access_denied"
    then Raise (Error (fmt ["device_token: "; err]))
    else Raise (UnexpectedOAuthError (JDict d)).
Proof.
  intros r_poll poll_interval d err Hjson Htok Herr.
  unfold poll_answer. now rewrite Hjson, Htok, Herr.
Qed.

(** C4. A poll answered with a JSON object that has a string [error] and
    no string [access_token], before the deadline: on authorization_pending
    the loop sleeps for the current interval and polls again; on slow_down
    it sleeps and polls again; on expired_token and access_denied the
    function raises at once, with no further request or sleep; on any
    other error it raises at once as well.  So authorization_pending and
    slow_down are the only errors after which polling goes on. *)
Theorem poll_error_handling :
  forall fuel base_url client_id client_secret code deadline poll_interval
         (w w1 w2 : World) now r_poll d err,
  time_time w = (now, w1) ->
  Qltb now deadline = true ->
  _http_post_query base_url "/oauth2/device" (poll_query client_id client_secret code) w1
    = (r_poll, w2) ->
  HttpResponse.json r_poll = JDict d ->
  is_str (PyDict.get d "access_token") = false ->
  PyDict.get d "error" = JStr err ->
  let loop := poll_loop (S fuel) base_url client_id client_secret code deadline poll_interval w in
  (err = "authorization_pending" ->
   loop = poll_loop fuel base_url client_id client_secret code deadline poll_interval
            (time_sleep poll_interval w2)) /\
  (err = "slow_down" ->
   exists next_interval,
     loop = poll_loop fuel base_url client_id client_secret code deadline next_interval
              (time_sleep next_interval w2)) /\
  (err = "expired_token" \/ err = "access_denied" ->
   loop = (Some (inl (Error (fmt ["device_token: "; err]))), w2)) /\
  (err <> "authorization_pending" -> err <> "slow_down" ->
   exists e, loop = (Some (inl e), w2)).
Proof.
  intros fuel base_url client_id client_secret code deadline poll_interval
         w w1 w2 now r_poll d err Hnow Hlt Hpoll Hjson Htok Herr loop.
  unfold loop.
  rewrite (poll_loop_pass _ _ _ _ _ _ _ _ _ _ _ _ Hnow Hlt Hpoll).
  rewrite (poll_answer_error _ _ _ _ Hjson Htok Herr).
  split; [|split; [|split]].
  - intros ->. reflexivity.
  - intros ->. eexists. reflexivity.
  - intros [-> | ->]; reflexivity.
  - intros Hp Hs.
    apply String.eqb_neq in Hp. apply String.eqb_neq in Hs. rewrite Hp, Hs.
    destruct (String.eqb err "expired_token" || String.eqb err "access_denied");
      eexists; reflexivity.
Qed.

(** C7. After a poll answered with a JSON object whose [error] is
    slow_down (and no string [access_token], which would end the flow),
    the loop sleeps for the previous interval plus 5 seconds and keeps that
    interval; whenever the interval changes, the answer was a slow_down. *)
Theorem slow_down_adds_five_seconds :
  forall fuel base_url client_id client_secret code deadline poll_interval
         (w w1 w2 : World) now r_poll,
  time_time w = (now, w1) ->
  Qltb now deadline = true ->
  _http_post_query base_url "/oauth2/device" (poll_query client_id client_secret code) w1
    = (r_poll, w2) ->
  (forall d,
     HttpResponse.json r_poll = JDict d ->
     PyDict.get d "error" = JStr "slow_down" ->
     (forall next_interval,
        poll_answer r_poll poll_interval = SleepThenPoll next_interval ->
        next_interval = poll_interval + 5) /\
     (is_str (PyDict.get d "access_token") = false ->
      poll_loop (S fuel) base_url client_id client_secret code deadline poll_interval w
      = poll_loop fuel base_url client_id client_secret code deadline (poll_interval + 5)
          (time_sleep (poll_interval + 5) w2))) /\
  (forall next_interval,
     poll_answer r_poll poll_interval = SleepThenPoll next_interval ->
     next_interval <> poll_interval ->
     exists d, HttpResponse.json r_poll = JDict d /\
               PyDict.get d "error" = JStr "slow_down").
Proof.
  intros fuel base_url client_id client_secret code deadline poll_interval
         w w1 w2 now r_poll Hnow Hlt Hpoll.
  split.
  - intros d Hjson Herr. split.
    + intros next_interval. unfold poll_answer. rewrite Hjson, Herr.
      destruct (is_str (PyDict.get d "access_token")); [discriminate|].
      simpl. intros Hs. now injection Hs as <-.
    + intros Htok.
      rewrite (poll_loop_pass _ _ _ _ _ _ _ _ _ _ _ _ Hnow Hlt Hpoll).
      now rewrite (poll_answer_error _ _ _ _ Hjson Htok Herr).
  - intros next_interval. unfold poll_answer.
    destruct (HttpResponse.json r_poll) as [| | | | | |d] eqn:Hjson; try discriminate.
    destruct (is_str (PyDict.get d "access_token")); [discriminate|].
    destruct (PyDict.get d "error") as [| | | |err| |] eqn:Herr; try discriminate.
    destruct (String.eqb err "authorization_pending") eqn:Ep.
    + intros Hs Hne. injection Hs as <-. congruence.
    + destruct (String.eqb_spec err "slow_down") as [->|Hns].
      * intros _ _. now exists d.
      * destruct (String.eqb err "expired_token" || String.eqb err "access_denied");
          discriminate.
Qed.

End Polling.

Lemma poll_error_handling_witness :
  let host := example_host (JDict [("error", JStr "authorization_pending")]) None None in
  let r_poll :=
    HttpResponse.mk 200 [("Content-Type", "application/json")] "{...}"
      (JDict [("error", JStr "authorization_pending")]) in
  @time_time host 0%nat = (0%Q, 0%nat) /\
  Qltb 0 600 = true /\
  @_http_post_query host BASE_URL_DEFAULT "/oauth2/device" (poll_query "id" "secret" "code") 0%nat
    = (r_poll, 1%nat) /\
  @poll_loop host 1 BASE_URL_DEFAULT "id" "secret" "code" 600%Q 5 0%nat
  = @poll_loop host 0 BASE_URL_DEFAULT "id" "secret" "code" 600%Q 5 (@time_sleep host 5 1%nat).
Proof.
  intros host r_poll.
  assert (Hnow : @time_time host 0%nat = (0%Q, 0%nat)) by reflexivity.
  assert (Hlt : Qltb 0 600 = true) by reflexivity.
  assert (Hpoll : @_http_post_query host BASE_URL_DEFAULT "/oauth2/device"
                    (poll_query "id" "secret" "code") 0%nat = (r_poll, 1%nat)) by reflexivity.
  split; [exact Hnow | split; [exact Hlt | split; [exact Hpoll | ]]].
  destruct (@poll_error_handling host 0 BASE_URL_DEFAULT "id" "secret" "code" 600%Q 5
              0%nat 0%nat 1%nat 0%Q r_poll
              [("error", JStr "authorization_pending")] "authorization_pending"
              Hnow Hlt Hpoll eq_refl eq_refl eq_refl) as [Hpending _].
  exact (Hpending eq_refl).
Defined.

Lemma slow_down_adds_five_seconds_witness :
  let host := example_host (JDict [("error", JStr "slow_down")]) None None in
  let r_poll :=
    HttpResponse.mk 200 [("Content-Type", "application/json")] "{...}"
      (JDict [("error", JStr "slow_down")]) in
  @time_time host 0%nat = (0%Q, 0%nat) /\
  Qltb 0 600 = true /\
  @_http_post_query host BASE_URL_DEFAULT "/oauth2/device" (poll_query "id" "secret" "code") 0%nat
    = (r_poll, 1%nat) /\
  @poll_loop host 1 BASE_URL_DEFAULT "id" "secret" "code" 600%Q 5 0%nat
  = @poll_loop host 0 BASE_URL_DEFAULT "id" "secret" "code" 600%Q 10 (@time_sleep host 10 1%nat).
Proof.
  intros host r_poll.
  assert (Hnow : @time_time host 0%nat = (0%Q, 0%nat)) by reflexivity.
  assert (Hlt : Qltb 0 600 = true) by reflexivity.
  assert (Hpoll : @_http_post_query host BASE_URL_DEFAULT "/oauth2/device"
                    (poll_query "id" "secret" "code") 0%nat = (r_poll, 1%nat)) by reflexivity.
  split; [exact Hnow | split; [exact Hlt | split; [exact Hpoll | ]]].
  destruct (@slow_down_adds_five_seconds host 0 BASE_URL_DEFAULT "id" "secret" "code" 600%Q 5
              0%nat 0%nat 1%nat 0%Q r_poll Hnow Hlt Hpoll) as [Hslow _].
  destruct (Hslow [("error", JStr "slow_down")] eq_refl eq_refl) as [_ Hloop].
  exact (Hloop eq_refl).
Defined.

(** * Further properties *)

(** ** Redaction of JSON *)


(** A document in which no key of the redaction set occurs is left as it
    is. *)
Theorem redact_json_without_secrets : forall x : json,
  py_value x = true -> no_sensitive_key x = true -> _redact_json x = x.
Proof.
  induction x as [| b | n | f | s | xs IH | items IH] using json_deep_ind;
    intros Hpy Hno; try reflexivity.
  - rewrite redact_list. f_equal. apply map_fixed. intros a Ha.
    simpl in Hpy, Hno. rewrite forallb_forall in Hpy, Hno.
    rewrite Forall_forall in IH. apply IH; auto.
  - simpl in Hpy. apply andb_true_iff in Hpy. destruct Hpy as [Hk Hv].
    apply nodup_keys_NoDup in Hk. rewrite (redact_dict_map items Hk). f_equal.
    apply map_fixed. intros [k v] Hin.
    simpl in Hno. rewrite forallb_forall in Hno, Hv.
    specialize (Hno (k, v) Hin). specialize (Hv (k, v) Hin). simpl in Hno, Hv.
    apply andb_true_iff in Hno. destruct Hno as [Hkey Hval].
    apply negb_true_iff in Hkey.
    unfold redact_entry; simpl. rewrite Hkey.
    rewrite Forall_forall in IH. f_equal. exact (IH (k, v) Hin Hv Hval).
Qed.

Lemma redact_json_without_secrets_witness :
  let x := JDict [("id", JInt 7); ("tags", JList [JStr "a"; JNull])] in
  py_value x = true /\ no_sensitive_key x = true /\ _redact_json x = x.
Proof.
  intros x. split; [reflexivity|]. split; [reflexivity|].
  apply redact_json_without_secrets; reflexivity.
Defined.

Lemma get_map_redact_entry : forall items k,
  PyDict.get (map redact_entry items) k
  = if PyDict.has items k && is_sensitive_key k then JStr REDACTED
    else _redact_json (PyDict.get items k).
Proof.
  induction items as [|[k' v] items IH]; intros k; simpl; [reflexivity|].
  destruct (String.eqb_spec k' k) as [->|Hne]; simpl.
  - destruct (is_sensitive_key k); reflexivity.
  - apply IH.
Qed.

Lemma has_map_redact_entry : forall items k,
  PyDict.has (map redact_entry items) k = PyDict.has items k.
Proof.
  induction items as [|[k' v] items IH]; intros k; simpl; [reflexivity|].
  now rewrite IH.
Qed.

(** Looking a key up in a redacted object: the object has the key exactly
    when the original has it, and holds under it the marker when the key is
    sensitive and otherwise the redaction of the original value. *)
Theorem redact_json_lookup : forall (items : PyDict.dict) (k : string),
  nodup_keys (PyDict.keys items) = true ->
  exists out,
    _redact_json (JDict items) = JDict out /\
    PyDict.has out k = PyDict.has items k /\
    PyDict.get out k
    = if PyDict.has items k && is_sensitive_key k then JStr REDACTED
      else _redact_json (PyDict.get items k).
Proof.
  intros items k Hk. apply nodup_keys_NoDup in Hk.
  exists (map redact_entry items). split; [now apply redact_dict_map|].
  split; [apply has_map_redact_entry | apply get_map_redact_entry].
Qed.

Lemma redact_json_lookup_witness :
  let items := [("user", JDict [("Code", JInt 1)]); ("refresh_token", JList [])] in
  nodup_keys (PyDict.keys items) = true /\
  exists out,
    _redact_json (JDict items) = JDict out /\
    PyDict.has out "refresh_token" = PyDict.has items "refresh_token" /\
    PyDict.get out "refresh_token"
    = if PyDict.has items "refresh_token" && is_sensitive_key "refresh_token"
      then JStr REDACTED
      else _redact_json (PyDict.get items "refresh_token").
Proof.
  intros items. split; [reflexivity|].
  apply redact_json_lookup. reflexivity.
Defined.

(** ** Redaction of tokens in raw text *)

Lemma drop_prefix_prefix : forall p s r,
  drop_prefix p s = Some r -> String.prefix p s = true.
Proof.
  induction p as [|a p IH]; intros s r H; [now destruct s|].
  destruct s as [|b s]; [discriminate|]. simpl in H |- *.
  destruct (Ascii.eqb_spec a b) as [->|Hne]; [|discriminate].
  destruct (ascii_dec b b); [now apply (IH s r) | congruence].
Qed.

Lemma drop_prefix_app : forall p s, drop_prefix p (String.append p s) = Some s.
Proof.
  induction p as [|a p IH]; intros s; simpl; [reflexivity|].
  now rewrite Ascii.eqb_refl.
Qed.

Lemma re_sub_unmatched : forall matcher repl needle s,
  (forall s' r, matcher s' = Some r -> String.prefix needle s' = true) ->
  contains s needle = false ->
  re_sub matcher repl 0 s = s.
Proof.
  intros matcher repl needle s Hm. induction s as [|c s IH]; intros Hc; [reflexivity|].
  cbn [contains] in Hc. apply orb_false_iff in Hc. destruct Hc as [Hp Hrest].
  cbn [re_sub]. destruct (matcher (String c s)) as [r|] eqn:E.
  - apply Hm in E. congruence.
  - now rewrite IH.
Qed.

Lemma match_access_token_prefix : forall s r,
  match_access_token s = Some r -> String.prefix "access_token=" s = true.
Proof.
  intros s r. unfold match_access_token.
  destruct (drop_prefix "access_token=" s) as [t|] eqn:E; [|discriminate].
  intros _. exact (drop_prefix_prefix _ _ _ E).
Qed.

Lemma match_bearer_prefix : forall s r,
  match_bearer s = Some r -> String.prefix "Authorization:" s = true.
Proof.
  intros s r. unfold match_bearer.
  destruct (drop_prefix "Authorization:" s) as [t|] eqn:E; [|discriminate].
  intros _. exact (drop_prefix_prefix _ _ _ E).
Qed.

(** Text that holds neither ["access_token="] nor ["Authorization:"] is not
    changed. *)
Theorem redact_tokens_unchanged : forall text : string,
  contains text "Authorization:" = false ->
  contains text "access_token=" = false ->
  _redact_tokens text = text.
Proof.
  intros text Hb Ha. unfold _redact_tokens.
  rewrite (re_sub_unmatched _ _ "Authorization:" text match_bearer_prefix Hb).
  apply (re_sub_unmatched _ _ "access_token=" text match_access_token_prefix Ha).
Qed.

Lemma redact_tokens_unchanged_witness :
  let text := "<html>502 Bad Gateway: token=abc</html>" in
  contains text "Authorization:" = false /\
  contains text "access_token=" = false /\
  _redact_tokens text = text.
Proof.
  intros text. split; [reflexivity|]. split; [reflexivity|].
  apply redact_tokens_unchanged; reflexivity.
Defined.


Lemma length_append : forall a b,
  String.length (String.append a b) = (String.length a + String.length b)%nat.
Proof. induction a as [|c a IH]; intros b; simpl; [reflexivity | now rewrite IH]. Qed.

Lemma skip_while_app : forall f x post,
  all_chars f x = true -> stops f post -> skip_while f (String.append x post) = post.
Proof.
  induction x as [|c x IH]; intros post Hx Hpost; simpl in *.
  - destruct post as [|d post]; [reflexivity|]. simpl in *. now rewrite Hpost.
  - apply andb_true_iff in Hx. destruct Hx as [Hc Hx]. rewrite Hc. now apply IH.
Qed.

Lemma re_sub_skip : forall matcher repl x y,
  re_sub matcher repl (String.length x) (String.append x y) = re_sub matcher repl 0 y.
Proof.
  induction x as [|c x IH]; intros y; simpl.
  - now destruct y.
  - apply IH.
Qed.

(** A match at the head is replaced and the scan resumes after it. *)
Lemma re_sub_match_head : forall matcher repl c pre rest,
  matcher (String c (String.append pre rest)) = Some rest ->
  re_sub matcher repl 0 (String c (String.append pre rest))
  = String.append repl (re_sub matcher repl 0 rest).
Proof.
  intros matcher repl c pre rest Hm. cbn [re_sub]. rewrite Hm. f_equal.
  replace (String.length (String c (String.append pre rest)) - String.length rest - 1)%nat
    with (String.length pre).
  - apply re_sub_skip.
  - cbn [String.length]. rewrite length_append. lia.
Qed.

Lemma token_char_not_space : forall c, is_token_char c = true -> isspace c = false.
Proof.
  intros c. destruct c as [[] [] [] [] [] [] [] []]; vm_compute; congruence.
Qed.

Lemma stops_token_space : forall tok post,
  all_chars is_token_char tok = true -> tok <> EmptyString ->
  stops isspace (String.append tok post).
Proof.
  intros [|c tok] post Htok Hne; [congruence|]. simpl in *.
  apply andb_true_iff in Htok. now apply token_char_not_space.
Qed.




Lemma match_bearer_at : forall ws1 ws2 tok post,
  all_chars isspace ws1 = true ->
  all_chars isspace ws2 = true -> ws2 <> EmptyString ->
  all_chars is_token_char tok = true -> tok <> EmptyString ->
  stops is_token_char post ->
  match_bearer
    (String.append "Authorization:"
       (String.append ws1
          (String.append "Bearer" (String.append ws2 (String.append tok post)))))
  = Some post.
Proof.
  intros ws1 [|s ws2] [|c tok] post H1 H2 Hne2 Htok Hnet Hpost; try congruence.
  unfold match_bearer. rewrite drop_prefix_app.
  rewrite (skip_while_app isspace ws1 _ H1) by reflexivity.
  rewrite drop_prefix_app.
  simpl in H2. apply andb_true_iff in H2. destruct H2 as [Hs H2].
  cbn [String.append]. rewrite Hs.
  rewrite (skip_while_app isspace ws2 (String c (String.append tok post)) H2).
  - simpl in Htok. apply andb_true_iff in Htok. destruct Htok as [Hc Htok].
    rewrite Hc. now rewrite skip_while_app.
  - simpl in Htok |- *. apply andb_true_iff in Htok. now apply token_char_not_space.
Qed.

Lemma re_sub_access_after_bearer : forall x,
  re_sub match_access_token "access_token=<REDACTED>" 0
    (String.append "Authorization: Bearer <REDACTED>" x)
  = String.append "Authorization: Bearer <REDACTED>"
      (re_sub match_access_token "access_token=<REDACTED>" 0 x).
Proof. intros x. reflexivity. Qed.

(** An [Authorization: Bearer ...] header line is masked, however it is
    spaced, up to the first character that cannot belong to a token, and
    the rest of the text is redacted in turn. *)
Theorem redact_tokens_bearer_header : forall ws1 ws2 tok post : string,
  all_chars isspace ws1 = true ->
  all_chars isspace ws2 = true -> ws2 <> EmptyString ->
  all_chars is_token_char tok = true -> tok <> EmptyString ->
  stops is_token_char post ->
  _redact_tokens
    (String.append "Authorization:"
       (String.append ws1
          (String.append "Bearer" (String.append ws2 (String.append tok post)))))
  = String.append "Authorization: Bearer <REDACTED>" (_redact_tokens post).
Proof.
  intros ws1 ws2 tok post H1 H2 Hne2 Htok Hnet Hpost.
  pose proof (match_bearer_at ws1 ws2 tok post H1 H2 Hne2 Htok Hnet Hpost) as Hm.
  unfold _redact_tokens.
  assert (Hshape :
    String.append "Authorization:"
      (String.append ws1
         (String.append "Bearer" (String.append ws2 (String.append tok post))))
    = String "A"
        (String.append
           (String.append "uthorization:"
              (String.append ws1 (String.append "Bearer" (String.append ws2 tok))))
           post)).
  { rewrite !append_assoc. reflexivity. }
  rewrite Hshape in Hm |- *.
  rewrite (re_sub_match_head _ _ _ _ _ Hm).
  apply re_sub_access_after_bearer.
Qed.

Lemma redact_tokens_bearer_header_witness :
  let ws1 := " " in
  let ws2 := "  " in
  let tok := "abc.DEF/123==" in
  let post := String.append LF "Accept: */*" in
  all_chars isspace ws1 = true /\
  all_chars isspace ws2 = true /\ ws2 <> EmptyString /\
  all_chars is_token_char tok = true /\ tok <> EmptyString /\
  stops is_token_char post /\
  _redact_tokens
    (String.append "Authorization:"
       (String.append ws1
          (String.append "Bearer" (String.append ws2 (String.append tok post)))))
  = String.append "Authorization: Bearer <REDACTED>" (_redact_tokens post).
Proof.
  intros ws1 ws2 tok post.
  assert (H1 : all_chars isspace ws1 = true) by reflexivity.
  assert (H2 : all_chars isspace ws2 = true) by reflexivity.
  assert (H3 : ws2 <> EmptyString) by discriminate.
  assert (H4 : all_chars is_token_char tok = true) by reflexivity.
  assert (H5 : tok <> EmptyString) by discriminate.
  assert (H6 : stops is_token_char post) by reflexivity.
  split; [exact H1 | split; [exact H2 | split; [exact H3 | split; [exact H4 |
    split; [exact H5 | split; [exact H6 |]]]]]].
  exact (redact_tokens_bearer_header ws1 ws2 tok post H1 H2 H3 H4 H5 H6).
Defined.

(** ** Snapshots *)

Lemma get_set_same : forall d k v, PyDict.get (PyDict.set d k v) k = v.
Proof.
  induction d as [|[k' v'] d IH]; intros k v; simpl.
  - now rewrite String.eqb_refl.
  - destruct (String.eqb k' k) eqn:E; simpl; rewrite E; [reflexivity | apply IH].
Qed.

Lemma get_set_other : forall d k v k',
  k <> k' -> PyDict.get (PyDict.set d k v) k' = PyDict.get d k'.
Proof.
  induction d as [|[k0 v0] d IH]; intros k v k' Hne; simpl.
  - apply String.eqb_neq in Hne. now rewrite Hne.
  - destruct (String.eqb_spec k0 k) as [->|Hk]; simpl.
    + apply String.eqb_neq in Hne. now rewrite Hne.
    + destruct (String.eqb k0 k'); [reflexivity | now apply IH].
Qed.

Lemma has_get_none : forall d k, PyDict.has d k = false -> PyDict.get d k = JNull.
Proof.
  induction d as [|[k' v] d IH]; intros k H; simpl in *; [reflexivity|].
  apply orb_false_iff in H. destruct H as [Hk Hd]. rewrite Hk. now apply IH.
Qed.

Lemma redact_param_same : forall params k,
  PyDict.get (redact_param params k) k = JStr REDACTED \/
  PyDict.get (redact_param params k) k = JNull.
Proof.
  intros params k. unfold redact_param.
  destruct (PyDict.has params k) eqn:Hhas; simpl.
  - destruct (PyDict.get params k) eqn:Hget; simpl;
      try (left; apply get_set_same). now right.
  - right. now apply has_get_none.
Qed.

Lemma redact_param_other : forall params k k',
  k <> k' -> PyDict.get (redact_param params k) k' = PyDict.get params k'.
Proof.
  intros params k k' Hne. unfold redact_param.
  destruct (PyDict.has params k && negb (is_none (PyDict.get params k)));
    [now apply get_set_other | reflexivity].
Qed.

Lemma redact_params_masked : forall params k,
  In k SNAPSHOT_PARAM_KEYS ->
  PyDict.get (redact_params params) k = JStr REDACTED \/
  PyDict.get (redact_params params) k = JNull.
Proof.
  intros params k Hk. unfold redact_params, SNAPSHOT_PARAM_KEYS in *. cbn [fold_left].
  simpl in Hk.
  destruct Hk as [<-|[<-|[<-|[<-|[]]]]];
    repeat (rewrite redact_param_other by discriminate); apply redact_param_same.
Qed.

Lemma redact_params_others : forall params k,
  ~ In k SNAPSHOT_PARAM_KEYS ->
  PyDict.get (redact_params params) k = PyDict.get params k.
Proof.
  intros params k Hk. unfold redact_params, SNAPSHOT_PARAM_KEYS in *. cbn [fold_left].
  simpl in Hk.
  rewrite !redact_param_other; [reflexivity | | | |]; intros <-; tauto.
Qed.

Lemma redact_section_same : forall safe_req name params,
  PyDict.get safe_req name = JDict params ->
  PyDict.get (redact_section safe_req name) name = JDict (redact_params params).
Proof.
  intros safe_req name params H. unfold redact_section. rewrite H. apply get_set_same.
Qed.

Lemma redact_section_other : forall safe_req name name',
  name <> name' ->
  PyDict.get (redact_section safe_req name) name' = PyDict.get safe_req name'.
Proof.
  intros safe_req name name' Hne. unfold redact_section.
  destruct (PyDict.get safe_req name); try reflexivity. now apply get_set_other.
Qed.

(** What a snapshot never holds.  In the request descriptor, an
    Authorization header is replaced by the masked one, and in the query
    and in the form each of device_token, access_token, refresh_token and
    client_secret is the marker or None, while the other parameters are as
    they were; in the response, no key of the redaction set of
    [_redact_json] keeps its value. *)
Theorem snapshot_hides_credentials :
  forall (test_id : string) (req : PyDict.dict) (resp : HttpResponse.t),
  exists safe_req response,
    snd (_save_snapshot test_id req resp)
    = JDict [("request", JDict safe_req); ("response", JDict response)] /\
    (forall headers,
       PyDict.get req "headers" = JDict headers ->
       PyDict.has headers "Authorization" = true ->
       exists masked,
         PyDict.get safe_req "headers" = JDict masked /\
         PyDict.get masked "Authorization" = JStr "Bearer <REDACTED>") /\
    (forall name params,
       name = "query" \/ name = "form" ->
       PyDict.get req name = JDict params ->
       exists masked,
         PyDict.get safe_req name = JDict masked /\
         (forall k, In k SNAPSHOT_PARAM_KEYS ->
                    PyDict.get masked k = JStr REDACTED \/ PyDict.get masked k = JNull) /\
         (forall k, ~ In k SNAPSHOT_PARAM_KEYS ->
                    PyDict.get masked k = PyDict.get params k)) /\
    secrets_redacted (PyDict.get response "json") = true.
Proof.
  intros test_id req resp. unfold _save_snapshot. cbv zeta. cbn [snd].
  eexists _, _. split; [reflexivity|].
  set (with_headers :=
         match PyDict.get req "headers" with
         | JDict headers =>
             if PyDict.has headers "Authorization"
             then PyDict.set req "headers"
                    (JDict (PyDict.set headers "Authorization" (JStr "Bearer <REDACTED>")))
             else req
         | _ => req
         end).
  assert (Hother : forall name, name <> "headers" ->
                                PyDict.get with_headers name = PyDict.get req name).
  { intros name Hname. unfold with_headers.
    destruct (PyDict.get req "headers"); try reflexivity.
    destruct (PyDict.has _ "Authorization"); [|reflexivity].
    apply get_set_other. congruence. }
  split; [|split].
  - intros headers Hh Hauth.
    exists (PyDict.set headers "Authorization" (JStr "Bearer <REDACTED>")).
    rewrite !redact_section_other by discriminate.
    unfold with_headers. rewrite Hh, Hauth.
    split; apply get_set_same.
  - intros name params [-> | ->] Hparams; exists (redact_params params).
    + rewrite redact_section_other by discriminate.
      rewrite (redact_section_same with_headers "query" params)
        by (rewrite Hother by discriminate; exact Hparams).
      split; [reflexivity|].
      split; [intros k; apply redact_params_masked | intros k; apply redact_params_others].
    + rewrite (redact_section_same _ "form" params)
        by (rewrite redact_section_other by discriminate;
            rewrite Hother by discriminate; exact Hparams).
      split; [reflexivity|].
      split; [intros k; apply redact_params_masked | intros k; apply redact_params_others].
  - cbn [PyDict.get String.eqb Ascii.eqb Bool.eqb]. apply secrets_redacted_redact.
Qed.

(** ** Shape validation *)

Lemma app_one_neq : forall (A : Type) (l : list A) (a : A), l ++ [a] <> l.
Proof.
  intros A l a H. apply (f_equal (@List.length A)) in H.
  rewrite length_app in H. simpl in H. lia.
Qed.

Lemma require_unchanged : forall cond msg errors,
  _require cond msg errors = errors <-> cond = true.
Proof.
  intros [] msg errors; simpl; split; auto; try discriminate.
  intros H. exfalso. exact (app_one_neq _ _ _ H).
Qed.

(** A validator leaves the accumulator as it is exactly when the value has
    the JSON type it expects, where a boolean is neither an int nor a
    number; otherwise it appends one message to it, and it never drops or
    reorders what was accumulated. *)
Theorem validators_accept_by_type : forall (x : json) (where_ : string) (errors : list string),
  (_expect_obj x where_ errors = errors <-> _type_name x = "dict") /\
  (_expect_list x where_ errors = errors <-> _type_name x = "list") /\
  (_expect_str x where_ errors = errors <-> _type_name x = "str") /\
  (_expect_int x where_ errors = errors <-> _type_name x = "int") /\
  (_expect_bool x where_ errors = errors <-> _type_name x = "bool") /\
  (_expect_num x where_ errors = errors <->
   _type_name x = "int" \/ _type_name x = "float") /\
  (forall check,
     In check [_expect_obj; _expect_list; _expect_str; _expect_int; _expect_bool; _expect_num] ->
     check x where_ errors = errors \/
     exists msg, check x where_ errors = errors ++ [msg]).
Proof.
  intros x where_ errors.
  unfold _expect_obj, _expect_list, _expect_str, _expect_int, _expect_bool, _expect_num.
  repeat split; try (rewrite require_unchanged; destruct x; simpl; intros H;
                     first [reflexivity | discriminate H | tauto
                           | destruct H; discriminate | auto]).
  intros check Hin. simpl in Hin.
  destruct Hin as [<-|[<-|[<-|[<-|[<-|[<-|[]]]]]]];
    unfold _expect_obj, _expect_list, _expect_str, _expect_int, _expect_bool, _expect_num,
           _require;
    match goal with
    | |- context [if ?c then _ else _] => destruct c
    end; eauto.
Qed.

(** ** Identifiers picked from answers *)

Lemma first_int_id_int : forall xs,
  is_none (first_int_id xs) = true \/ isinstance_int (first_int_id xs) = true.
Proof.
  induction xs as [|x xs IH]; simpl; [now left|].
  destruct x; try exact IH.
  destruct (isinstance_int (PyDict.get items "id")) eqn:E; [now right | exact IH].
Qed.

Lemma first_selected_id_int : forall xs,
  is_none (first_selected_id xs) = true \/ isinstance_int (first_selected_id xs) = true.
Proof.
  induction xs as [|x xs IH]; simpl; [now left|].
  destruct x; try exact IH.
  destruct (equals_one _); simpl; [|exact IH].
  destruct (isinstance_int (PyDict.get items "id")) eqn:E; [now right | exact IH].
Qed.

Lemma first_episode_id_int : forall xs,
  is_none (first_episode_id xs) = true \/ isinstance_int (first_episode_id xs) = true.
Proof.
  induction xs as [|x xs IH]; simpl; [now left|].
  destruct x; try exact IH.
  destruct (PyDict.get items "episodes"); try exact IH.
  destruct (is_none (first_int_id xs0)) eqn:E; simpl; [exact IH|].
  destruct (first_int_id_int xs0) as [H|H]; [congruence | now right].
Qed.

Lemma pick_first_item_id_int : forall x,
  is_none (_pick_first_item_id x) = true \/ isinstance_int (_pick_first_item_id x) = true.
Proof.
  intros x. unfold _pick_first_item_id. destruct x; try (now left).
  destruct (PyDict.get items "items"); try (now left).
  destruct xs as [|[] ?]; try (now left).
  destruct (isinstance_int (PyDict.get items0 "id")) eqn:E; [now right | now left].
Qed.

Lemma pick_media_id_int : forall x,
  is_none (_pick_media_id_from_item x) = true \/
  isinstance_int (_pick_media_id_from_item x) = true.
Proof.
  intros x. unfold _pick_media_id_from_item. destruct x; try (now left).
  destruct (PyDict.get items "videos") eqn:Ev; simpl;
    try (destruct (PyDict.get items "seasons"); try (now left); apply first_episode_id_int).
  destruct (is_none (first_int_id xs)) eqn:E; simpl.
  - destruct (PyDict.get items "seasons"); try (now left). apply first_episode_id_int.
  - destruct (first_int_id_int xs) as [H|H]; [congruence | now right].
Qed.

Lemma pick_season_id_int : forall x,
  is_none (_pick_season_id_from_item x) = true \/
  isinstance_int (_pick_season_id_from_item x) = true.
Proof.
  intros x. unfold _pick_season_id_from_item. destruct x; try (now left).
  destruct (PyDict.get items "seasons"); try (now left). apply first_int_id_int.
Qed.

Lemma extract_setting_value_int : forall x key,
  is_none (_extract_setting_value_int x key) = true \/
  isinstance_int (_extract_setting_value_int x key) = true.
Proof.
  intros x key. unfold _extract_setting_value_int. destruct x; try (now left).
  destruct (PyDict.get items key); try (now left).
  destruct (PyDict.get items0 "value"); try (now left); try (now right).
  destruct (is_none (first_selected_id xs)) eqn:E; simpl.
  - apply first_int_id_int.
  - destruct (first_selected_id_int xs) as [H|H]; [congruence | now right].
Qed.

(** The helpers that pick an identifier out of an answer return [None] or
    an [int], never anything else: what later goes into a path or a query
    has passed [isinstance(_, int)]. *)
Theorem picked_ids_are_ints : forall (x : json) (key : string),
  (is_none (_pick_first_item_id x) = true \/ isinstance_int (_pick_first_item_id x) = true) /\
  (is_none (_pick_media_id_from_item x) = true \/
   isinstance_int (_pick_media_id_from_item x) = true) /\
  (is_none (_pick_season_id_from_item x) = true \/
   isinstance_int (_pick_season_id_from_item x) = true) /\
  (is_none (_extract_setting_value_int x key) = true \/
   isinstance_int (_extract_setting_value_int x key) = true).
Proof.
  intros x key.
  split; [apply pick_first_item_id_int|].
  split; [apply pick_media_id_int|].
  split; [apply pick_season_id_int | apply extract_setting_value_int].
Qed.

(** ** Probes that hand an identifier on *)

Section Probes.
Context `{Host}.


Lemma id_or_fail_int : forall o x, isinstance_int x = true -> id_or_fail (o, x).
Proof. intros. now right. Qed.







End Probes.


(** ** The device settings update *)

Lemma collect_settings_stops : forall m keys form k,
  collect_settings m keys form = inl k ->
  In k keys /\ is_none (_extract_setting_value_int m k) = true.
Proof.
  induction keys as [|k0 keys IH]; intros form k Hc; simpl in Hc; [discriminate|].
  destruct (is_none (_extract_setting_value_int m k0)) eqn:E.
  - injection Hc as <-. split; [now left | exact E].
  - destruct (IH _ _ Hc) as [Hin Hn]. split; [now right | exact Hn].
Qed.

Lemma collect_settings_missing : forall m keys form k,
  In k keys -> is_none (_extract_setting_value_int m k) = true ->
  exists k', collect_settings m keys form = inl k'.
Proof.
  induction keys as [|k0 keys IH]; intros form k Hin Hn; simpl in *; [tauto|].
  destruct (is_none (_extract_setting_value_int m k0)) eqn:E; [eauto|].
  destruct Hin as [->|Hin]; [congruence|]. eapply IH; eauto.
Qed.

Lemma collect_settings_form : forall m keys form,
  NoDup keys -> (forall k, In k keys -> ~ In k (PyDict.keys form)) ->
  (forall k, In k keys -> is_none (_extract_setting_value_int m k) = false) ->
  collect_settings m keys form
  = inr (form ++ map (fun k => (k, _extract_setting_value_int m k)) keys).
Proof.
  induction keys as [|k0 keys IH]; intros form Hnd Hfresh Hall; simpl.
  - now rewrite app_nil_r.
  - rewrite (Hall k0) by now left.
    inversion Hnd as [|? ? Hk0 Hnd']; subst.
    rewrite set_absent by (apply Hfresh; now left).
    rewrite IH.
    + now rewrite <- app_assoc.
    + exact Hnd'.
    + intros k Hk Hin. unfold PyDict.keys in Hin. rewrite map_app, in_app_iff in Hin.
      destruct Hin as [Hin|[<-|[]]]; [|exact (Hk0 Hk)].
      apply (Hfresh k); [now right | exact Hin].
    + intros k Hk. apply Hall. now right.
Qed.

(** After the notification and the reading of the settings,
    [test_device_mutating] sends the update only when each of the seven
    settings has a value: if one has none the test fails and no further
    request is made; otherwise the update is one form POST that carries,
    for each of the seven keys in order, the value that was read. *)
Theorem device_settings_update :
  forall (host : Host) (base_url token : string) (device_id : json) (w w1 w2 : World)
         (r_notify s : HttpResponse.t),
  _http_request base_url "POST" "/v1/device/notify" (Some token) []
    (Form [("title", JStr "KinoPub API Test"); ("hardware", JStr "PC");
           ("software", JStr "Windows")]) w = (r_notify, w1) ->
  _http_request base_url "GET" (fmt ["/v1/device/"; py_str device_id; "/settings"])
    (Some token) [] NoPayload w1 = (s, w2) ->
  ((exists k, In k required_keys /\
              is_none (_extract_setting_value_int (settings_of s) k) = true) ->
   snd (test_device_mutating base_url token device_id w) = w2 /\
   TestOutcome.status (fst (test_device_mutating base_url token device_id w)) = FAIL) /\
  ((forall k, In k required_keys ->
              is_none (_extract_setting_value_int (settings_of s) k) = false) ->
   snd (test_device_mutating base_url token device_id w)
   = snd (urlopen (form_post base_url (fmt ["/v1/device/"; py_str device_id; "/settings"])
                     token (settings_form (settings_of s))) w2)).
Proof.
  intros host base_url token device_id w w1 w2 r_notify s Hnotify Hget.
  unfold test_device_mutating, bind. rewrite Hnotify, Hget.
  fold required_keys. fold (settings_of s). split.
  - intros (k & Hin & Hnone).
    destruct (collect_settings_missing (settings_of s) required_keys [] k Hin Hnone)
      as [k' Hk'].
    rewrite Hk'. split; reflexivity.
  - intros Hall.
    rewrite (collect_settings_form (settings_of s) required_keys []).
    + cbn [app]. fold (settings_form (settings_of s)).
      unfold _http_request, bind, form_post. cbn [opt_truthy].
      destruct (nonempty token);
        match goal with
        | |- context [urlopen ?rq w2] => destruct (urlopen rq w2) as [[[st hd] raw] w3]
        end; reflexivity.
    + unfold required_keys. repeat constructor; simpl; intuition discriminate.
    + intros k _ [].
    + exact Hall.
Qed.

Lemma device_settings_update_witness :
  let host := example_host (JDict [("settings", JDict [])]) None None in
  let notify :=
    @_http_request host "https://api.example/" "POST" "/v1/device/notify" (Some "tok") []
      (Form [("title", JStr "KinoPub API Test"); ("hardware", JStr "PC");
             ("software", JStr "Windows")]) 0%nat in
  let settings :=
    @_http_request host "https://api.example/" "GET" "/v1/device/7/settings" (Some "tok") []
      NoPayload 1%nat in
  notify = (fst notify, 1%nat) /\
  settings = (fst settings, 2%nat) /\
  snd (@test_device_mutating host "https://api.example/" "tok" (JInt 7) 0%nat) = 2%nat /\
  TestOutcome.status (fst (@test_device_mutating host "https://api.example/" "tok" (JInt 7) 0%nat))
  = FAIL.
Proof.
  intros host notify settings.
  assert (Hnotify : notify = (fst notify, 1%nat)) by reflexivity.
  assert (Hsettings : settings = (fst settings, 2%nat)) by reflexivity.
  split; [exact Hnotify|]. split; [exact Hsettings|].
  refine (proj1 (device_settings_update host "https://api.example/" "tok" (JInt 7)
                   0%nat 1%nat 2%nat (fst notify) (fst settings) Hnotify Hsettings) _).
  exists "supportSsl". split; [now left | reflexivity].
Defined.

(** ** api2 endpoints that may be absent *)

Lemma pass_if_none_not_skip : forall errors, pass_if_none errors <> SKIP.
Proof. intros [|e errors]; discriminate. Qed.

Lemma pass_if_none_pass : forall errors, pass_if_none errors = PASS <-> errors = [].
Proof. intros [|e errors]; simpl; split; intros; congruence. Qed.

Lemma require_nil : forall cond msg errors,
  _require cond msg errors = [] <-> cond = true /\ errors = [].
Proof.
  intros [] msg errors; simpl.
  - tauto.
  - split; [intros Hnil; destruct errors; discriminate Hnil | intros [Hc _]; discriminate Hc].
Qed.

(** The api2 backdrop and imdb probes report SKIP exactly when the answer
    is HTTP 404, whatever its body.  The backdrop probe passes exactly on
    HTTP 200; the imdb probe passes exactly on HTTP 200 with a body that is
    JSON. *)
Theorem api2_not_found_is_skipped :
  forall (host : Host) (api2_base_url token imdb_ids_csv : string)
         (imdb_id kinopoisk_id : json) (w : World),
  let backdrop :=
    fst (_http_request api2_base_url "GET" (fmt ["api2/v1/backdrop/"; py_str imdb_id])
           (Some token) [("kp_id", kinopoisk_id)] NoPayload w) in
  let imdb :=
    fst (_http_request api2_base_url "GET" (fmt ["api2/v1/imdb/"; imdb_ids_csv])
           (Some token) [] NoPayload w) in
  let o_backdrop := fst (test_api2_backdrop api2_base_url token imdb_id kinopoisk_id w) in
  let o_imdb := fst (test_api2_imdb api2_base_url token imdb_ids_csv w) in
  (TestOutcome.status o_backdrop = SKIP <-> HttpResponse.status backdrop = 404) /\
  (TestOutcome.status o_backdrop = PASS <-> HttpResponse.status backdrop = 200) /\
  (TestOutcome.status o_imdb = SKIP <-> HttpResponse.status imdb = 404) /\
  (TestOutcome.status o_imdb = PASS <->
   HttpResponse.status imdb = 200 /\ is_none (HttpResponse.json imdb) = false).
Proof.
  intros host api2_base_url token imdb_ids_csv imdb_id kinopoisk_id w.
  cbv zeta. unfold test_api2_backdrop, test_api2_imdb, bind, ret.
  destruct (_http_request api2_base_url "GET" (fmt ["api2/v1/backdrop/"; py_str imdb_id])
              (Some token) [("kp_id", kinopoisk_id)] NoPayload w) as [r1 w1].
  destruct (_http_request api2_base_url "GET" (fmt ["api2/v1/imdb/"; imdb_ids_csv])
              (Some token) [] NoPayload w) as [r2 w2].
  cbn [fst].
  split; [|split; [|split]].
  - destruct (Z.eqb_spec (HttpResponse.status r1) 404) as [E|E]; cbn [fst TestOutcome.status].
    + split; intros _; [exact E | reflexivity].
    + split; [intros Hs; exfalso; exact (pass_if_none_not_skip _ Hs) | intros E'; contradiction].
  - destruct (Z.eqb_spec (HttpResponse.status r1) 404) as [E|E]; cbn [fst TestOutcome.status].
    + split; [discriminate | lia].
    + rewrite pass_if_none_pass, require_nil, Z.eqb_eq. tauto.
  - destruct (Z.eqb_spec (HttpResponse.status r2) 404) as [E|E]; cbn [fst TestOutcome.status].
    + split; intros _; [exact E | reflexivity].
    + split; [intros Hs; exfalso; exact (pass_if_none_not_skip _ Hs) | intros E'; contradiction].
  - destruct (Z.eqb_spec (HttpResponse.status r2) 404) as [E|E]; cbn [fst TestOutcome.status].
    + split; [discriminate | lia].
    + rewrite pass_if_none_pass, !require_nil, Z.eqb_eq, negb_true_iff. tauto.
Qed.

(** ** The summary of a run *)

Lemma entry_ok_add : forall results tid o,
  Forall entry_ok results -> outcome_ok o -> Forall entry_ok (add results tid o).
Proof.
  intros results tid o Hr Ho. unfold add. apply Forall_app. split; [exact Hr|].
  constructor; [exact Ho | constructor].
Qed.

(** What is known of the outcome a step of the run records. *)
Ltac routine_fact :=
  lazymatch goal with
  | |- post (test_user _ _) _ => apply test_user_ok
  | |- post (test_oauth_device_flow_pending _ _ _) _ => apply test_oauth_device_flow_pending_ok
  | |- post (test_api2_items_search _ _) _ => apply test_api2_items_search_ok
  | |- post (test_api2_item_details _ _ _) _ => apply test_api2_item_details_ok
  | |- post (test_api2_backdrop _ _ _ _) _ => apply test_api2_backdrop_ok
  | |- post (test_api2_notifications_mutating _ _ _ _) _ => apply test_api2_notifications_mutating_ok
  | |- post (test_api2_upload_report _ _ _) _ => apply test_api2_upload_report_ok
  | |- post (test_api2_item_collections _ _ _) _ => apply test_api2_item_collections_ok
  | |- post (test_api2_imdb _ _ _) _ => apply test_api2_imdb_ok
  | |- post (test_types _ _) _ => apply test_types_ok
  | |- post (test_genres _ _) _ => apply test_genres_ok
  | |- post (test_countries _ _) _ => apply test_countries_ok
  | |- post (test_subtitles _ _) _ => apply test_subtitles_ok
  | |- post (test_search _ _) _ => apply test_search_ok
  | |- post (test_similar _ _ _) _ => apply test_similar_ok
  | |- post (test_shortcut _ _ _ _) _ => apply test_shortcut_ok
  | |- post (test_trailer _ _ _) _ => apply test_trailer_ok
  | |- post (test_comments _ _ _) _ => apply test_comments_ok
  | |- post (test_vote_mutating _ _ _) _ => apply test_vote_mutating_ok
  | |- post (test_collections _ _) _ => apply test_collections_ok
  | |- post (test_collections_sort _ _) _ => apply test_collections_sort_ok
  | |- post (test_collection_items _ _ _) _ => apply test_collection_items_ok
  | |- post (test_references _ _) _ => apply test_references_ok
  | |- post (test_tv _ _) _ => apply test_tv_ok
  | |- post (test_watching _ _ _) _ => apply test_watching_ok
  | |- post (test_watching_mutating _ _ _ _) _ => apply test_watching_mutating_ok
  | |- post (test_watchlist_toggle_mutating _ _ _) _ => apply test_watchlist_toggle_mutating_ok
  | |- post (test_history _ _) _ => apply test_history_ok
  | |- post (test_history_mutating _ _ _ _ _) _ => apply test_history_mutating_ok
  | |- post (test_device _ _) _ => apply test_device_ok
  | |- post (test_device_mutating _ _ _) _ => apply test_device_mutating_ok
  | |- post (test_items_listing _ _) _ => apply test_items_listing_ok
  | |- post (test_items_listing_filters _ _) _ => apply test_items_listing_filters_ok
  | |- post (test_item_details _ _ _) _ => apply test_item_details_ok
  | |- post (test_media_links _ _ _) _ => apply test_media_links_ok
  | |- post (test_media_video_link _ _ _ _) _ => apply test_media_video_link_ok
  | |- post (test_bookmarks_mutating _ _ _) _ => apply test_bookmarks_mutating_ok
  | |- post (ret _) _ => apply post_ret; apply skip_ok
  | |- post (if ?c then _ else _) _ => destruct c; routine_fact
  | |- post (match ?x with _ => _ end) _ => destruct x; routine_fact
  end.

Ltac summary_step :=
  lazymatch goal with
  | |- post (bind (ret _) _) _ => apply post_bind_ret; cbv beta
  | |- post (bind (bind _ _) _) _ => apply post_bind_assoc
  | |- post (@bind _ Results _ (if ?c then _ else _) _) _ => destruct c
  | |- post (@bind _ Results _ (match ?x with _ => _ end) _) _ => destruct x
  | |- post (@bind _ TestOutcome.t _ _ _) _ =>
      apply post_bind with (P := outcome_ok); [routine_fact | intros ? ?; cbv beta]
  | |- post (@bind _ (TestOutcome.t * _)%type _ _ _) _ =>
      apply post_bind with (P := fun r => outcome_ok (fst r));
      [routine_fact | intros [? ?] ?; cbv beta]
  | |- post (bind _ _) _ => apply post_bind_any; intro; cbv beta
  | |- post (match ?x with _ => _ end) _ => destruct x
  end.

Ltac summary_done :=
  apply post_ret; repeat (apply entry_ok_add; [|assumption]); assumption.

Section Summary.
Context `{Host}.

Lemma run_basics_entries : forall b t ci cs,
  post (run_basics b t ci cs) (fun r => Forall entry_ok (fst (fst r))).
Proof.
  intros b t ci cs. unfold run_basics. cbv beta zeta.
  repeat summary_step. apply post_ret. cbn [fst].
  repeat (apply entry_ok_add; [|assumption]). constructor.
Qed.

Lemma run_with_item_entries : forall b t genre_id item_id mut destr results,
  Forall entry_ok results ->
  post (run_with_item b t genre_id item_id mut destr results) (Forall entry_ok).
Proof.
  intros b t genre_id item_id mut destr results Hres.
  unfold run_with_item. cbn [for_each]. cbv beta zeta.
  repeat summary_step.
  all: summary_done.
Qed.

Lemma run_api2_entries : forall b t item_id mut au ad ur results,
  Forall entry_ok results ->
  post (run_api2 b t item_id mut au ad ur results) (Forall entry_ok).
Proof.
  intros b t item_id mut au ad ur results Hres.
  unfold run_api2. cbv beta zeta.
  repeat summary_step.
  all: first [ summary_done
             | apply post_ret; repeat (apply entry_ok_add; [|first [assumption | apply skip_ok]]);
               assumption ].
Qed.

End Summary.

Lemma inventory_NoDup : forall include_api2 media_links video_link collections_view,
  NoDup (inventory include_api2 media_links video_link collections_view).
Proof.
  intros [] [] [] []; apply nodup_keys_NoDup; reflexivity.
Qed.

(** The summary of a run lists no test id twice, and each of its lines is
    consistent: PASS goes with no error and FAIL with at least one, for
    the outcomes of the test routines as for the lines the run writes
    itself for what it skips. *)
Theorem run_summary_well_formed :
  forall (host : Host) (base_url : string) (token_arg : option string) (token_file : string)
         (client_id client_secret : option string)
         (include_mutating include_destructive include_api2 : bool)
         (api2_base_url api2_device_token : option string) (api2_upload_report : bool)
         (w : World),
  match snd (fst (_run_all base_url token_arg token_file client_id client_secret
                    include_mutating include_destructive include_api2
                    api2_base_url api2_device_token api2_upload_report w)) with
  | None => True
  | Some results => NoDup (ids results) /\ Forall entry_ok results
  end.
Proof.
  intros. revert w.
  change (post (_run_all base_url token_arg token_file client_id client_secret
                  include_mutating include_destructive include_api2
                  api2_base_url api2_device_token api2_upload_report)
            (fun r => match snd r with
                      | None => True
                      | Some results => NoDup (ids results) /\ Forall entry_ok results
                      end)).
  unfold _run_all.
  destruct (_resolve_access_token token_arg token_file) as [token token_source].
  destruct (opt_truthy token); cbn [negb]; [|now apply post_ret].
  eapply post_bind; [apply post_conj; [apply run_basics_post | apply run_basics_entries]|].
  intros [[results genre_id] item_id] [[Hbasic _] Hentries]. cbn [fst snd] in Hbasic, Hentries.
  destruct (is_none item_id).
  { apply post_ret. cbn [snd]. split; [|exact Hentries].
    rewrite Hbasic. apply nodup_keys_NoDup. reflexivity. }
  eapply post_bind.
  { apply post_conj; [apply run_with_item_ids | apply (run_with_item_entries _ _ _ _ _ _ _ Hentries)]. }
  intros r1 [(ml & vl & cv & Hids) Hentries1]. rewrite Hbasic in Hids.
  destruct include_api2.
  - eapply post_bind.
    { apply post_conj; [apply run_api2_ids | apply (run_api2_entries _ _ _ _ _ _ _ _ Hentries1)]. }
    intros r2 [Hids2 Hentries2]. apply post_ret. cbn [snd]. split; [|exact Hentries2].
    rewrite Hids2, Hids, <- app_assoc. apply (inventory_NoDup true).
  - apply post_bind_ret. apply post_ret. cbn [snd]. split.
    + rewrite ids_add, Hids, <- app_assoc. apply (inventory_NoDup false).
    + apply entry_ok_add; [exact Hentries1 | apply skip_ok].
Qed.

(** ** A run with no class of tests enabled *)

Section Preserves.
Context `{Host}.

Lemma preserves_ret : forall (A : Type) (I : World -> Prop) (a : A), preserves I (ret a).
Proof. intros A I a w Hw. exact Hw. Qed.

Lemma preserves_bind : forall (A B : Type) (I : World -> Prop) (m : M A) (k : A -> M B),
  preserves I m -> (forall a, preserves I (k a)) -> preserves I (bind m k).
Proof.
  intros A B I m k Hm Hk w Hw. unfold bind.
  specialize (Hm w Hw). destruct (m w) as [a w']. exact (Hk a w' Hm).
Qed.

Lemma preserves_for_each : forall (A S : Type) (I : World -> Prop) (xs : list A)
    (body : A -> S -> M S),
  (forall x acc, preserves I (body x acc)) -> forall acc, preserves I (for_each xs acc body).
Proof.
  intros A S I xs body Hbody. induction xs as [|x xs IH]; intros acc; cbn [for_each].
  - apply preserves_ret.
  - apply preserves_bind; [apply Hbody | exact IH].
Qed.

End Preserves.

Section Reads.
Context `{Host}.
Variable I : World -> Prop.
Variable token : string.
Hypothesis Htoken : nonempty token = true.
Hypothesis Hget : forall rq, authorized_get token rq -> preserves I (urlopen rq).

Lemma http_get_reads : forall b path query,
  preserves I (_http_request b "GET" path (Some token) query NoPayload).
Proof.
  intros b path query. unfold _http_request. cbn [opt_truthy]. rewrite Htoken.
  apply preserves_bind.
  - apply Hget. repeat split.
  - intros [[st hd] raw]. apply preserves_ret.
Qed.

Ltac reads_step :=
  lazymatch goal with
  | |- preserves _ (bind _ _) => apply preserves_bind; [|intro]
  | |- preserves _ (ret _) => apply preserves_ret
  | |- preserves _ (for_each _ _ _) => apply preserves_for_each; intros
  | |- preserves _ (_http_request _ "GET" _ (Some _) _ NoPayload) => apply http_get_reads
  | |- preserves _ (if ?c then _ else _) => destruct c
  | |- preserves _ (match ?x with _ => _ end) => destruct x
  | |- preserves _ (let _ := _ in _) => cbv zeta
  end.

Ltac reads := repeat reads_step.

Lemma first_accepted_sort_reads : forall b candidates,
  preserves I (first_accepted_sort b token candidates).
Proof.
  intros b candidates. induction candidates as [|sort rest IH]; cbn [first_accepted_sort].
  - apply preserves_ret.
  - apply preserves_bind; [apply http_get_reads|]. intros resp.
    destruct (HttpResponse.json resp); try exact IH.
    destruct (negb (HttpResponse.status resp =? 200)); [exact IH|].
    destruct (negb (is_list (PyDict.get items "items"))); [exact IH | apply preserves_ret].
Qed.

Lemma test_user_reads : forall b, preserves I (test_user b token).
Proof. intros. unfold test_user. reads. Qed.

Lemma test_references_reads : forall b, preserves I (test_references b token).
Proof. intros. unfold test_references. reads. Qed.

Lemma test_tv_reads : forall b, preserves I (test_tv b token).
Proof. intros. unfold test_tv. reads. Qed.

Lemma test_types_reads : forall b, preserves I (test_types b token).
Proof. intros. unfold test_types. reads. Qed.

Lemma test_genres_reads : forall b, preserves I (test_genres b token).
Proof. intros. unfold test_genres. reads. Qed.

Lemma test_countries_reads : forall b, preserves I (test_countries b token).
Proof. intros. unfold test_countries. reads. Qed.

Lemma test_subtitles_reads : forall b, preserves I (test_subtitles b token).
Proof. intros. unfold test_subtitles. reads. Qed.

Lemma test_items_listing_reads : forall b, preserves I (test_items_listing b token).
Proof. intros. unfold test_items_listing. reads. Qed.

Lemma test_items_listing_filters_reads : forall b, preserves I (test_items_listing_filters b token).
Proof. intros. unfold test_items_listing_filters. reads. Qed.

Lemma test_item_details_reads : forall b i, preserves I (test_item_details b token i).
Proof. intros. unfold test_item_details. reads. Qed.

Lemma test_search_reads : forall b, preserves I (test_search b token).
Proof. intros. unfold test_search. reads. Qed.

Lemma test_similar_reads : forall b i, preserves I (test_similar b token i).
Proof. intros. unfold test_similar. reads. Qed.

Lemma test_shortcut_reads : forall b n g, preserves I (test_shortcut b token n g).
Proof. intros. unfold test_shortcut. reads. Qed.

Lemma test_trailer_reads : forall b i, preserves I (test_trailer b token i).
Proof. intros. unfold test_trailer. reads. Qed.

Lemma test_comments_reads : forall b i, preserves I (test_comments b token i).
Proof. intros. unfold test_comments. reads. Qed.

Lemma test_media_links_reads : forall b m, preserves I (test_media_links b token m).
Proof. intros. unfold test_media_links. reads. Qed.

Lemma test_media_video_link_reads : forall b f s, preserves I (test_media_video_link b token f s).
Proof. intros. unfold test_media_video_link. reads. Qed.

Lemma test_collections_reads : forall b, preserves I (test_collections b token).
Proof. intros. unfold test_collections. reads. Qed.

Lemma test_collections_sort_reads : forall b, preserves I (test_collections_sort b token).
Proof. intros. unfold test_collections_sort. cbv zeta.
  apply preserves_bind; [apply first_accepted_sort_reads | intro; reads]. Qed.

Lemma test_collection_items_reads : forall b c, preserves I (test_collection_items b token c).
Proof. intros. unfold test_collection_items. reads. Qed.

Lemma test_watching_reads : forall b i, preserves I (test_watching b token i).
Proof. intros. unfold test_watching. reads. Qed.

Lemma test_history_reads : forall b, preserves I (test_history b token).
Proof. intros. unfold test_history. reads. Qed.

Lemma test_device_reads : forall b, preserves I (test_device b token).
Proof. intros. unfold test_device. reads. Qed.

Lemma test_api2_items_search_reads : forall b, preserves I (test_api2_items_search b token).
Proof. intros. unfold test_api2_items_search. reads. Qed.

Lemma test_api2_item_details_reads : forall b i, preserves I (test_api2_item_details b token i).
Proof. intros. unfold test_api2_item_details. reads. Qed.

Lemma test_api2_item_collections_reads : forall b i, preserves I (test_api2_item_collections b token i).
Proof. intros. unfold test_api2_item_collections. reads. Qed.

Lemma test_api2_backdrop_reads : forall b i k, preserves I (test_api2_backdrop b token i k).
Proof. intros. unfold test_api2_backdrop. reads. Qed.

Lemma test_api2_imdb_reads : forall b c, preserves I (test_api2_imdb b token c).
Proof. intros. unfold test_api2_imdb. reads. Qed.

Ltac run_reads_step :=
  lazymatch goal with
  | |- preserves _ (test_user _ _) => apply test_user_reads
  | |- preserves _ (test_references _ _) => apply test_references_reads
  | |- preserves _ (test_tv _ _) => apply test_tv_reads
  | |- preserves _ (test_types _ _) => apply test_types_reads
  | |- preserves _ (test_genres _ _) => apply test_genres_reads
  | |- preserves _ (test_countries _ _) => apply test_countries_reads
  | |- preserves _ (test_subtitles _ _) => apply test_subtitles_reads
  | |- preserves _ (test_items_listing _ _) => apply test_items_listing_reads
  | |- preserves _ (test_items_listing_filters _ _) => apply test_items_listing_filters_reads
  | |- preserves _ (test_item_details _ _ _) => apply test_item_details_reads
  | |- preserves _ (test_search _ _) => apply test_search_reads
  | |- preserves _ (test_similar _ _ _) => apply test_similar_reads
  | |- preserves _ (test_shortcut _ _ _ _) => apply test_shortcut_reads
  | |- preserves _ (test_trailer _ _ _) => apply test_trailer_reads
  | |- preserves _ (test_comments _ _ _) => apply test_comments_reads
  | |- preserves _ (test_media_links _ _ _) => apply test_media_links_reads
  | |- preserves _ (test_media_video_link _ _ _ _) => apply test_media_video_link_reads
  | |- preserves _ (test_collections _ _) => apply test_collections_reads
  | |- preserves _ (test_collections_sort _ _) => apply test_collections_sort_reads
  | |- preserves _ (test_collection_items _ _ _) => apply test_collection_items_reads
  | |- preserves _ (test_watching _ _ _) => apply test_watching_reads
  | |- preserves _ (test_history _ _) => apply test_history_reads
  | |- preserves _ (test_device _ _) => apply test_device_reads
  | |- preserves _ (test_api2_items_search _ _) => apply test_api2_items_search_reads
  | |- preserves _ (test_api2_item_details _ _ _) => apply test_api2_item_details_reads
  | |- preserves _ (test_api2_item_collections _ _ _) => apply test_api2_item_collections_reads
  | |- preserves _ (test_api2_backdrop _ _ _ _) => apply test_api2_backdrop_reads
  | |- preserves _ (test_api2_imdb _ _ _) => apply test_api2_imdb_reads
  | |- preserves _ (bind _ _) => apply preserves_bind; [|intro]
  | |- preserves _ (ret _) => apply preserves_ret
  | |- preserves _ (if ?c then _ else _) => destruct c
  | |- preserves _ (match ?x with _ => _ end) => destruct x
  | |- preserves _ (let _ := _ in _) => cbv zeta
  end.

Lemma run_basics_reads : forall b,
  preserves I (run_basics b token None None).
Proof. intros b. unfold run_basics. repeat run_reads_step. Qed.

Lemma run_with_item_reads : forall b genre_id item_id results,
  preserves I (run_with_item b token genre_id item_id false false results).
Proof.
  intros b genre_id item_id results.
  unfold run_with_item. cbn [orb andb negb for_each]. cbv beta iota zeta.
  repeat run_reads_step.
Qed.

Lemma run_api2_reads : forall b item_id au ad ur results,
  preserves I (run_api2 b token item_id false au ad ur results).
Proof.
  intros b item_id au ad ur results.
  unfold run_api2. rewrite !andb_false_r. cbn [negb]. cbv beta zeta.
  repeat run_reads_step.
Qed.

End Reads.

(** A run with neither the mutating nor the destructive class enabled and
    no client credentials only sends GET requests that carry the resolved
    token as bearer token and have no form and no body: whatever such
    requests leave unchanged, the run leaves unchanged.  (It sends no
    POST; the api2 tests, when enabled, are no exception.) *)
Theorem run_without_flags_only_gets :
  forall (host : Host) (I : World -> Prop) (base_url : string) (token_arg : option string)
         (token_file : string) (include_api2 : bool)
         (api2_base_url api2_device_token : option string) (api2_upload_report : bool),
  (forall token rq,
     fst (_resolve_access_token token_arg token_file) = Some token ->
     authorized_get token rq -> preserves I (urlopen rq)) ->
  preserves I
    (_run_all base_url token_arg token_file None None false false include_api2
       api2_base_url api2_device_token api2_upload_report).
Proof.
  intros host I base_url token_arg token_file include_api2 api2_base_url api2_device_token
         api2_upload_report Hget.
  unfold _run_all.
  destruct (_resolve_access_token token_arg token_file) as [[token|] token_source];
    cbn [fst opt_truthy] in *; [|apply preserves_ret].
  destruct (nonempty token) eqn:Htoken; cbn [negb]; [|apply preserves_ret].
  specialize (Hget token).
  assert (Hget' : forall rq, authorized_get token rq -> preserves I (urlopen rq))
    by (intros rq; apply Hget; reflexivity).
  apply preserves_bind; [apply (run_basics_reads I token Htoken Hget')|].
  intros [[results genre_id] item_id].
  destruct (is_none item_id); [apply preserves_ret|].
  apply preserves_bind; [apply (run_with_item_reads I token Htoken Hget')|].
  intros results1.
  apply preserves_bind; [|intro; apply preserves_ret].
  destruct include_api2; [apply (run_api2_reads I token Htoken Hget') | apply preserves_ret].
Qed.

Lemma run_without_flags_only_gets_witness :
  let host := traced (example_host LISTING_42 None None) in
  Forall (authorized_get "tok")
    (snd (snd (@_run_all host "https://api.example/" (Some "tok") "token.txt" None None
                 false false true None None false (0%nat, [])))).
Proof.
  intros host.
  apply (run_without_flags_only_gets host (fun w => Forall (authorized_get "tok") (snd w))
           "https://api.example/" (Some "tok") "token.txt" true None None false).
  - intros token rq Htoken Hrq w Hw.
    assert (Etoken : token = "tok") by (injection Htoken as <-; reflexivity).
    subst token. cbn [urlopen host traced example_host snd fst].
    apply Forall_app. split; [exact Hw | constructor; [exact Hrq | constructor]].
  - constructor.
Defined.

(** ** The bookmarks test cleans up *)

Section Traced.
Variable h : Host.




End Traced.




(** ** The access token, once resolved *)

Lemma rstrip_rstrip : forall s, rstrip (rstrip s) = rstrip s.
Proof.
  induction s as [|c s IH]; [reflexivity|].
  cbn [rstrip]. destruct (rstrip s) as [|c' r'] eqn:E.
  - destruct (isspace c) eqn:Hc; [reflexivity|]. cbn [rstrip]. now rewrite Hc.
  - change (rstrip (String c (String c' r')))
      with (match rstrip (String c' r') with
            | EmptyString => if isspace c then EmptyString else String c EmptyString
            | String a b => String c (String a b)
            end).
    now rewrite IH.
Qed.

Lemma strip_strip : forall s, strip (strip s) = strip s.
Proof.
  intros s. unfold strip at 1. rewrite lstrip_strip. unfold strip. apply rstrip_rstrip.
Qed.

Lemma startswith_nonempty : forall s p,
  startswith s (String p EmptyString) = true -> nonempty s = true.
Proof. intros [|c s] p Hs; [discriminate Hs | reflexivity]. Qed.

Section TokenSources.
Context `{Host}.

Lemma read_token_file_stripped : forall path tok,
  _read_token_file path = Some tok -> strip tok = tok.
Proof.
  intros path tok. unfold _read_token_file.
  destruct (open_read path) as [raw|]; [|discriminate].
  destruct (negb (nonempty (strip raw))); [discriminate|].
  assert (Hline : first_token_line (splitlines (strip raw)) = Some tok -> strip tok = tok).
  { intros Hf. destruct (first_token_line_found _ _ Hf) as (pre & line & post & _ & _ & _ & ->).
    apply strip_strip. }
  destruct (startswith (lstrip (strip raw)) "{"); [|exact Hline].
  destruct (json_loads (strip raw)) as [[| | | | |xs|obj]|]; try exact Hline.
  destruct (py_or _ _) as [| | | |t| |]; try exact Hline.
  destruct (nonempty (strip t)); [|exact Hline].
  intros Ht. injection Ht as <-. apply strip_strip.
Qed.

(** The JSON branch of the reader, for a file that parses to an object
    with a string under ["access_token"] or, that one being falsy, under
    ["token"]. *)
Lemma read_token_file_field : forall path raw obj t,
  open_read path = Some raw ->
  startswith (strip raw) "{" = true ->
  json_loads (strip raw) = Some (JDict obj) ->
  py_or (PyDict.get obj "access_token") (PyDict.get obj "token") = JStr t ->
  _read_token_file path
  = if nonempty (strip t) then Some (strip t) else first_token_line (splitlines (strip raw)).
Proof.
  intros path raw obj t Hopen Hbrace Hjson Hfield.
  unfold _read_token_file. rewrite Hopen.
  rewrite (startswith_nonempty _ _ Hbrace). cbn [negb].
  rewrite lstrip_strip, Hbrace, Hjson, Hfield.
  destruct (nonempty (strip t)); reflexivity.
Qed.

End TokenSources.

(** Whatever the argument, the environment and the token file hold, the
    resolved token is tagged arg, env, file or missing; there is no token
    exactly when the tag is missing; and a token that is returned is
    neither empty nor surrounded by whitespace. *)
Theorem resolved_token_is_clean :
  forall (host : Host) (token_arg : option string) (token_file : string),
  let resolved := _resolve_access_token token_arg token_file in
  In (snd resolved) ["arg"; "env"; "file"; "missing"] /\
  (fst resolved = None <-> snd resolved = "missing") /\
  (forall t, fst resolved = Some t -> nonempty t = true /\ strip t = t).
Proof.
  intros host token_arg token_file. cbv zeta. unfold _resolve_access_token.
  assert (Hgiven : forall s, given s = true ->
            exists a, option_map strip s = Some (strip a) /\ nonempty (strip a) = true).
  { intros [a|] Hs; [|discriminate Hs]. exists a. split; [reflexivity|].
    unfold given in Hs. apply andb_true_iff in Hs. apply Hs. }
  destruct (given token_arg) eqn:Earg.
  { destruct (Hgiven _ Earg) as (a & -> & Ha). cbn [fst snd].
    split; [simpl; tauto|]. split; [split; discriminate|].
    intros t Ht. injection Ht as <-. split; [exact Ha | apply strip_strip]. }
  destruct (given (os_environ_get ENV_ACCESS_TOKEN)) eqn:Eenv.
  { destruct (Hgiven _ Eenv) as (a & -> & Ha). cbn [fst snd].
    split; [simpl; tauto|]. split; [split; discriminate|].
    intros t Ht. injection Ht as <-. split; [exact Ha | apply strip_strip]. }
  destruct (_read_token_file token_file) as [tok|] eqn:Efile; cbn [opt_truthy].
  - rewrite (read_token_file_nonempty _ _ Efile). cbn [fst snd].
    split; [simpl; tauto|]. split; [split; discriminate|].
    intros t Ht. injection Ht as <-.
    split; [exact (read_token_file_nonempty _ _ Efile) | exact (read_token_file_stripped _ _ Efile)].
  - cbn [fst snd]. split; [simpl; tauto|]. split; [split; reflexivity|].
    intros t Ht. discriminate Ht.
Qed.

(** A token file that holds a JSON object: a non-blank string under
    access_token is the token, stripped; the string under token is used
    when access_token is absent, null or empty; but an access_token that
    is a string of whitespace only hides the token member, and the file is
    then read as plain text. *)
Theorem read_token_file_json :
  forall (host : Host) (path raw : string) (obj : PyDict.dict),
  open_read path = Some raw ->
  startswith (strip raw) "{" = true ->
  json_loads (strip raw) = Some (JDict obj) ->
  (forall t, PyDict.get obj "access_token" = JStr t -> nonempty (strip t) = true ->
     _read_token_file path = Some (strip t)) /\
  (forall t, truthy (PyDict.get obj "access_token") = false ->
     PyDict.get obj "token" = JStr t -> nonempty (strip t) = true ->
     _read_token_file path = Some (strip t)) /\
  (forall a, PyDict.get obj "access_token" = JStr a -> nonempty a = true ->
     strip a = EmptyString ->
     _read_token_file path = first_token_line (splitlines (strip raw))).
Proof.
  intros host path raw obj Hopen Hbrace Hjson. split; [|split].
  - intros t Ha Ht.
    rewrite (read_token_file_field path raw obj t Hopen Hbrace Hjson), Ht; [reflexivity|].
    unfold py_or. rewrite Ha. cbn [truthy]. now rewrite (nonempty_strip _ Ht).
  - intros t Hfalsy Htok Ht.
    rewrite (read_token_file_field path raw obj t Hopen Hbrace Hjson), Ht; [reflexivity|].
    unfold py_or. now rewrite Hfalsy.
  - intros a Ha Hne Hblank.
    rewrite (read_token_file_field path raw obj a Hopen Hbrace Hjson), Hblank; [reflexivity|].
    unfold py_or. rewrite Ha. cbn [truthy]. now rewrite Hne.
Qed.

Lemma read_token_file_json_witness :
  let host :=
    example_host (JDict [("access_token", JStr " abc "); ("token", JStr "other")]) None
      (Some "{...}") in
  @open_read host "access_token.txt" = Some "{...}" /\
  startswith (strip "{...}") "{" = true /\
  @json_loads host (strip "{...}")
  = Some (JDict [("access_token", JStr " abc "); ("token", JStr "other")]) /\
  @_read_token_file host "access_token.txt" = Some "abc".
Proof.
  intros host.
  assert (Hopen : @open_read host "access_token.txt" = Some "{...}") by reflexivity.
  assert (Hbrace : startswith (strip "{...}") "{" = true) by reflexivity.
  assert (Hjson : @json_loads host (strip "{...}")
                  = Some (JDict [("access_token", JStr " abc "); ("token", JStr "other")]))
    by reflexivity.
  split; [exact Hopen|]. split; [exact Hbrace|]. split; [exact Hjson|].
  exact (proj1 (read_token_file_json host "access_token.txt" "{...}" _ Hopen Hbrace Hjson)
           " abc " eq_refl eq_refl).
Defined.

(** The file [extract_token.py] writes is the file [run_tests.py] reads:
    when the device flow returned a non-blank access token, and the text
    of the file parses back to an object with the members that were
    written, the token read from the file is that access token, stripped,
    and with no argument and no environment variable it is the token of
    the run, tagged file. *)
Theorem token_file_round_trip :
  forall (host : Host) (path written obtained_at base_url tok : string)
         (token_payload obj : PyDict.dict),
  open_read path = Some written ->
  startswith (strip written) "{" = true ->
  json_loads (strip written) = Some (JDict obj) ->
  (forall k, PyDict.get obj k
             = PyDict.get (token_file_object token_payload obtained_at base_url) k) ->
  PyDict.get token_payload "access_token" = JStr tok ->
  nonempty (strip tok) = true ->
  os_environ_get ENV_ACCESS_TOKEN = None ->
  _read_token_file path = Some (strip tok) /\
  _resolve_access_token None path = (Some (strip tok), "file").
Proof.
  intros host path written obtained_at base_url tok token_payload obj
         Hopen Hbrace Hjson Hsame Htok Hne Henv.
  assert (Hread : _read_token_file path = Some (strip tok)).
  { rewrite (read_token_file_field path written obj tok Hopen Hbrace Hjson), Hne; [reflexivity|].
    unfold py_or. rewrite !Hsame. cbn [token_file_object PyDict.get String.eqb Ascii.eqb Bool.eqb].
    rewrite Htok. cbn [truthy]. now rewrite (nonempty_strip _ Hne). }
  split; [exact Hread|].
  unfold _resolve_access_token. rewrite Henv, Hread. cbn [given opt_truthy].
  now rewrite Hne.
Qed.

Lemma token_file_round_trip_witness :
  let payload := [("access_token", JStr "abc"); ("refresh_token", JStr "def")] in
  let host :=
    example_host (JDict (token_file_object payload "2026-01-01T00:00:00+00:00"
                           "https://api.service-kp.com/")) None (Some "{...}") in
  @_read_token_file host "access_token.txt" = Some "abc" /\
  @_resolve_access_token host None "access_token.txt" = (Some "abc", "file").
Proof.
  intros payload host.
  exact (token_file_round_trip host "access_token.txt" "{...}" "2026-01-01T00:00:00+00:00"
           "https://api.service-kp.com/" "abc" payload
           (token_file_object payload "2026-01-01T00:00:00+00:00" "https://api.service-kp.com/")
           eq_refl eq_refl eq_refl (fun k => eq_refl) eq_refl eq_refl eq_refl).
Defined.

(** ** The device flow as a whole *)

Lemma Qltb_false : forall a b, Qltb a b = false <-> (b <= a)%Q.
Proof.
  intros a b. unfold Qltb. rewrite negb_false_iff. apply Qle_bool_iff.
Qed.

Lemma poll_answer_return : forall r_poll poll_interval payload,
  poll_answer r_poll poll_interval = Return payload ->
  HttpResponse.json r_poll = JDict payload /\
  is_str (PyDict.get payload "access_token") = true.
Proof.
  intros r_poll poll_interval payload. unfold poll_answer.
  destruct (HttpResponse.json r_poll) as [| | | | | |d]; try discriminate.
  destruct (is_str (PyDict.get d "access_token")) eqn:E.
  - intros Hr. injection Hr as <-. now split.
  - destruct (PyDict.get d "error") as [| | | |err| |]; try discriminate.
    destruct (String.eqb err "authorization_pending"); [discriminate|].
    destruct (String.eqb err "slow_down"); [discriminate|].
    destruct (String.eqb err "expired_token" || String.eqb err "access_denied"); discriminate.
Qed.

Lemma poll_answer_sleep : forall r_poll poll_interval next_interval,
  poll_answer r_poll poll_interval = SleepThenPoll next_interval ->
  poll_interval <= next_interval.
Proof.
  intros r_poll poll_interval next_interval. unfold poll_answer.
  destruct (HttpResponse.json r_poll) as [| | | | | |d]; try discriminate.
  destruct (is_str (PyDict.get d "access_token")); [discriminate|].
  destruct (PyDict.get d "error") as [| | | |err| |]; try discriminate.
  destruct (String.eqb err "authorization_pending"); [intros Hs; injection Hs as <-; lia|].
  destruct (String.eqb err "slow_down"); [intros Hs; injection Hs as <-; lia|].
  destruct (String.eqb err "expired_token" || String.eqb err "access_denied"); discriminate.
Qed.

Section Flow.
Context `{Host}.

Lemma poll_loop_timeout :
  forall fuel base_url client_id client_secret code deadline poll_interval (w w1 : World) now,
  time_time w = (now, w1) ->
  Qltb now deadline = false ->
  poll_loop (S fuel) base_url client_id client_secret code deadline poll_interval w
  = (Some (inl (Error TIMED_OUT)), w1).
Proof.
  intros fuel base_url client_id client_secret code deadline poll_interval w w1 now Hnow Hlt.
  cbn [poll_loop]. unfold bind at 1. rewrite Hnow, Hlt. reflexivity.
Qed.

Lemma poll_loop_returns :
  forall fuel base_url client_id client_secret code deadline poll_interval (w : World) payload,
  fst (poll_loop fuel base_url client_id client_secret code deadline poll_interval w)
  = Some (inr payload) ->
  is_str (PyDict.get payload "access_token") = true.
Proof.
  induction fuel as [|fuel IH];
    intros base_url client_id client_secret code deadline poll_interval w payload;
    [discriminate|].
  destruct (time_time w) as [now w1] eqn:Hnow.
  destruct (Qltb now deadline) eqn:Hlt.
  - destruct (_http_post_query base_url "/oauth2/device"
                (poll_query client_id client_secret code) w1) as [r_poll w2] eqn:Hpoll.
    rewrite (poll_loop_pass _ _ _ _ _ _ _ _ _ _ _ _ Hnow Hlt Hpoll).
    destruct (poll_answer r_poll poll_interval) as [d|e|next_interval] eqn:Ha.
    + cbn [fst]. intros Hr. injection Hr as <-. exact (proj2 (poll_answer_return _ _ _ Ha)).
    + discriminate.
    + apply IH.
  - rewrite (poll_loop_timeout _ _ _ _ _ _ _ _ _ _ Hnow Hlt). discriminate.
Qed.

End Flow.

(** What [_device_flow] returns rather than raises is the object of the
    last answer, and it has a string under access_token. *)
Theorem device_flow_returns_token :
  forall (host : Host) (fuel : nat) (base_url client_id client_secret : string) (w : World)
         (payload : PyDict.dict),
  fst (_device_flow fuel base_url client_id client_secret w) = Some (inr payload) ->
  is_str (PyDict.get payload "access_token") = true.
Proof.
  intros host fuel base_url client_id client_secret w payload.
  unfold _device_flow. unfold bind at 1.
  destruct (_http_post_query base_url "/oauth2/device" _ w) as [r_code w1].
  destruct (HttpResponse.json r_code) as [| | | | | |d]; try discriminate.
  cbv zeta.
  destruct (nonempty_str (PyDict.get d "code")) as [code|]; [|discriminate].
  destruct (nonempty_str (PyDict.get d "user_code")); [|discriminate].
  destruct (nonempty_str (py_or _ _)); [|discriminate].
  destruct (int_value (PyDict.get d "expires_in")) as [expires_in|]; [|discriminate].
  destruct (int_value (PyDict.get d "interval")) as [interval|]; [|discriminate].
  unfold bind. destruct (time_time w1) as [now w2].
  apply poll_loop_returns.
Qed.

Lemma device_flow_returns_token_witness :
  let payload :=
    [("code", JStr "c"); ("user_code", JStr "u"); ("verification_uri", JStr "v");
     ("expires_in", JInt 600); ("interval", JInt 5); ("access_token", JStr "abc")] in
  let host := clock_host (JDict payload) in
  fst (@_device_flow host 1 "https://api.example/" "id" "secret" (0, [])) = Some (inr payload) /\
  is_str (PyDict.get payload "access_token") = true.
Proof.
  intros payload host.
  assert (Hrun : fst (@_device_flow host 1 "https://api.example/" "id" "secret" (0, []))
                 = Some (inr payload)) by reflexivity.
  split; [exact Hrun|].
  exact (device_flow_returns_token host 1 "https://api.example/" "id" "secret" (0, [])
           payload Hrun).
Defined.

(** ** The device flow ends *)

Section Ends.
Context `{Host}.
Variable clock : World -> Q.
Hypothesis Hclock : clock_ok clock.

Lemma post_query_clock : forall base_url path query (w : World),
  (clock w <= clock (snd (_http_post_query base_url path query w)))%Q.
Proof.
  intros base_url path query w. unfold _http_post_query, bind. cbv zeta.
  match goal with
  | |- context [urlopen ?rq w] =>
      pose proof (clock_urlopen clock Hclock rq w) as Hrq;
      destruct (urlopen rq w) as [[[st hd] raw] w']
  end.
  exact Hrq.
Qed.

Lemma poll_loop_ends :
  forall (n : nat) base_url client_id client_secret code deadline poll_interval (w : World),
  1 <= poll_interval ->
  (deadline - clock w <= inject_Z (Z.of_nat n))%Q ->
  exists result,
    forall fuel, (S n <= fuel)%nat ->
      fst (poll_loop fuel base_url client_id client_secret code deadline poll_interval w)
      = Some result.
Proof.
  induction n as [|n IH];
    intros base_url client_id client_secret code deadline poll_interval w Hpi Hleft.
  - destruct (time_time w) as [now w1] eqn:Hnow.
    destruct (clock_read clock Hclock w) as [Hread _]. rewrite Hnow in Hread. cbn [fst] in Hread.
    assert (Hlt : Qltb now deadline = false).
    { apply Qltb_false. subst now. change (inject_Z (Z.of_nat 0)) with 0%Q in Hleft. lra. }
    exists (inl (Error TIMED_OUT)). intros [|fuel] Hfuel; [lia|].
    now rewrite (poll_loop_timeout _ _ _ _ _ _ _ _ _ _ Hnow Hlt).
  - destruct (time_time w) as [now w1] eqn:Hnow.
    destruct (clock_read clock Hclock w) as [Hread Hafter].
    rewrite Hnow in Hread, Hafter. cbn [fst snd] in Hread, Hafter.
    destruct (Qltb now deadline) eqn:Hlt.
    + destruct (_http_post_query base_url "/oauth2/device"
                  (poll_query client_id client_secret code) w1) as [r_poll w2] eqn:Hpoll.
      pose proof (post_query_clock base_url "/oauth2/device"
                    (poll_query client_id client_secret code) w1) as Hrq.
      rewrite Hpoll in Hrq. cbn [snd] in Hrq.
      destruct (poll_answer r_poll poll_interval) as [d|e|next_interval] eqn:Ha.
      * exists (inr d). intros [|fuel] Hfuel; [lia|].
        now rewrite (poll_loop_pass _ _ _ _ _ _ _ _ _ _ _ _ Hnow Hlt Hpoll), Ha.
      * exists (inl e). intros [|fuel] Hfuel; [lia|].
        now rewrite (poll_loop_pass _ _ _ _ _ _ _ _ _ _ _ _ Hnow Hlt Hpoll), Ha.
      * pose proof (poll_answer_sleep _ _ _ Ha) as Hnext.
        pose proof (clock_sleep clock Hclock next_interval w2) as Hslept.
        destruct (IH base_url client_id client_secret code deadline next_interval
                    (time_sleep next_interval w2)) as [result Hresult]; [lia| |].
        { rewrite Nat2Z.inj_succ in Hleft. unfold Z.succ in Hleft.
          rewrite inject_Z_plus in Hleft.
          assert (Hone : (inject_Z 1 <= inject_Z next_interval)%Q)
            by (rewrite <- Zle_Qle; lia).
          change (inject_Z 1) with 1%Q in *. lra. }
        exists result. intros [|fuel] Hfuel; [lia|].
        rewrite (poll_loop_pass _ _ _ _ _ _ _ _ _ _ _ _ Hnow Hlt Hpoll), Ha.
        apply Hresult. lia.
    + exists (inl (Error TIMED_OUT)). intros [|fuel] Hfuel; [lia|].
      now rewrite (poll_loop_timeout _ _ _ _ _ _ _ _ _ _ Hnow Hlt).
Qed.

End Ends.

(** On a host whose clock does not run backwards and on which a sleep
    lasts at least as long as asked, [_device_flow] ends: there is a
    number of polls after which it has returned or raised, whatever the
    server answers; the result no longer depends on the bound. *)
Theorem device_flow_ends :
  forall (host : Host) (clock : World -> Q),
  clock_ok clock ->
  forall (base_url client_id client_secret : string) (w : World),
  exists fuel result,
    forall fuel', (fuel <= fuel')%nat ->
      fst (_device_flow fuel' base_url client_id client_secret w) = Some result.
Proof.
  intros host clock Hclock base_url client_id client_secret w.
  unfold _device_flow. unfold bind at 1.
  destruct (_http_post_query base_url "/oauth2/device" _ w) as [r_code w1].
  destruct (HttpResponse.json r_code) as [| | | | | |d];
    try (exists 0%nat; eexists; intros; reflexivity).
  cbv zeta.
  destruct (nonempty_str (PyDict.get d "code")) as [code|];
    [|exists 0%nat; eexists; intros; reflexivity].
  destruct (nonempty_str (PyDict.get d "user_code"));
    [|exists 0%nat; eexists; intros; reflexivity].
  destruct (nonempty_str (py_or _ _));
    [|exists 0%nat; eexists; intros; reflexivity].
  destruct (int_value (PyDict.get d "expires_in")) as [expires_in|];
    [|exists 0%nat; eexists; intros; reflexivity].
  destruct (int_value (PyDict.get d "interval")) as [interval|];
    [|exists 0%nat; eexists; intros; reflexivity].
  unfold bind. destruct (time_time w1) as [now w2] eqn:Hnow.
  destruct (clock_read clock Hclock w1) as [Hread Hafter].
  rewrite Hnow in Hread, Hafter. cbn [fst snd] in Hread, Hafter.
  destruct (poll_loop_ends clock Hclock (Z.to_nat (Z.max 1 expires_in)) base_url client_id
              client_secret code (now + inject_Z (Z.max 1 expires_in))%Q (Z.max 1 interval) w2)
    as [result Hresult]; [lia| |].
  { rewrite Z2Nat.id by lia. subst now. lra. }
  exists (S (Z.to_nat (Z.max 1 expires_in))), result. exact Hresult.
Qed.

Lemma clock_host_ok : forall answer,
  @clock_ok (clock_host answer) (fun w => inject_Z (fst w)).
Proof.
  intros answer. split.
  - intros w. split; [reflexivity | apply Qle_refl].
  - intros rq w. apply Qle_refl.
  - intros s w. cbn [time_sleep clock_host fst]. rewrite inject_Z_plus. apply Qle_refl.
Qed.

Lemma device_flow_ends_witness :
  let host :=
    clock_host (JDict [("code", JStr "c"); ("user_code", JStr "u");
                       ("verification_uri", JStr "v"); ("expires_in", JInt 600);
                       ("interval", JInt 5); ("error", JStr "authorization_pending")]) in
  exists fuel result,
    forall fuel', (fuel <= fuel')%nat ->
      fst (@_device_flow host fuel' "https://api.example/" "id" "secret" (0, [])) = Some result.
Proof.
  intros host.
  exact (device_flow_ends host (fun w => inject_Z (fst w)) (clock_host_ok _)
           "https://api.example/" "id" "secret" (0, [])).
Defined.

(** ** The polling interval *)

Section Interval.
Context `{Host}.
Variable I : World -> Prop.
Hypothesis Hrequest : forall rq, preserves I (urlopen rq).
Hypothesis Htime : preserves I time_time.

Lemma post_query_preserves : forall base_url path query,
  preserves I (_http_post_query base_url path query).
Proof.
  intros base_url path query. unfold _http_post_query. cbv zeta.
  apply preserves_bind; [apply Hrequest|]. intros [[st hd] raw]. apply preserves_ret.
Qed.

Lemma poll_loop_sleeps :
  forall (floor : Z), (forall s, floor <= s -> preserves I (sleep s)) ->
  forall fuel base_url client_id client_secret code deadline poll_interval,
  floor <= poll_interval ->
  preserves I (poll_loop fuel base_url client_id client_secret code deadline poll_interval).
Proof.
  intros floor Hsleep.
  induction fuel as [|fuel IH];
    intros base_url client_id client_secret code deadline poll_interval Hfloor;
    cbn [poll_loop]; [apply preserves_ret|].
  apply preserves_bind; [exact Htime|]. intros now.
  destruct (Qltb now deadline); [|apply preserves_ret].
  apply preserves_bind; [apply post_query_preserves|]. intros r_poll.
  destruct (poll_answer r_poll poll_interval) as [d|e|next_interval] eqn:Ha;
    try apply preserves_ret.
  pose proof (poll_answer_sleep _ _ _ Ha) as Hnext.
  apply preserves_bind; [apply Hsleep; lia|]. intros _. apply IH. lia.
Qed.

End Interval.

(** The polling loop never sleeps for less than the interval it was
    started with, and [_device_flow] never for less than one second:
    whatever requests, clock readings and sleeps of at least that length
    leave unchanged, the loop and the flow leave unchanged. *)
Theorem polling_never_hurries :
  forall (host : Host) (I : World -> Prop),
  (forall rq, preserves I (urlopen rq)) ->
  preserves I time_time ->
  (forall floor, (forall s, floor <= s -> preserves I (sleep s)) ->
   forall fuel base_url client_id client_secret code deadline poll_interval,
     floor <= poll_interval ->
     preserves I (poll_loop fuel base_url client_id client_secret code deadline poll_interval)) /\
  ((forall s, 1 <= s -> preserves I (sleep s)) ->
   forall fuel base_url client_id client_secret,
     preserves I (_device_flow fuel base_url client_id client_secret)).
Proof.
  intros host I Hrequest Htime. split.
  - intros floor Hsleep fuel base_url client_id client_secret code deadline poll_interval Hfloor.
    exact (poll_loop_sleeps I Hrequest Htime floor Hsleep fuel base_url client_id client_secret
             code deadline poll_interval Hfloor).
  - intros Hsleep fuel base_url client_id client_secret. unfold _device_flow.
    apply preserves_bind; [apply (post_query_preserves I Hrequest)|]. intros r_code.
    destruct (HttpResponse.json r_code) as [| | | | | |d]; try apply preserves_ret.
    cbv zeta.
    destruct (nonempty_str (PyDict.get d "code")) as [code|]; [|apply preserves_ret].
    destruct (nonempty_str (PyDict.get d "user_code")); [|apply preserves_ret].
    destruct (nonempty_str (py_or _ _)); [|apply preserves_ret].
    destruct (int_value (PyDict.get d "expires_in")) as [expires_in|]; [|apply preserves_ret].
    destruct (int_value (PyDict.get d "interval")) as [interval|]; [|apply preserves_ret].
    apply preserves_bind; [exact Htime|]. intros now.
    apply (poll_loop_sleeps I Hrequest Htime 1 Hsleep). lia.
Qed.

Lemma polling_never_hurries_witness :
  let host :=
    clock_host (JDict [("code", JStr "c"); ("user_code", JStr "u");
                       ("verification_uri", JStr "v"); ("expires_in", JInt 600);
                       ("interval", JInt 0); ("error", JStr "slow_down")]) in
  Forall (fun s => 1 <= s)
    (snd (snd (@_device_flow host 3 "https://api.example/" "id" "secret" (0, [])))).
Proof.
  intros host.
  refine (proj2 (polling_never_hurries host (fun w => Forall (fun s => 1 <= s) (snd w)) _ _) _
            3%nat "https://api.example/" "id" "secret" (0, []) (Forall_nil _)).
  - intros rq w Hw. exact Hw.
  - intros w Hw. exact Hw.
  - intros s Hs w Hw. cbn [sleep snd time_sleep host clock_host].
    apply Forall_app. split; [exact Hw | constructor; [exact Hs | constructor]].
Defined.

(** ** Base URLs *)

Lemma rev_string_append : forall a b,
  rev_string (String.append a b) = String.append (rev_string b) (rev_string a).
Proof.
  induction a as [|c a IH]; intros b; cbn [String.append rev_string].
  - now rewrite append_empty_r.
  - now rewrite IH, append_assoc.
Qed.

Lemma rev_string_involutive : forall s, rev_string (rev_string s) = s.
Proof.
  induction s as [|c s IH]; [reflexivity|].
  cbn [rev_string]. rewrite rev_string_append, IH. reflexivity.
Qed.

Lemma fmt_pair : forall a b, fmt [a; b] = String.append a b.
Proof. intros a b. unfold fmt. cbn [String.concat]. reflexivity. Qed.

Lemma endswith_append : forall u p, endswith (String.append u p) p = true.
Proof.
  intros u p. unfold endswith. rewrite rev_string_append.
  generalize (rev_string p) as r. induction r as [|c r IH]; cbn [String.append String.prefix].
  - destruct (rev_string u); reflexivity.
  - destruct (ascii_dec c c) as [_|Hne]; [exact IH | congruence].
Qed.

Lemma ensure_trailing_slash_append : forall u,
  _ensure_trailing_slash (String.append u "/") = String.append u "/".
Proof. intros u. unfold _ensure_trailing_slash. now rewrite endswith_append. Qed.

Lemma substring_append : forall a b,
  String.substring 0 (String.length a) (String.append a b) = a.
Proof.
  induction a as [|c a IH]; intros b; cbn [String.length String.append String.substring].
  - destruct b; reflexivity.
  - now rewrite IH.
Qed.

Lemma drop_last_append : forall a b,
  drop_last (String.length b) (String.append a b) = a.
Proof.
  intros a b. unfold drop_last. rewrite length_append.
  replace (String.length a + String.length b - String.length b)%nat with (String.length a)
    by lia.
  apply substring_append.
Qed.

Lemma rstrip_char_append : forall c u,
  rstrip_char c (String.append u (String c EmptyString)) = rstrip_char c u.
Proof.
  intros c u. unfold rstrip_char. rewrite rev_string_append.
  cbn [rev_string String.append lstrip_char]. now rewrite Ascii.eqb_refl.
Qed.

(** [_ensure_trailing_slash] returns a URL that ends with a slash, and
    leaves such a URL as it is.  From a v1 base URL that ends with /api/
    or with /api, [_derive_api2_base_url] returns what precedes that
    segment, with its slash: both spellings give the same api2 base. *)
Theorem api2_base_url_derivation : forall u : string,
  endswith (_ensure_trailing_slash u) "/" = true /\
  _ensure_trailing_slash (_ensure_trailing_slash u) = _ensure_trailing_slash u /\
  _derive_api2_base_url (String.append u "/api/") = String.append u "/" /\
  _derive_api2_base_url (String.append u "/api") = String.append u "/" /\
  endswith (_derive_api2_base_url u) "/" = true.
Proof.
  intros u.
  assert (Hends : forall v, endswith (_ensure_trailing_slash v) "/" = true).
  { intros v. unfold _ensure_trailing_slash. destruct (endswith v "/") eqn:E; [exact E|].
    rewrite fmt_pair. apply endswith_append. }
  split; [apply Hends|]. split; [|split; [|split]].
  - unfold _ensure_trailing_slash at 1. now rewrite Hends.
  - unfold _derive_api2_base_url. rewrite endswith_append.
    change "/api/" with (String.append "/" "api/"). rewrite <- append_assoc.
    change 4%nat with (String.length "api/"). rewrite drop_last_append.
    apply ensure_trailing_slash_append.
  - unfold _derive_api2_base_url. rewrite endswith_append.
    assert (Hno : endswith (String.append u "/api") "/api/" = false).
    { unfold endswith. rewrite rev_string_append. reflexivity. }
    rewrite Hno.
    change "/api" with (String.append "/" "api"). rewrite <- append_assoc.
    change 3%nat with (String.length "api"). rewrite drop_last_append.
    apply ensure_trailing_slash_append.
  - unfold _derive_api2_base_url.
    destruct (endswith u "/api/"); [apply Hends|].
    destruct (endswith u "/api"); apply Hends.
Qed.

(** The request [_http_request] sends does not depend on whether the base
    URL ends with a slash or the path begins with one. *)
Theorem request_url_ignores_slashes :
  forall (host : Host) (base_url method path : string) (token : option string)
         (query : PyDict.dict) (payload : Payload),
  _http_request (_ensure_trailing_slash base_url) method path token query payload
  = _http_request base_url method path token query payload /\
  _http_request base_url method (String "/" path) token query payload
  = _http_request base_url method path token query payload.
Proof.
  intros host base_url method path token query payload. split.
  - unfold _http_request, _ensure_trailing_slash.
    destruct (endswith base_url "/"); [reflexivity|].
    now rewrite fmt_pair, rstrip_char_append.
  - unfold _http_request. cbn [lstrip_char Ascii.eqb Bool.eqb]. reflexivity.
Qed.

(** ** The printed summary *)

Lemma summary_entry_lines_length : forall entry,
  (List.length (summary_entry_lines entry) <= 12)%nat.
Proof.
  intros [[test_id status] errs]. unfold summary_entry_lines.
  rewrite !length_app, length_map, length_firstn. cbn [List.length].
  destruct (10 <? List.length errs)%nat; cbn [List.length]; lia.
Qed.

Lemma flat_map_length_le : forall (A B : Type) (f : A -> list B) (n : nat) (l : list A),
  (forall a, List.length (f a) <= n)%nat ->
  (List.length (flat_map f l) <= n * List.length l)%nat.
Proof.
  intros A B f n l Hf. induction l as [|a l IH]; cbn [flat_map List.length]; [lia|].
  rewrite length_app. specialize (Hf a). lia.
Qed.

(** For each test of the summary, [_print_summary] prints its status and
    id, its first ten errors, and, when there are more than ten, a line
    with the number of those left out; so at most twelve lines a test,
    after the four lines of the header. *)
Theorem print_summary_lines :
  forall (results : Results) (out_dir : string),
  let printed := _print_summary results out_dir in
  (List.length printed <= 4 + 12 * List.length results)%nat /\
  (forall test_id status errs, In (test_id, status, errs) results ->
     In (fmt [status_str status; " "; test_id]) printed /\
     (forall e, In e (firstn 10 errs) -> In (fmt ["  - "; e]) printed) /\
     (forall more, List.length errs = (10 + S more)%nat ->
        In (fmt ["  - ... "; str_nat (S more); " more"]) printed)).
Proof.
  intros results out_dir. cbv zeta. unfold _print_summary. split.
  - rewrite length_app. cbn [List.length].
    pose proof (flat_map_length_le _ _ summary_entry_lines 12 results
                  summary_entry_lines_length). lia.
  - intros test_id status errs Hin.
    assert (Hsub : forall line, In line (summary_entry_lines (test_id, status, errs)) ->
              In line ([EmptyString; "KinoPub API test summary"; fmt ["- Output: "; out_dir];
                        EmptyString] ++ flat_map summary_entry_lines results)).
    { intros line Hline. apply in_or_app. right. apply in_flat_map.
      exists (test_id, status, errs). now split. }
    split; [|split].
    + apply Hsub. unfold summary_entry_lines. apply in_or_app. left. now left.
    + intros e He. apply Hsub. unfold summary_entry_lines.
      apply in_or_app. right. apply in_or_app. left.
      apply in_map_iff. exists e. now split.
    + intros more Hmore. apply Hsub. unfold summary_entry_lines.
      apply in_or_app. right. apply in_or_app. right.
      rewrite Hmore.
      replace (10 <? 10 + S more)%nat with true by (symmetry; apply Nat.ltb_lt; lia).
      replace (10 + S more - 10)%nat with (S more) by lia. now left.
Qed.

Lemma print_summary_lines_witness :
  let results : Results := [("test-user", PASS, []); ("test-tv", FAIL, ["tv: response is not JSON"])] in
  In "FAIL test-tv" (_print_summary results "out") /\
  In "  - tv: response is not JSON" (_print_summary results "out").
Proof.
  intros results.
  destruct (proj2 (print_summary_lines results "out") "test-tv" FAIL
              ["tv: response is not JSON"] (or_intror (or_introl eq_refl))) as (Hline & Herr & _).
  split; [exact Hline | exact (Herr "tv: response is not JSON" (or_introl eq_refl))].
Defined.

(** ** Masking *)

(** What [_mask] prints of a secret longer than [keep] depends only on
    the length of the secret and its first [keep] characters; a secret of
    at most [keep] characters, or none, is not printed at all. *)
Theorem mask_shows_prefix_only :
  forall (keep : Z) (s1 s2 : string),
  0 <= keep ->
  (Z.of_nat (String.length s1) <= keep -> _mask (Some s1) keep = "<redacted>") /\
  _mask None keep = "<redacted>" /\
  (String.length s1 = String.length s2 ->
   String.substring 0 (Z.to_nat keep) s1 = String.substring 0 (Z.to_nat keep) s2 ->
   _mask (Some s1) keep = _mask (Some s2) keep).
Proof.
  intros keep s1 s2 Hkeep. unfold _mask, slice_to. split; [|split].
  - intros Hshort. apply Z.leb_le in Hshort. now rewrite Hshort.
  - cbn [String.length]. replace (Z.of_nat 0 <=? keep) with true; [reflexivity|].
    symmetry. apply Z.leb_le. simpl. exact Hkeep.
  - intros Hlen Hprefix. rewrite Hlen.
    replace (keep <? 0) with false by (symmetry; apply Z.ltb_ge; exact Hkeep).
    now rewrite Hprefix.
Qed.

Lemma mask_shows_prefix_only_witness :
  _mask (Some "abcdef-secret-1") 6 = _mask (Some "abcdef-hidden-2") 6.
Proof.
  exact (proj2 (proj2 (mask_shows_prefix_only 6 "abcdef-secret-1" "abcdef-hidden-2"
                         ltac:(lia))) eq_refl eq_refl).
Defined.

(** ** Responses *)

(** The response [_http_request] returns carries the status, the headers
    and the text of the answer; its JSON is [None] or what [json.loads]
    made of the whole text, and is only there when the text is not empty
    and the content type names JSON or the text begins, after white
    space, with a brace or a bracket.  A body that does not parse gives
    [None], not an error. *)
Theorem response_reflects_answer :
  forall (host : Host) (base_url method path : string) (token : option string)
         (query : PyDict.dict) (payload : Payload) (w : World),
  let answer := fst (urlopen (request_of base_url method path token query payload) w) in
  let resp := fst (_http_request base_url method path token query payload w) in
  HttpResponse.status resp = fst (fst answer) /\
  HttpResponse.headers resp = snd (fst answer) /\
  HttpResponse.raw_text resp = snd answer /\
  snd (_http_request base_url method path token query payload w)
  = snd (urlopen (request_of base_url method path token query payload) w) /\
  (HttpResponse.json resp = JNull \/
   (json_loads (snd answer) = Some (HttpResponse.json resp) /\
    nonempty (snd answer) = true /\
    (_is_json_content_type (snd (fst answer)) = true \/
     startswith (lstrip (snd answer)) "{" = true \/
     startswith (lstrip (snd answer)) "[" = true))).
Proof.
  intros host base_url method path token query payload w. cbv zeta.
  unfold _http_request, bind, ret. fold (request_of base_url method path token query payload).
  destruct (urlopen (request_of base_url method path token query payload) w)
    as [[[st hd] raw] w'].
  cbn [fst snd HttpResponse.status HttpResponse.headers HttpResponse.raw_text HttpResponse.json].
  repeat (split; [reflexivity|]).
  unfold parsed_json.
  destruct (nonempty raw); [|now left].
  destruct (_is_json_content_type hd) eqn:Ect; cbn [orb].
  - destruct (json_loads raw) as [v|]; [right | now left]. repeat split. now left.
  - destruct (startswith (lstrip raw) "{") eqn:Eb; cbn [orb].
    + destruct (json_loads raw) as [v|]; [right | now left]. repeat split. right. now left.
    + destruct (startswith (lstrip raw) "[") eqn:Ek; [|now left].
      destruct (json_loads raw) as [v|]; [right | now left]. repeat split. right. now right.
Qed.

(** ** A device-code answer that cannot be used *)

(** When the answer to the device-code request is not an object, or lacks
    a non-empty code, user code or verification URI, or an integer
    expires_in or interval, [_device_flow] raises after that one request:
    it reads no clock, never polls and never sleeps. *)
Theorem device_code_validation :
  forall (host : Host) (fuel : nat) (base_url client_id client_secret : string) (w : World),
  let request :=
    _http_post_query base_url "/oauth2/device"
      [("grant_type", JStr "device_code"); ("client_id", JStr client_id);
       ("client_secret", JStr client_secret)] w in
  (forall d, HttpResponse.json (fst request) = JDict d ->
     nonempty_str (PyDict.get d "code") = None \/
     nonempty_str (PyDict.get d "user_code") = None \/
     nonempty_str (py_or (PyDict.get d "verification_uri")
                     (PyDict.get d "verification_uri_complete")) = None \/
     int_value (PyDict.get d "expires_in") = None \/
     int_value (PyDict.get d "interval") = None) ->
  exists msg,
    _device_flow fuel base_url client_id client_secret w = (Some (inl (Error msg)), snd request).
Proof.
  intros host fuel base_url client_id client_secret w. cbv zeta.
  unfold _device_flow. unfold bind at 1.
  destruct (_http_post_query base_url "/oauth2/device" _ w) as [r_code w1].
  cbn [fst snd]. intros Hbad.
  destruct (HttpResponse.json r_code) as [| | | | | |d]; try (eexists; reflexivity).
  specialize (Hbad d eq_refl). cbv zeta.
  destruct (nonempty_str (PyDict.get d "code")) as [code|]; [|eexists; reflexivity].
  destruct (nonempty_str (PyDict.get d "user_code")); [|eexists; reflexivity].
  destruct (nonempty_str (py_or _ _)); [|eexists; reflexivity].
  destruct (int_value (PyDict.get d "expires_in")) as [expires_in|]; [|eexists; reflexivity].
  destruct (int_value (PyDict.get d "interval")) as [interval|]; [|eexists; reflexivity].
  destruct Hbad as [Hb|[Hb|[Hb|[Hb|Hb]]]]; discriminate Hb.
Qed.

Lemma device_code_validation_witness :
  let host := clock_host (JDict [("code", JStr "c"); ("user_code", JStr EmptyString)]) in
  exists msg,
    @_device_flow host 5 "https://api.example/" "id" "secret" (0, [])
    = (Some (inl (Error msg)), (0, [])).
Proof.
  intros host.
  refine (device_code_validation host 5 "https://api.example/" "id" "secret" (0, []) _).
  intros d Hd. injection Hd as <-. right. left. reflexivity.
Defined.

(** ** A run that gets no item id *)

Section Stops.
Context `{Host}.

Lemma run_basics_items_entry : forall b t ci cs,
  post (run_basics b t ci cs)
    (fun r => is_none (snd r) = true ->
              exists errs, In ("test-content-items", FAIL, errs) (fst (fst r))).
Proof.
  intros b t ci cs. unfold run_basics.
  do 4 (apply post_bind_any; intro; cbv beta).
  apply post_bind_any; intros [o1 x1].
  apply post_bind_any; intros [o_genres genre_id].
  do 2 (apply post_bind_any; intro; cbv beta).
  eapply post_bind; [apply test_items_listing_no_id|].
  intros [[s errs ctx] item_id] Hitems. cbn [fst snd TestOutcome.status] in Hitems.
  apply post_bind_any; intro. apply post_ret. cbn [fst snd].
  intros Hnone. rewrite (Hitems Hnone). exists errs.
  apply in_add_there. apply in_add_entry.
Qed.

End Stops.

(** The summary of a run begins with the ten tests that need no item id.
    It either ends there, the items listing having given no item id: then
    the listing test is recorded as FAIL and the exit code is 1; or it
    goes on to at least thirty-three lines. *)
Theorem run_stops_without_item_id :
  forall (host : Host) (base_url : string) (token_arg : option string) (token_file : string)
         (client_id client_secret : option string)
         (include_mutating include_destructive include_api2 : bool)
         (api2_base_url api2_device_token : option string) (api2_upload_report : bool)
         (w : World),
  match fst (_run_all base_url token_arg token_file client_id client_secret
               include_mutating include_destructive include_api2
               api2_base_url api2_device_token api2_upload_report w) with
  | (code, Some results) =>
      firstn 10 (ids results) = BASIC_IDS /\
      ((ids results = BASIC_IDS /\ code = 1 /\
        exists errs, In ("test-content-items", FAIL, errs) results) \/
       (33 <= List.length results)%nat)
  | (code, None) => True
  end.
Proof.
  intros. revert w.
  change (post (_run_all base_url token_arg token_file client_id client_secret
                  include_mutating include_destructive include_api2
                  api2_base_url api2_device_token api2_upload_report)
            (fun r => match r with
                      | (code, Some results) =>
                          firstn 10 (ids results) = BASIC_IDS /\
                          ((ids results = BASIC_IDS /\ code = 1 /\
                            exists errs, In ("test-content-items", FAIL, errs) results) \/
                           (33 <= List.length results)%nat)
                      | (code, None) => True
                      end)).
  assert (Hlong : forall results a m v c,
            ids results = inventory a m v c ->
            firstn 10 (ids results) = BASIC_IDS /\ (33 <= List.length results)%nat).
  { intros results a m v c Hids. split.
    - rewrite Hids. reflexivity.
    - rewrite <- (length_map (fun r => fst (fst r)) results). fold (ids results).
      rewrite Hids. destruct a, m, v, c; cbn; lia. }
  unfold _run_all.
  destruct (_resolve_access_token token_arg token_file) as [token token_source].
  destruct (opt_truthy token); cbn [negb]; [|now apply post_ret].
  eapply post_bind; [apply post_conj; [apply run_basics_post | apply run_basics_items_entry]|].
  intros [[results genre_id] item_id] [[Hbasic _] Hentry]. cbn [fst snd] in Hbasic, Hentry.
  destruct (is_none item_id).
  { apply post_ret. split; [rewrite Hbasic; reflexivity|]. left.
    split; [exact Hbasic|]. split; [reflexivity | exact (Hentry eq_refl)]. }
  eapply post_bind; [apply run_with_item_ids|].
  intros r1 (ml & vl & cv & Hids). rewrite Hbasic in Hids.
  destruct include_api2.
  - eapply post_bind; [apply run_api2_ids|].
    intros r2 Hids2. apply post_ret.
    destruct (Hlong r2 true ml vl cv) as [Hfirst Hlen];
      [rewrite Hids2, Hids; unfold inventory; now rewrite <- app_assoc|].
    split; [exact Hfirst | now right].
  - apply post_bind_ret. apply post_ret.
    match goal with
    | |- firstn 10 (ids ?r) = _ /\ _ =>
        destruct (Hlong r false ml vl cv) as [Hfirst Hlen];
          [rewrite ids_add, Hids; unfold inventory; now rewrite <- app_assoc|]
    end.
    split; [exact Hfirst | now right].
Qed.
